(** * TaskFlow (MERN App backend): controllers and models, embedded in Rocq

    The development follows the layout of the backend:
    - [Js]: the JavaScript values a request body can carry;
    - the Mongoose models ([User], [Project], [Task], [Comment]) as records,
      with their pre-save middleware and instance methods;
    - the controllers (project, task, comment, auth) as functions from a
      database state and a request to a new state and a JSON response.

    Conventions.  An [ObjectId] is the string that [toString()] yields, a
    [Date] is a number of milliseconds, the current time ([new Date()]) and
    the identifier of a created document are arguments of the operation
    that needs them.  A collection is the list of its documents in
    insertion order; [_id] is unique inside a collection, which is what the
    store guarantees.  Presentation-only fields that no controller reads
    (avatar, budget, attachments, dependencies) are left out of the
    records.

    Identifiers in requests.  A request names a document by a string, and
    the route validator [isMongoId] admits the hexadecimal digits in either
    case, while the store prints an identifier in lower case.  The
    controllers use such a string in two ways: they compare it as a string
    with a printed identifier ([===], [!==]), and they hand it to the
    store, which casts it ([Mongoose.castObjectId]).  The comparisons of
    strings are modelled as they are written, and so is the cast of a
    value that is stored ([members.push]) and of the [project] that the
    body of [createTask] names.  A lookup by the identifier of the route
    ([findById] on [req.params.id], a query filter, [subtasks.id]) takes
    the string as the store prints it; the statements that depend on this
    spelling carry the hypothesis [Mongoose.castObjectId s = s].

    Answers.  A schema validator that makes [create] or an update throw is
    part of the controller function, which then answers 500 as the
    [catch] block of the handler does.  The list queries ([getTasks],
    [getProjects], [getComments]) are the [try] block alone: they leave
    out the answer 500, without data, that the handler gives when the
    store rejects the query (a search text that is no regular expression,
    an [assignee] that is no identifier, a negative [skip]); what is
    proved of their answers is proved of the data they return. *)

From Stdlib Require Import Ascii String List ZArith QArith Qround Bool Lia.
From Stdlib Require Import Sorted Permutation DecimalString.
Import ListNotations.
Open Scope string_scope.
Open Scope Z_scope.
Set Warnings "-register-all".

Definition ObjectId := string.
Definition Date := Z.

(** ** JavaScript values (request bodies, JSON responses) *)

Module Js.

Inductive value : Type :=
| Undefined
| Null
| Bool (b : bool)
| Num (z : Z)
| Str (s : string)
| Arr (items : list value)
| Obj (fields : list (string * value)).

(** [ToBoolean]: undefined, null, false, 0 and the empty string are falsy;
    every object and array is truthy. *)
Definition truthy (v : value) : bool :=
  match v with
  | Undefined | Null => false
  | Bool b => b
  | Num z => negb (z =? 0)
  | Str s => negb (s =? "")%string
  | Arr _ | Obj _ => true
  end.

(** [v === 'lit']: strict equality with a string literal. *)
Definition strict_eq_str (v : value) (lit : string) : bool :=
  match v with
  | Str s => (s =? lit)%string
  | _ => false
  end.

(** [a || b] *)
Definition or (a b : value) : value := if truthy a then a else b.

(** Property lookup in an object literal. *)
Fixpoint get (key : string) (fields : list (string * value)) : option value :=
  match fields with
  | [] => None
  | (k, v) :: rest => if (k =? key)%string then Some v else get key rest
  end.

End Js.

(** ** Strings: [toLowerCase] and [trim] *)

Module Text.

(** [String.prototype.toLowerCase] on the ASCII letters. *)
Definition lower_ascii (c : ascii) : ascii :=
  let n := nat_of_ascii c in
  if ((65 <=? n) && (n <=? 90))%nat then ascii_of_nat (n + 32) else c.

Fixpoint toLowerCase (s : string) : string :=
  match s with
  | EmptyString => EmptyString
  | String c rest => String (lower_ascii c) (toLowerCase rest)
  end.

(** The ASCII white space that [String.prototype.trim] strips: tab, line
    feed, vertical tab, form feed, carriage return and space. *)
Definition is_space (c : ascii) : bool :=
  let n := nat_of_ascii c in
  (((9 <=? n) && (n <=? 13)) || (n =? 32))%nat.

Fixpoint trimStart (s : string) : string :=
  match s with
  | EmptyString => EmptyString
  | String c rest => if is_space c then trimStart rest else s
  end.

Fixpoint trimEnd (s : string) : string :=
  match s with
  | EmptyString => EmptyString
  | String c rest =>
      let rest' := trimEnd rest in
      if is_space c && (rest' =? "")%string then EmptyString
      else String c rest'
  end.

(** [String.prototype.trim], which the [trim: true] setter of a schema
    path applies. *)
Definition trim (s : string) : string := trimEnd (trimStart s).

End Text.

(** ** What the ODM does to the values it is handed *)

Module Mongoose.

Definition is_hex (c : ascii) : bool :=
  let n := nat_of_ascii c in
  (((48 <=? n) && (n <=? 57)) || ((65 <=? n) && (n <=? 70))
   || ((97 <=? n) && (n <=? 102)))%nat.

(** The strings of 24 characters that the cast to an ObjectId accepts: 24
    hexadecimal digits, in either case.  On any other string of that
    length the cast throws. *)
Definition validObjectId (s : string) : bool :=
  (String.length s =? 24)%nat && forallb is_hex (list_ascii_of_string s).

(** The cast of a request string to an ObjectId, read back with
    [toString()]: the same hexadecimal digits, in lower case. *)
Definition castObjectId (s : string) : ObjectId := Text.toLowerCase s.

(** The cast of a value to a String path ([castString]): [value._id] when it
    is a non-empty string, else [value.toString()] unless that is the
    [toString] of a plain object or the value is an array, in which case
    the cast fails; numbers are the JSON integers.  [null] and [undefined]
    never reach the cast of a path that the controllers fill. *)
Definition castString (v : Js.value) : option string :=
  match v with
  | Js.Str s => Some s
  | Js.Num z => Some (NilZero.string_of_int (Z.to_int z))
  | Js.Bool b => Some (if b then "true" else "false")
  | Js.Obj fields =>
      match Js.get "_id" fields with
      | Some (Js.Str s) => if (s =? "")%string then None else Some s
      | _ => None
      end
  | Js.Arr _ | Js.Undefined | Js.Null => None
  end.

End Mongoose.

(** ** Route validators *)

Module Validator.

(** [isHexadecimal]: the pattern [/^(0x|0h)?[0-9A-F]+$/i]. *)
Definition isHexadecimal (s : string) : bool :=
  let digits (d : string) :=
    negb (d =? "")%string
    && forallb Mongoose.is_hex (list_ascii_of_string d) in
  match s with
  | String a (String b rest) =>
      if Ascii.eqb a "0"%char
         && (Ascii.eqb (Text.lower_ascii b) "x"%char
             || Ascii.eqb (Text.lower_ascii b) "h"%char)
         && digits rest
      then true
      else digits s
  | _ => digits s
  end.

(** [isMongoId()]: a hexadecimal string of 24 characters. *)
Definition isMongoId (s : string) : bool :=
  isHexadecimal s && (String.length s =? 24)%nat.

End Validator.

(** ** Numbers

    A [Number] that holds an integer is kept as that integer.  Every
    integer of magnitude up to [2^53] is a Number; beyond, a Number keeps
    53 significant bits, and the result of an addition is the exact sum
    rounded to the nearest Number, ties going to the even significand. *)

Module Number.

Definition round (n : Z) : Z :=
  let a := Z.abs n in
  if a <? 2 ^ 53 then n
  else
    let shift := Z.log2 a - 52 in
    let q := Z.shiftr a shift in
    let r := a - Z.shiftl q shift in
    let half := 2 ^ (shift - 1) in
    let q' := if (half <? r) || ((half =? r) && Z.odd q) then q + 1 else q in
    Z.sgn n * Z.shiftl q' shift.

(** [a + b] *)
Definition add (a b : Z) : Z := round (a + b).

End Number.

(** ** Enumerations of the schemas *)

Module UserRole.
Inductive t := user | manager | admin.
Definition eqb (a b : t) : bool :=
  match a, b with
  | user, user | manager, manager | admin, admin => true
  | _, _ => false
  end.
Definition of_string (s : string) : option t :=
  if (s =? "user")%string then Some user
  else if (s =? "manager")%string then Some manager
  else if (s =? "admin")%string then Some admin
  else None.
End UserRole.

Module MemberRole.
Inductive t := viewer | member | admin.
Definition eqb (a b : t) : bool :=
  match a, b with
  | viewer, viewer | member, member | admin, admin => true
  | _, _ => false
  end.
End MemberRole.

Module ProjectStatus.
Inductive t := planning | in_progress | on_hold | completed | cancelled.
Definition eqb (a b : t) : bool :=
  match a, b with
  | planning, planning | in_progress, in_progress | on_hold, on_hold
  | completed, completed | cancelled, cancelled => true
  | _, _ => false
  end.
Definition name (s : t) : string :=
  match s with
  | planning => "planning" | in_progress => "in-progress"
  | on_hold => "on-hold" | completed => "completed" | cancelled => "cancelled"
  end.
End ProjectStatus.

Module TaskStatus.
Inductive t := todo | in_progress | in_review | completed.
Definition eqb (a b : t) : bool :=
  match a, b with
  | todo, todo | in_progress, in_progress
  | in_review, in_review | completed, completed => true
  | _, _ => false
  end.
Definition name (s : t) : string :=
  match s with
  | todo => "todo" | in_progress => "in-progress"
  | in_review => "in-review" | completed => "completed"
  end.
End TaskStatus.

Module Priority.
Inductive t := low | medium | high | critical.
Definition eqb (a b : t) : bool :=
  match a, b with
  | low, low | medium, medium | high, high | critical, critical => true
  | _, _ => false
  end.
Definition name (p : t) : string :=
  match p with
  | low => "low" | medium => "medium" | high => "high" | critical => "critical"
  end.
End Priority.

(** ** HTTP responses: [res.status(code).json({ success, message, data })] *)

Module Http.
Record Response (A : Type) : Type := mkResponse {
  status : nat;
  success : bool;
  message : option string;
  data : option A
}.
Arguments mkResponse {A} _ _ _ _.
Arguments status {A} _.
Arguments success {A} _.
Arguments message {A} _.
Arguments data {A} _.

Definition fail {A : Type} (code : nat) (msg : string) : Response A :=
  mkResponse code false (Some msg) None.
Definition ok {A : Type} (code : nat) (msg : option string) (d : option A)
  : Response A :=
  mkResponse code true msg d.

(** A list response: the documents and the [pagination] object literal. *)
Record Listing (A : Type) : Type := mkListing {
  docs : list A;
  pagination : list (string * Js.value)
}.
Arguments mkListing {A} _ _.
Arguments docs {A} _.
Arguments pagination {A} _.

End Http.

(** The authenticated user the [protect] middleware attaches to the request
    ([req.user.id], [req.user.role]). *)
Module Requester.
Record t := mk { id : ObjectId; role : UserRole.t }.
End Requester.

(** ** Models *)

Module Member.
Record t := mk { user : ObjectId; role : MemberRole.t; joinedAt : Date }.
End Member.

Module Project.
Record t := mk {
  _id : ObjectId;
  name : string;
  description : option string;
  status : ProjectStatus.t;
  priority : Priority.t;
  owner : ObjectId;
  members : list Member.t;
  startDate : Date;
  dueDate : option Date;
  completedAt : option Date;
  tags : list string;
  color : string;
  isPublic : bool;
  isArchived : bool;
  createdAt : Date;
  updatedAt : Date
}.

Definition set_members (p : t) (ms : list Member.t) : t :=
  mk (_id p) (name p) (description p) (status p) (priority p) (owner p) ms
     (startDate p) (dueDate p) (completedAt p) (tags p) (color p)
     (isPublic p) (isArchived p) (createdAt p) (updatedAt p).

Definition set_completedAt (p : t) (d : option Date) : t :=
  mk (_id p) (name p) (description p) (status p) (priority p) (owner p)
     (members p) (startDate p) (dueDate p) d (tags p) (color p)
     (isPublic p) (isArchived p) (createdAt p) (updatedAt p).

Definition set_updatedAt (p : t) (d : Date) : t :=
  mk (_id p) (name p) (description p) (status p) (priority p) (owner p)
     (members p) (startDate p) (dueDate p) (completedAt p) (tags p) (color p)
     (isPublic p) (isArchived p) (createdAt p) d.

(** [ProjectSchema.pre('save')]: stamps [completedAt] the first time the
    status is saved as completed. *)
Definition pre_save (statusModified : bool) (now : Date) (p : t) : t :=
  if statusModified && ProjectStatus.eqb (status p) ProjectStatus.completed
     && negb (match completedAt p with Some _ => true | None => false end)
  then set_completedAt p (Some now)
  else p.

(** [ProjectSchema.methods.isMember]: the owner or any entry of [members];
    populated and bare references both compare by identifier. *)
Definition isMember (p : t) (userId : ObjectId) : bool :=
  (owner p =? userId)%string
  || existsb (fun m => (Member.user m =? userId)%string) (members p).

(** [ProjectSchema.methods.addMember]: the user is pushed unless
    [isMember] already holds; [role] defaults to ['member'] and [joinedAt]
    to the current time. *)
Definition addMember (p : t) (userId : ObjectId) (role : option MemberRole.t)
  (now : Date) : t :=
  if negb (isMember p userId)
  then set_members p
         (members p ++
          [Member.mk userId
             (match role with Some r => r | None => MemberRole.member end)
             now])
  else p.

End Project.

Module Subtask.
Record t := mk {
  _id : ObjectId;
  title : string;
  isCompleted : bool;
  completedAt : option Date
}.
End Subtask.

Module Task.
Record t := mk {
  _id : ObjectId;
  title : string;
  description : option string;
  status : TaskStatus.t;
  priority : Priority.t;
  project : ObjectId;
  creator : ObjectId;
  assignee : option ObjectId;
  subtasks : list Subtask.t;
  startDate : option Date;
  dueDate : option Date;
  completedAt : option Date;
  estimatedHours : Q;
  actualHours : Q;
  tags : list string;
  order : Z;
  watchers : list ObjectId;
  isArchived : bool;
  createdAt : Date;
  updatedAt : Date
}.

Definition set_status (x : t) (s : TaskStatus.t) : t :=
  mk (_id x) (title x) (description x) s (priority x) (project x) (creator x)
     (assignee x) (subtasks x) (startDate x) (dueDate x) (completedAt x)
     (estimatedHours x) (actualHours x) (tags x) (order x) (watchers x)
     (isArchived x) (createdAt x) (updatedAt x).

Definition set_order (x : t) (o : Z) : t :=
  mk (_id x) (title x) (description x) (status x) (priority x) (project x)
     (creator x) (assignee x) (subtasks x) (startDate x) (dueDate x)
     (completedAt x) (estimatedHours x) (actualHours x) (tags x) o
     (watchers x) (isArchived x) (createdAt x) (updatedAt x).

Definition set_completedAt (x : t) (d : option Date) : t :=
  mk (_id x) (title x) (description x) (status x) (priority x) (project x)
     (creator x) (assignee x) (subtasks x) (startDate x) (dueDate x) d
     (estimatedHours x) (actualHours x) (tags x) (order x) (watchers x)
     (isArchived x) (createdAt x) (updatedAt x).

Definition set_subtasks (x : t) (sts : list Subtask.t) : t :=
  mk (_id x) (title x) (description x) (status x) (priority x) (project x)
     (creator x) (assignee x) sts (startDate x) (dueDate x) (completedAt x)
     (estimatedHours x) (actualHours x) (tags x) (order x) (watchers x)
     (isArchived x) (createdAt x) (updatedAt x).

Definition set_updatedAt (x : t) (d : Date) : t :=
  mk (_id x) (title x) (description x) (status x) (priority x) (project x)
     (creator x) (assignee x) (subtasks x) (startDate x) (dueDate x)
     (completedAt x) (estimatedHours x) (actualHours x) (tags x) (order x)
     (watchers x) (isArchived x) (createdAt x) d.

(** [TaskSchema.pre('save')]: when the status was modified, a task saved as
    completed without a timestamp gets one, and a task saved with any other
    status loses it. *)
Definition pre_save (statusModified : bool) (now : Date) (x : t) : t :=
  if statusModified then
    if TaskStatus.eqb (status x) TaskStatus.completed
       && negb (match completedAt x with Some _ => true | None => false end)
    then set_completedAt x (Some now)
    else if negb (TaskStatus.eqb (status x) TaskStatus.completed)
    then set_completedAt x None
    else x
  else x.

(** [subtasks.id(subtaskId)] followed by an in-place update of the
    sub-document it returns: the first subtask with that identifier. *)
Fixpoint update_subtask (f : Subtask.t -> Subtask.t) (subtaskId : ObjectId)
  (sts : list Subtask.t) : list Subtask.t :=
  match sts with
  | [] => []
  | s :: rest =>
      if (Subtask._id s =? subtaskId)%string then f s :: rest
      else s :: update_subtask f subtaskId rest
  end.

Definition subtask_by_id (subtaskId : ObjectId) (sts : list Subtask.t)
  : option Subtask.t :=
  find (fun s => (Subtask._id s =? subtaskId)%string) sts.

(** The two assignments of the toggle, on one subtask. *)
Definition toggled (now : Date) (s : Subtask.t) : Subtask.t :=
  let flipped := negb (Subtask.isCompleted s) in
  Subtask.mk (Subtask._id s) (Subtask.title s) flipped
             (if flipped then Some now else None).

(** [TaskSchema.methods.toggleSubtask] *)
Definition toggleSubtask (now : Date) (subtaskId : ObjectId) (x : t) : t :=
  match subtask_by_id subtaskId (subtasks x) with
  | Some _ => set_subtasks x (update_subtask (toggled now) subtaskId (subtasks x))
  | None => x
  end.

End Task.

Module Reaction.
Record t := mk { user : ObjectId; type : string }.
End Reaction.

Module Comment.
Record t := mk {
  _id : ObjectId;
  content : string;
  task : ObjectId;
  author : ObjectId;
  mentions : list ObjectId;
  isEdited : bool;
  editedAt : option Date;
  parentComment : option ObjectId;
  reactions : list Reaction.t;
  isDeleted : bool;
  createdAt : Date;
  updatedAt : Date
}.

(** [CommentSchema.pre('save')]: a content change on a stored comment marks
    it as edited. *)
Definition pre_save (contentModified isNew : bool) (now : Date) (c : t) : t :=
  if contentModified && negb isNew then
    mk (_id c) (content c) (task c) (author c) (mentions c) true (Some now)
       (parentComment c) (reactions c) (isDeleted c) (createdAt c) (updatedAt c)
  else c.

Definition set_updatedAt (c : t) (d : Date) : t :=
  mk (_id c) (content c) (task c) (author c) (mentions c) (isEdited c)
     (editedAt c) (parentComment c) (reactions c) (isDeleted c) (createdAt c) d.

Definition set_reactions (c : t) (rs : list Reaction.t) : t :=
  mk (_id c) (content c) (task c) (author c) (mentions c) (isEdited c)
     (editedAt c) (parentComment c) rs (isDeleted c) (createdAt c)
     (updatedAt c).

(** [CommentSchema.methods.addReaction]: the reactions of the user are
    filtered out, then the new one is pushed; [type] defaults to
    ['like']. *)
Definition addReaction (c : t) (userId : ObjectId) (type : option string)
  : t :=
  set_reactions c
    (filter (fun r => negb (Reaction.user r =? userId)%string) (reactions c)
     ++ [Reaction.mk userId
           (match type with Some ty => ty | None => "like" end)]).

(** [CommentSchema.methods.removeReaction] *)
Definition removeReaction (c : t) (userId : ObjectId) : t :=
  set_reactions c
    (filter (fun r => negb (Reaction.user r =? userId)%string) (reactions c)).

End Comment.

Module User.
Record t := mk {
  _id : ObjectId;
  name : string;
  email : string;
  password : string;
  role : UserRole.t;
  department : string;
  phone : option string;
  isActive : bool;
  createdAt : Date
}.
End User.


(** ** Helpers of the query layer *)

(** [x || d] and [const { x = d } = ...] on an optional input. *)
Definition or_default {A : Type} (o : option A) (d : A) : A :=
  match o with Some a => a | None => d end.

(** [if (param)] on an optional query-string parameter: an empty string
    counts as absent. *)
Definition given (o : option string) : option string :=
  match o with
  | Some s => if (s =? "")%string then None else Some s
  | None => None
  end.

(** [status.split(',')] *)
Fixpoint split_comma_from (cur : string) (s : string) : list string :=
  match s with
  | EmptyString => [cur]
  | String c rest =>
      if Ascii.eqb c ","%char then cur :: split_comma_from "" rest
      else split_comma_from (cur ++ String c "") rest
  end.

Definition split_comma (s : string) : list string := split_comma_from "" s.

(** [Math.ceil] and [Math.round] on an exact quotient. *)
Definition Math_ceil (q : Q) : Z := Qceiling q.
Definition Math_round (q : Q) : Z := Qfloor (q + (1 # 2)).

(** Values a document field can be sorted on; a missing value sorts
    first. *)
Inductive SortKey :=
| KNull
| KNum (z : Z)
| KRat (q : Q)
| KStr (s : string)
| KBool (b : bool).

Definition key_leb (a b : SortKey) : bool :=
  match a, b with
  | KNull, _ => true
  | _, KNull => false
  | KNum x, KNum y => x <=? y
  | KRat x, KRat y => Qle_bool x y
  | KStr x, KStr y => String.leb x y
  | KBool x, KBool y => implb x y
  | _, _ => true
  end.

Definition key_of_date (d : option Date) : SortKey :=
  match d with Some z => KNum z | None => KNull end.

(** ** The database: one list of documents per collection *)

Record Db := mkDb {
  projects : list Project.t;
  tasks : list Task.t;
  comments : list Comment.t;
  users : list User.t
}.

Definition set_projects (db : Db) (ps : list Project.t) : Db :=
  mkDb ps (tasks db) (comments db) (users db).
Definition set_tasks (db : Db) (ts : list Task.t) : Db :=
  mkDb (projects db) ts (comments db) (users db).
Definition set_comments (db : Db) (cs : list Comment.t) : Db :=
  mkDb (projects db) (tasks db) cs (users db).
Definition set_users (db : Db) (us : list User.t) : Db :=
  mkDb (projects db) (tasks db) (comments db) us.

Section Collection.
Context {A : Type} (key : A -> ObjectId).

(** [Model.findById(id)] *)
Definition findById (id : ObjectId) (c : list A) : option A :=
  find (fun d => (key d =? id)%string) c.

(** [doc.save()] of a document that was read from the collection: the
    stored document with that [_id] is replaced. *)
Definition save (d : A) (c : list A) : list A :=
  map (fun x => if (key x =? key d)%string then d else x) c.

(** [Model.create(doc)] *)
Definition create (d : A) (c : list A) : list A := c ++ [d].

(** [doc.deleteOne()] *)
Definition deleteOne (id : ObjectId) (c : list A) : list A :=
  filter (fun x => negb (key x =? id)%string) c.

(** [.sort(...)]: a stable insertion sort under the order [leb]. *)
Fixpoint insert_sorted (leb : A -> A -> bool) (x : A) (l : list A) : list A :=
  match l with
  | [] => [x]
  | y :: rest =>
      if leb x y then x :: y :: rest else y :: insert_sorted leb x rest
  end.

Fixpoint sort_by (leb : A -> A -> bool) (l : list A) : list A :=
  match l with
  | [] => []
  | x :: rest => insert_sorted leb x (sort_by leb rest)
  end.

(** [.skip(skip).limit(limit)] *)
Definition skip_limit (skip limit : Z) (l : list A) : list A :=
  firstn (Z.to_nat limit) (skipn (Z.to_nat skip) l).
End Collection.

(** ** Project controller *)

Module ProjectController.

(** One entry of [req.body.members]; the schema casts [user] to an
    ObjectId and its defaults fill what the caller leaves out. *)
Record MemberInput := mkMemberInput {
  mi_user : ObjectId;
  mi_role : option MemberRole.t;
  mi_joinedAt : option Date
}.

Definition member_of_input (now : Date) (i : MemberInput) : Member.t :=
  Member.mk (Mongoose.castObjectId (mi_user i))
            (match mi_role i with Some r => r | None => MemberRole.member end)
            (match mi_joinedAt i with Some d => d | None => now end).

Record CreateBody := mkCreateBody {
  cb_name : string;
  cb_description : option string;
  cb_status : option ProjectStatus.t;
  cb_priority : option Priority.t;
  cb_startDate : option Date;
  cb_dueDate : option Date;
  cb_tags : option (list string);
  cb_color : option string;
  cb_members : option (list MemberInput);
  cb_isPublic : option bool
}.

(** [exports.createProject]: the requester becomes the owner; the
    [members] list of the body is stored as it comes. *)
Definition createProject (db : Db) (u : Requester.t) (body : CreateBody)
  (newId : ObjectId) (now : Date) : Db * Http.Response Project.t :=
  let doc :=
    Project.mk newId (cb_name body) (cb_description body)
      (or_default (cb_status body) ProjectStatus.planning)
      (or_default (cb_priority body) Priority.medium)
      (Requester.id u)
      (map (member_of_input now) (or_default (cb_members body) []))
      (or_default (cb_startDate body) now)
      (cb_dueDate body)
      None
      (or_default (cb_tags body) [])
      (or_default (cb_color body) "#3B82F6")
      (or_default (cb_isPublic body) false)
      false now now in
  let project := Project.pre_save true now doc in
  (set_projects db (create project (projects db)),
   Http.ok 201 (Some "Project created successfully") (Some project)).

(** The three flags [updateProject] computes before its guard. *)
Definition memberEntry (project : Project.t) (u : Requester.t)
  : option Member.t :=
  find (fun m => (Member.user m =? Requester.id u)%string)
       (Project.members project).

Definition isOwner (project : Project.t) (u : Requester.t) : bool :=
  (Project.owner project =? Requester.id u)%string.

Definition isAdmin (project : Project.t) (u : Requester.t) : bool :=
  match memberEntry project u with
  | Some m => MemberRole.eqb (Member.role m) MemberRole.admin
  | None => false
  end.

(** The guard of [updateProject]:
    [!isOwner && !isAdmin && req.user.role !== 'admin'] answers 403. *)
Definition updateForbidden (project : Project.t) (u : Requester.t) : bool :=
  negb (isOwner project u) && negb (isAdmin project u)
  && negb (UserRole.eqb (Requester.role u) UserRole.admin).

(** The guard shared by [deleteProject], [addMember] and [removeMember]:
    [project.owner.toString() !== req.user.id && req.user.role !== 'admin']
    answers 403. *)
Definition ownerOrAdminForbidden (project : Project.t) (u : Requester.t)
  : bool :=
  negb (Project.owner project =? Requester.id u)%string
  && negb (UserRole.eqb (Requester.role u) UserRole.admin).

Record UpdateBody := mkUpdateBody {
  ub_name : option string;
  ub_description : option (option string);
  ub_status : option ProjectStatus.t;
  ub_priority : option Priority.t;
  ub_startDate : option Date;
  ub_dueDate : option (option Date);
  ub_tags : option (list string);
  ub_color : option string;
  ub_isPublic : option bool;
  ub_isArchived : option bool
}.

(** The schema validators that [runValidators: true] applies to the paths
    of the update, after the [trim] setter: a name is required and holds
    at most 100 characters, a description at most 2000. *)
Definition updateValid (b : UpdateBody) : bool :=
  match ub_name b with
  | Some n =>
      negb (Text.trim n =? "")%string
      && (String.length (Text.trim n) <=? 100)%nat
  | None => true
  end
  && match ub_description b with
     | Some (Some d) => (String.length (Text.trim d) <=? 2000)%nat
     | _ => true
     end.

(** [Project.findByIdAndUpdate(id, updateData, { new: true, runValidators:
    true })]: the allowed fields present in the body are written, the
    strings trimmed; no save middleware runs. *)
Definition applyUpdate (now : Date) (b : UpdateBody) (p : Project.t)
  : Project.t :=
  Project.mk (Project._id p)
    (or_default (option_map Text.trim (ub_name b)) (Project.name p))
    (or_default (option_map (option_map Text.trim) (ub_description b))
                (Project.description p))
    (or_default (ub_status b) (Project.status p))
    (or_default (ub_priority b) (Project.priority p))
    (Project.owner p)
    (Project.members p)
    (or_default (ub_startDate b) (Project.startDate p))
    (or_default (ub_dueDate b) (Project.dueDate p))
    (Project.completedAt p)
    (or_default (ub_tags b) (Project.tags p))
    (or_default (ub_color b) (Project.color p))
    (or_default (ub_isPublic b) (Project.isPublic p))
    (or_default (ub_isArchived b) (Project.isArchived p))
    (Project.createdAt p) now.

(** [exports.updateProject] *)
Definition updateProject (db : Db) (u : Requester.t) (id : ObjectId)
  (body : UpdateBody) (now : Date) : Db * Http.Response Project.t :=
  match findById Project._id id (projects db) with
  | None => (db, Http.fail 404 "Project not found")
  | Some project =>
      if updateForbidden project u
      then (db, Http.fail 403 "Not authorized to update this project")
      else if updateValid body then
        let project' := applyUpdate now body project in
        (set_projects db (save Project._id project' (projects db)),
         Http.ok 200 (Some "Project updated successfully") (Some project'))
      else (db, Http.fail 500 "Error updating project")
  end.

(** [exports.deleteProject]: the tasks of the project go first
    ([Task.deleteMany({ project: project._id })]), then the project. *)
Definition deleteProject (db : Db) (u : Requester.t) (id : ObjectId)
  : Db * Http.Response unit :=
  match findById Project._id id (projects db) with
  | None => (db, Http.fail 404 "Project not found")
  | Some project =>
      if ownerOrAdminForbidden project u
      then (db, Http.fail 403 "Not authorized to delete this project")
      else
        let remaining :=
          filter (fun x => negb (Task.project x =? Project._id project)%string)
                 (tasks db) in
        (mkDb (deleteOne Project._id (Project._id project) (projects db))
              remaining (comments db) (users db),
         Http.ok 200 (Some "Project and all related tasks deleted successfully")
                 None)
  end.

(** [project.save()] in the member operations: the status is untouched, so
    the middleware changes nothing and only [updatedAt] moves. *)
Definition saveProject (now : Date) (project : Project.t) (db : Db) : Db :=
  let stored :=
    Project.set_updatedAt (Project.pre_save false now project) now in
  set_projects db (save Project._id stored (projects db)).

(** [exports.addMember]; [role] defaults to ['member'].  The search for an
    existing entry compares the request string with the printed
    identifiers; the entry that is pushed holds the identifier the schema
    casts that string to. *)
Definition addMember (db : Db) (u : Requester.t) (id : ObjectId)
  (userId : ObjectId) (role : option MemberRole.t) (now : Date)
  : Db * Http.Response (list Member.t) :=
  match findById Project._id id (projects db) with
  | None => (db, Http.fail 404 "Project not found")
  | Some project =>
      if ownerOrAdminForbidden project u
      then (db, Http.fail 403 "Not authorized to add members")
      else
        match find (fun m => (Member.user m =? userId)%string)
                   (Project.members project) with
        | Some _ =>
            (db, Http.fail 400 "User is already a member of this project")
        | None =>
            let entry :=
              Member.mk (Mongoose.castObjectId userId)
                        (or_default role MemberRole.member) now in
            let project' :=
              Project.set_members project (Project.members project ++ [entry]) in
            (saveProject now project' db,
             Http.ok 200 (Some "Member added successfully")
                     (Some (Project.members project')))
        end
  end.

(** [exports.removeMember] *)
Definition removeMember (db : Db) (u : Requester.t) (id : ObjectId)
  (userId : ObjectId) (now : Date) : Db * Http.Response unit :=
  match findById Project._id id (projects db) with
  | None => (db, Http.fail 404 "Project not found")
  | Some project =>
      if ownerOrAdminForbidden project u
      then (db, Http.fail 403 "Not authorized to remove members")
      else if (userId =? Project.owner project)%string
      then (db, Http.fail 400 "Cannot remove the project owner")
      else
        let project' :=
          Project.set_members project
            (filter (fun m => negb (Member.user m =? userId)%string)
                    (Project.members project)) in
        (saveProject now project' db,
         Http.ok 200 (Some "Member removed successfully") None)
  end.

(** The query-string parameters of [GET /api/projects]. *)
Record ProjectsQuery := mkProjectsQuery {
  q_page : option Z;
  q_limit : option Z;
  q_search : option string;
  q_status : option string;
  q_priority : option string;
  q_sortBy : option string;
  q_sortOrder : option string;
  q_archived : option string
}.

Record TaskStats := mkTaskStats {
  total : Z;
  todo : Z;
  in_progress : Z;
  in_review : Z;
  completed : Z
}.

Record ProjectWithStats := mkProjectWithStats {
  project : Project.t;
  taskStats : TaskStats;
  progress : Z
}.

(** The [$match]/[$group] aggregation and the [stats] object filled from
    it: the unarchived tasks of the project, counted per status. *)
Definition count_status (pid : ObjectId) (st : TaskStatus.t) (ts : list Task.t)
  : Z :=
  Z.of_nat (length (filter
    (fun x => (Task.project x =? pid)%string && negb (Task.isArchived x)
              && TaskStatus.eqb (Task.status x) st) ts)).

Definition statsOf (pid : ObjectId) (ts : list Task.t) : TaskStats :=
  let a := count_status pid TaskStatus.todo ts in
  let b := count_status pid TaskStatus.in_progress ts in
  let c := count_status pid TaskStatus.in_review ts in
  let d := count_status pid TaskStatus.completed ts in
  mkTaskStats (a + b + c + d) a b c d.

Definition withStats (ts : list Task.t) (p : Project.t) : ProjectWithStats :=
  let stats := statsOf (Project._id p) ts in
  mkProjectWithStats p stats
    (if 0 <? total stats
     then Math_round (inject_Z (completed stats) / inject_Z (total stats)
                      * inject_Z 100)
     else 0).

Definition project_sort_key (field : string) (p : Project.t) : SortKey :=
  if (field =? "updatedAt")%string then KNum (Project.updatedAt p)
  else if (field =? "createdAt")%string then KNum (Project.createdAt p)
  else if (field =? "name")%string then KStr (Project.name p)
  else if (field =? "status")%string then KStr (ProjectStatus.name (Project.status p))
  else if (field =? "priority")%string then KStr (Priority.name (Project.priority p))
  else if (field =? "startDate")%string then KNum (Project.startDate p)
  else if (field =? "dueDate")%string then key_of_date (Project.dueDate p)
  else if (field =? "completedAt")%string then key_of_date (Project.completedAt p)
  else KNull.

Definition project_order (sortBy sortOrder : string) (a b : Project.t) : bool :=
  if (sortOrder =? "asc")%string
  then key_leb (project_sort_key sortBy a) (project_sort_key sortBy b)
  else key_leb (project_sort_key sortBy b) (project_sort_key sortBy a).

Section Queries.
(** The case-insensitive regular-expression test of the store. *)
Variable regexTest : string -> string -> bool.

(** The query of [getProjects]: owner or member, the archive flag, and the
    optional search, status and priority filters. *)
Definition projectMatches (u : Requester.t) (q : ProjectsQuery)
  (p : Project.t) : bool :=
  ((Project.owner p =? Requester.id u)%string
   || existsb (fun m => (Member.user m =? Requester.id u)%string)
              (Project.members p))
  && Bool.eqb (Project.isArchived p)
       (or_default (q_archived q) "false" =? "true")%string
  && match given (q_search q) with
     | Some pat =>
         regexTest pat (Project.name p)
         || match Project.description p with
            | Some d => regexTest pat d
            | None => false
            end
         || existsb (regexTest pat) (Project.tags p)
     | None => true
     end
  && match given (q_status q) with
     | Some st => (ProjectStatus.name (Project.status p) =? st)%string
     | None => true
     end
  && match given (q_priority q) with
     | Some pr => (Priority.name (Project.priority p) =? pr)%string
     | None => true
     end.

(** [exports.getProjects] *)
Definition getProjects (db : Db) (u : Requester.t) (q : ProjectsQuery)
  : Http.Response (Http.Listing ProjectWithStats) :=
  let pageNum := or_default (q_page q) 1 in
  let limitNum := or_default (q_limit q) 10 in
  let skip := (pageNum - 1) * limitNum in
  let sortBy := or_default (q_sortBy q) "updatedAt" in
  let sortOrder := or_default (q_sortOrder q) "desc" in
  let found :=
    skip_limit skip limitNum
      (sort_by (project_order sortBy sortOrder)
               (filter (projectMatches u q) (projects db))) in
  let projectsWithStats := map (withStats (tasks db)) found in
  let total := Z.of_nat (length (filter (projectMatches u q) (projects db))) in
  Http.ok 200 None
    (Some (Http.mkListing projectsWithStats
       [ ("current", Js.Num pageNum);
         ("pages", Js.Num (Math_ceil (inject_Z total / inject_Z limitNum)));
         ("total", Js.Num total);
         ("limit", Js.Num limitNum);
         ("hasNext", Js.Bool (pageNum * limitNum <? total));
         ("hasPrev", Js.Bool (1 <? pageNum)) ])).

End Queries.

(** [populate('owner')] and [populate('members.user')]: a reference is
    replaced by the account it names, and by [null] when no account has
    that identifier. *)
Definition populated (db : Db) (ref : ObjectId) : bool :=
  match findById User._id ref (users db) with
  | Some _ => true
  | None => false
  end.

(** [this.members.some(m => ...)] on the populated members: the test reads
    [m.user._id], which throws on a reference populated with [null];
    [some] stops at the first member that matches.  [None] stands for the
    exception. *)
Fixpoint someMember (db : Db) (userId : ObjectId) (ms : list Member.t)
  : option bool :=
  match ms with
  | [] => Some false
  | m :: rest =>
      if populated db (Member.user m) then
        if (Member.user m =? userId)%string then Some true
        else someMember db userId rest
      else None
  end.

(** [project.isMember(userId)] on the populated project: [this.owner._id]
    throws on an owner populated with [null], and the members are only
    looked at when the owner does not match. *)
Definition isMemberPopulated (db : Db) (project : Project.t)
  (userId : ObjectId) : option bool :=
  if populated db (Project.owner project) then
    if (Project.owner project =? userId)%string then Some true
    else someMember db userId (Project.members project)
  else None.

(** [exports.getProject]: a project is shown to its members and, when it
    is public, to everybody; an exception of the membership test is
    answered 500. *)
Definition getProject (db : Db) (u : Requester.t) (id : ObjectId)
  : Http.Response ProjectWithStats :=
  match findById Project._id id (projects db) with
  | None => Http.fail 404 "Project not found"
  | Some project =>
      match isMemberPopulated db project (Requester.id u) with
      | None => Http.fail 500 "Error fetching project"
      | Some member =>
          if negb member && negb (Project.isPublic project)
          then Http.fail 403 "You do not have access to this project"
          else Http.ok 200 None (Some (withStats (tasks db) project))
      end
  end.

End ProjectController.

(** ** Task controller *)

Module TaskController.

(** The query-string parameters of [GET /api/tasks]; [page] and [limit]
    are the integers [parseInt] yields. *)
Record TasksQuery := mkTasksQuery {
  q_page : option Z;
  q_limit : option Z;
  q_project : option string;
  q_status : option string;
  q_priority : option string;
  q_assignee : option string;
  q_search : option string;
  q_sortBy : option string;
  q_sortOrder : option string;
  q_dueDate : option Date;
  q_overdue : option string
}.

(** The Mongo query object [getTasks] builds, one field per key. *)
Inductive StatusCond :=
| StatusIn (names : list string)
| StatusNe (name : string).

Inductive DateCond :=
| DateBetween (gte lt : Date)
| DateBefore (lt : Date).

Record TaskFilter := mkTaskFilter {
  f_isArchived : bool;
  f_project : option ObjectId;
  f_status : option StatusCond;
  f_priority : option string;
  f_assignee : option (option ObjectId);
  f_search : option string;
  f_dueDate : option DateCond
}.

Definition task_sort_key (field : string) (x : Task.t) : SortKey :=
  if (field =? "createdAt")%string then KNum (Task.createdAt x)
  else if (field =? "updatedAt")%string then KNum (Task.updatedAt x)
  else if (field =? "order")%string then KNum (Task.order x)
  else if (field =? "title")%string then KStr (Task.title x)
  else if (field =? "status")%string then KStr (TaskStatus.name (Task.status x))
  else if (field =? "priority")%string then KStr (Priority.name (Task.priority x))
  else if (field =? "dueDate")%string then key_of_date (Task.dueDate x)
  else if (field =? "startDate")%string then key_of_date (Task.startDate x)
  else if (field =? "completedAt")%string then key_of_date (Task.completedAt x)
  else if (field =? "estimatedHours")%string then KRat (Task.estimatedHours x)
  else if (field =? "actualHours")%string then KRat (Task.actualHours x)
  else if (field =? "isArchived")%string then KBool (Task.isArchived x)
  else KNull.

(** [sort[sortBy] = sortOrder === 'asc' ? 1 : -1] *)
Definition task_order (sortBy sortOrder : string) (a b : Task.t) : bool :=
  if (sortOrder =? "asc")%string
  then key_leb (task_sort_key sortBy a) (task_sort_key sortBy b)
  else key_leb (task_sort_key sortBy b) (task_sort_key sortBy a).

Section Queries.
(** What the controller leaves to the platform: the case-insensitive
    regular-expression test of the store, and the local-day bounds that
    [setHours(0,0,0,0)] and [setHours(23,59,59,999)] compute. *)
Variable regexTest : string -> string -> bool.
Variables startOfDay endOfDay : Date -> Date.

Definition buildQuery (u : Requester.t) (now : Date) (q : TasksQuery)
  : TaskFilter :=
  let status1 :=
    match given (q_status q) with
    | Some st => Some (StatusIn (split_comma st))
    | None => None
    end in
  let assignee1 :=
    match given (q_assignee q) with
    | Some a =>
        if (a =? "me")%string then Some (Some (Requester.id u))
        else if (a =? "unassigned")%string then Some None
        else Some (Some a)
    | None => None
    end in
  let dueDate1 :=
    match q_dueDate q with
    | Some d => Some (DateBetween (startOfDay d) (endOfDay (startOfDay d)))
    | None => None
    end in
  let overdue :=
    match q_overdue q with
    | Some o => (o =? "true")%string
    | None => false
    end in
  mkTaskFilter false
    (given (q_project q))
    (if overdue then Some (StatusNe "completed") else status1)
    (given (q_priority q))
    assignee1
    (given (q_search q))
    (if overdue then Some (DateBefore now) else dueDate1).

Definition matches (f : TaskFilter) (x : Task.t) : bool :=
  Bool.eqb (Task.isArchived x) (f_isArchived f)
  && match f_project f with
     | Some p => (Task.project x =? p)%string
     | None => true
     end
  && match f_status f with
     | Some (StatusIn names) =>
         existsb (fun n => (n =? TaskStatus.name (Task.status x))%string) names
     | Some (StatusNe n) => negb (TaskStatus.name (Task.status x) =? n)%string
     | None => true
     end
  && match f_priority f with
     | Some p => (Priority.name (Task.priority x) =? p)%string
     | None => true
     end
  && match f_assignee f, Task.assignee x with
     | Some (Some a), Some b => (b =? a)%string
     | Some (Some _), None => false
     | Some None, Some _ => false
     | Some None, None => true
     | None, _ => true
     end
  && match f_search f with
     | Some pat =>
         regexTest pat (Task.title x)
         || match Task.description x with
            | Some d => regexTest pat d
            | None => false
            end
         || existsb (regexTest pat) (Task.tags x)
     | None => true
     end
  && match f_dueDate f, Task.dueDate x with
     | Some (DateBetween lo hi), Some d => (lo <=? d) && (d <? hi)
     | Some (DateBefore hi), Some d => d <? hi
     | Some _, None => false
     | None, _ => true
     end.

(** [exports.getTasks] *)
Definition getTasks (db : Db) (u : Requester.t) (now : Date) (q : TasksQuery)
  : Http.Response (Http.Listing Task.t) :=
  let query := buildQuery u now q in
  let pageNum := or_default (q_page q) 1 in
  let limitNum := or_default (q_limit q) 20 in
  let skip := (pageNum - 1) * limitNum in
  let sortBy := or_default (q_sortBy q) "createdAt" in
  let sortOrder := or_default (q_sortOrder q) "desc" in
  let found :=
    skip_limit skip limitNum
      (sort_by (task_order sortBy sortOrder) (filter (matches query) (tasks db))) in
  let total := Z.of_nat (length (filter (matches query) (tasks db))) in
  Http.ok 200 None
    (Some (Http.mkListing found
       [ ("current", Js.Num pageNum);
         ("pages", Js.Num (Math_ceil (inject_Z total / inject_Z limitNum)));
         ("total", Js.Num total);
         ("limit", Js.Num limitNum);
         ("hasNext", Js.Bool (pageNum * limitNum <? total));
         ("hasPrev", Js.Bool (1 <? pageNum)) ])).

End Queries.

(** [req.body] of [POST /api/tasks], each field with the type its schema
    path casts it to; the identifiers of the subtasks are the ones the
    store assigns. *)
Record CreateBody := mkCreateBody {
  cb_title : string;
  cb_description : option string;
  cb_project : ObjectId;
  cb_status : option TaskStatus.t;
  cb_priority : option Priority.t;
  cb_assignee : option ObjectId;
  cb_startDate : option Date;
  cb_dueDate : option Date;
  cb_estimatedHours : option Q;
  cb_tags : option (list string);
  cb_subtasks : option (list Subtask.t)
}.

(** [Task.findOne({ project, status }).sort({ order: -1 })]: the head of
    the column sorted by decreasing [order]. *)
Definition order_desc (a b : Task.t) : bool := Task.order b <=? Task.order a.

Definition column (project : ObjectId) (status : TaskStatus.t)
  (ts : list Task.t) : list Task.t :=
  filter (fun x => (Task.project x =? project)%string
                   && TaskStatus.eqb (Task.status x) status) ts.

Definition highestOrder (project : ObjectId) (status : TaskStatus.t)
  (ts : list Task.t) : option Task.t :=
  hd_error (sort_by order_desc (column project status ts)).

(** The [trim] setter of the subtask schema. *)
Definition trimmedSubtask (st : Subtask.t) : Subtask.t :=
  Subtask.mk (Subtask._id st) (Text.trim (Subtask.title st))
             (Subtask.isCompleted st) (Subtask.completedAt st).

(** The validators of the task schema that [Task.create] runs on the
    trimmed strings: the title of the task and of every subtask is
    required and holds at most 200 characters, the description at most
    5000, and the estimated hours are not negative. *)
Definition createValid (body : CreateBody) : bool :=
  negb (Text.trim (cb_title body) =? "")%string
  && (String.length (Text.trim (cb_title body)) <=? 200)%nat
  && match cb_description body with
     | Some d => (String.length (Text.trim d) <=? 5000)%nat
     | None => true
     end
  && match cb_estimatedHours body with
     | Some h => Qle_bool 0 h
     | None => true
     end
  && forallb (fun st =>
                negb (Text.trim (Subtask.title st) =? "")%string
                && (String.length (Text.trim (Subtask.title st)) <=? 200)%nat)
             (or_default (cb_subtasks body) []).

(** [exports.createTask]; the store casts the [project] and [assignee] of
    the body to identifiers wherever the handler hands them over
    ([findById], the query for the highest order, [Task.create]).  A
    document that the schema refuses makes [Task.create] throw, which the
    handler answers with 500. *)
Definition createTask (db : Db) (u : Requester.t) (body : CreateBody)
  (newId : ObjectId) (now : Date) : Db * Http.Response Task.t :=
  let project := Mongoose.castObjectId (cb_project body) in
  match findById Project._id project (projects db) with
  | None => (db, Http.fail 404 "Project not found")
  | Some projectDoc =>
      if negb (Project.isMember projectDoc (Requester.id u))
      then (db, Http.fail 403 "Not authorized to create tasks in this project")
      else
        let status := or_default (cb_status body) TaskStatus.todo in
        let highest := highestOrder project status (tasks db) in
        if createValid body then
          let doc :=
            Task.mk newId (Text.trim (cb_title body))
              (option_map Text.trim (cb_description body)) status
              (or_default (cb_priority body) Priority.medium)
              project (Requester.id u)
              (option_map Mongoose.castObjectId (cb_assignee body))
              (map trimmedSubtask (or_default (cb_subtasks body) []))
              (cb_startDate body) (cb_dueDate body) None
              (or_default (cb_estimatedHours body) 0%Q) 0%Q
              (map Text.trim (or_default (cb_tags body) []))
              (match highest with
               | Some h => Number.add (Task.order h) 1
               | None => 0
               end)
              [Requester.id u] false now now in
          let task := Task.pre_save true now doc in
          (set_tasks db (create task (tasks db)),
           Http.ok 201 (Some "Task created successfully") (Some task))
        else (db, Http.fail 500 "Error creating task")
  end.

Record UpdateBody := mkUpdateBody {
  ub_title : option string;
  ub_description : option (option string);
  ub_status : option TaskStatus.t;
  ub_priority : option Priority.t;
  ub_assignee : option (option ObjectId);
  ub_startDate : option (option Date);
  ub_dueDate : option (option Date);
  ub_estimatedHours : option Q;
  ub_actualHours : option Q;
  ub_tags : option (list string);
  ub_order : option Z;
  ub_isArchived : option bool
}.

(** The schema validators that [runValidators: true] applies to the
    updated paths. *)
Definition updateValid (b : UpdateBody) : bool :=
  match ub_title b with
  | Some s => negb (s =? "")%string && (String.length s <=? 200)%nat
  | None => true
  end
  && match ub_description b with
     | Some (Some d) => (String.length d <=? 5000)%nat
     | _ => true
     end
  && match ub_estimatedHours b with Some h => Qle_bool 0 h | None => true end
  && match ub_actualHours b with Some h => Qle_bool 0 h | None => true end.

(** [Task.findByIdAndUpdate(id, updateData, { new: true, runValidators:
    true })]: a direct update of the allowed fields that are present.  It
    is not a [save()]: the pre-save middleware of the schema does not run,
    and [updateData] never holds [completedAt]. *)
Definition applyUpdate (now : Date) (b : UpdateBody) (x : Task.t) : Task.t :=
  Task.mk (Task._id x)
    (or_default (ub_title b) (Task.title x))
    (or_default (ub_description b) (Task.description x))
    (or_default (ub_status b) (Task.status x))
    (or_default (ub_priority b) (Task.priority x))
    (Task.project x) (Task.creator x)
    (or_default (ub_assignee b) (Task.assignee x))
    (Task.subtasks x)
    (or_default (ub_startDate b) (Task.startDate x))
    (or_default (ub_dueDate b) (Task.dueDate x))
    (Task.completedAt x)
    (or_default (ub_estimatedHours b) (Task.estimatedHours x))
    (or_default (ub_actualHours b) (Task.actualHours x))
    (or_default (ub_tags b) (Task.tags x))
    (or_default (ub_order b) (Task.order x))
    (Task.watchers x)
    (or_default (ub_isArchived b) (Task.isArchived x))
    (Task.createdAt x) now.

(** [exports.updateTask] *)
Definition updateTask (db : Db) (id : ObjectId) (body : UpdateBody)
  (now : Date) : Db * Http.Response Task.t :=
  match findById Task._id id (tasks db) with
  | None => (db, Http.fail 404 "Task not found")
  | Some task =>
      if updateValid body then
        let task' := applyUpdate now body task in
        (set_tasks db (save Task._id task' (tasks db)),
         Http.ok 200 (Some "Task updated successfully") (Some task'))
      else (db, Http.fail 500 "Error updating task")
  end.

(** [task.save()]: the middleware sees whether [status] differs from the
    stored value; the timestamps plugin refreshes [updatedAt]. *)
Definition saveTask (now : Date) (stored task : Task.t) (db : Db)
  : Task.t * Db :=
  let statusModified :=
    negb (TaskStatus.eqb (Task.status task) (Task.status stored)) in
  let task' := Task.set_updatedAt (Task.pre_save statusModified now task) now in
  (task', set_tasks db (save Task._id task' (tasks db))).

(** [exports.updateTaskStatus] *)
Definition updateTaskStatus (db : Db) (id : ObjectId) (status : TaskStatus.t)
  (order : option Z) (now : Date) : Db * Http.Response Task.t :=
  match findById Task._id id (tasks db) with
  | None => (db, Http.fail 404 "Task not found")
  | Some task =>
      let t1 := Task.set_status task status in
      let t2 := match order with Some o => Task.set_order t1 o | None => t1 end in
      let '(saved, db') := saveTask now task t2 db in
      (db', Http.ok 200 (Some "Task status updated") (Some saved))
  end.

(** [exports.addSubtask]; the new sub-document gets the identifier the
    store assigns and the schema default [isCompleted = false]. *)
Definition addSubtask (db : Db) (id : ObjectId) (title : string)
  (newId : ObjectId) (now : Date) : Db * Http.Response (list Subtask.t) :=
  match findById Task._id id (tasks db) with
  | None => (db, Http.fail 404 "Task not found")
  | Some task =>
      let t1 :=
        Task.set_subtasks task
          (Task.subtasks task ++ [Subtask.mk newId title false None]) in
      let '(saved, db') := saveTask now task t1 db in
      (db', Http.ok 201 (Some "Subtask added") (Some (Task.subtasks saved)))
  end.

(** [exports.toggleSubtask] *)
Definition toggleSubtask (db : Db) (id subtaskId : ObjectId) (now : Date)
  : Db * Http.Response (list Subtask.t) :=
  match findById Task._id id (tasks db) with
  | None => (db, Http.fail 404 "Task not found")
  | Some task =>
      match Task.subtask_by_id subtaskId (Task.subtasks task) with
      | None => (db, Http.fail 404 "Subtask not found")
      | Some _ =>
          let t1 :=
            Task.set_subtasks task
              (Task.update_subtask (Task.toggled now) subtaskId
                 (Task.subtasks task)) in
          let '(saved, db') := saveTask now task t1 db in
          (db', Http.ok 200 (Some "Subtask toggled")
                        (Some (Task.subtasks saved)))
      end
  end.







(** [exports.getTask] *)
Definition getTask (db : Db) (id : ObjectId) : Http.Response Task.t :=
  match findById Task._id id (tasks db) with
  | None => Http.fail 404 "Task not found"
  | Some task => Http.ok 200 None (Some task)
  end.

(** [exports.deleteTask]: the task document alone is removed. *)
Definition deleteTask (db : Db) (id : ObjectId) : Db * Http.Response unit :=
  match findById Task._id id (tasks db) with
  | None => (db, Http.fail 404 "Task not found")
  | Some task =>
      (set_tasks db (deleteOne Task._id (Task._id task) (tasks db)),
       Http.ok 200 (Some "Task deleted successfully") None)
  end.

(** [exports.deleteSubtask]: the subtasks are filtered by identifier and
    the task is saved, whether or not a subtask was dropped. *)
Definition deleteSubtask (db : Db) (id subtaskId : ObjectId) (now : Date)
  : Db * Http.Response (list Subtask.t) :=
  match findById Task._id id (tasks db) with
  | None => (db, Http.fail 404 "Task not found")
  | Some task =>
      let t1 :=
        Task.set_subtasks task
          (filter (fun st => negb (Subtask._id st =? subtaskId)%string)
                  (Task.subtasks task)) in
      let '(saved, db') := saveTask now task t1 db in
      (db', Http.ok 200 (Some "Subtask deleted")
                    (Some (Task.subtasks saved)))
  end.

End TaskController.

(** ** Comment controller *)

Module CommentController.

(** A top-level comment with its populated [replies] virtual. *)
Record Thread := mkThread {
  comment : Comment.t;
  replies : list Comment.t
}.

Definition created_asc (a b : Comment.t) : bool :=
  Comment.createdAt a <=? Comment.createdAt b.
Definition created_desc (a b : Comment.t) : bool :=
  Comment.createdAt b <=? Comment.createdAt a.

(** The query of the listing:
    [{ task: taskId, isDeleted: false, parentComment: null }]. *)
Definition topLevel (taskId : ObjectId) (c : Comment.t) : bool :=
  (Comment.task c =? taskId)%string
  && negb (Comment.isDeleted c)
  && match Comment.parentComment c with None => true | Some _ => false end.

(** [populate({ path: 'replies', match: { isDeleted: false },
    options: { sort: { createdAt: 1 } } })]: the comments whose
    [parentComment] is this comment and that are not deleted. *)
Definition populateReplies (all : list Comment.t) (c : Comment.t) : Thread :=
  mkThread c
    (sort_by created_asc
       (filter (fun r =>
                  match Comment.parentComment r with
                  | Some p => (p =? Comment._id c)%string
                  | None => false
                  end && negb (Comment.isDeleted r)) all)).

(** [exports.getComments]; [page] and [limit] are the integers that
    [parseInt] yields.  No route validator restricts them; the function
    gives the answer for the positive ones. *)
Definition getComments (db : Db) (taskId : ObjectId) (page limit : option Z)
  : Http.Response (Http.Listing Thread) :=
  match findById Task._id taskId (tasks db) with
  | None => Http.fail 404 "Task not found"
  | Some _ =>
      let pageNum := or_default page 1 in
      let limitNum := or_default limit 20 in
      let skip := (pageNum - 1) * limitNum in
      let found :=
        skip_limit skip limitNum
          (sort_by created_desc (filter (topLevel taskId) (comments db))) in
      let total := Z.of_nat (length (filter (topLevel taskId) (comments db))) in
      Http.ok 200 None
        (Some (Http.mkListing (map (populateReplies (comments db)) found)
           [ ("current", Js.Num pageNum);
             ("pages", Js.Num (Math_ceil (inject_Z total / inject_Z limitNum)));
             ("total", Js.Num total);
             ("limit", Js.Num limitNum) ]))
  end.


(** The tombstone that replaces the content of a deleted comment. *)
Definition tombstone : string := "[This comment has been deleted]".

(** [exports.deleteComment]: a soft delete by the author or an admin. *)
Definition deleteComment (db : Db) (u : Requester.t) (id : ObjectId)
  (now : Date) : Db * Http.Response unit :=
  match findById Comment._id id (comments db) with
  | None => (db, Http.fail 404 "Comment not found")
  | Some comment =>
      if negb (Comment.author comment =? Requester.id u)%string
         && negb (UserRole.eqb (Requester.role u) UserRole.admin)
      then (db, Http.fail 403 "Not authorized to delete this comment")
      else
        let c1 :=
          Comment.mk (Comment._id comment) tombstone (Comment.task comment)
            (Comment.author comment) (Comment.mentions comment)
            (Comment.isEdited comment) (Comment.editedAt comment)
            (Comment.parentComment comment) (Comment.reactions comment)
            true (Comment.createdAt comment) (Comment.updatedAt comment) in
        let contentModified :=
          negb (Comment.content comment =? tombstone)%string in
        let c2 :=
          Comment.set_updatedAt (Comment.pre_save contentModified false now c1)
                                now in
        (set_comments db (save Comment._id c2 (comments db)),
         Http.ok 200 (Some "Comment deleted") None)
  end.

(** [comment.save()] after a change to fields other than [content] or
    with the content change given by [contentModified]. *)
Definition saveComment (contentModified : bool) (now : Date) (c : Comment.t)
  (db : Db) : Comment.t * Db :=
  let c' := Comment.set_updatedAt
              (Comment.pre_save contentModified false now c) now in
  (c', set_comments db (save Comment._id c' (comments db))).

(** [exports.updateComment]: only the author edits. *)
Definition updateComment (db : Db) (u : Requester.t) (id : ObjectId)
  (content : string) (now : Date) : Db * Http.Response Comment.t :=
  match findById Comment._id id (comments db) with
  | None => (db, Http.fail 404 "Comment not found")
  | Some comment =>
      if negb (Comment.author comment =? Requester.id u)%string
      then (db, Http.fail 403 "Not authorized to update this comment")
      else
        let c1 :=
          Comment.mk (Comment._id comment) content (Comment.task comment)
            (Comment.author comment) (Comment.mentions comment) true
            (Some now) (Comment.parentComment comment)
            (Comment.reactions comment) (Comment.isDeleted comment)
            (Comment.createdAt comment) (Comment.updatedAt comment) in
        let '(saved, db') :=
          saveComment (negb (Comment.content comment =? content)%string)
                      now c1 db in
        (db', Http.ok 200 (Some "Comment updated") (Some saved))
  end.

(** [existingReaction.type = type] on the entry [find] returned: the first
    reaction of the user. *)
Fixpoint retype_first (userId : ObjectId) (type : string)
  (rs : list Reaction.t) : list Reaction.t :=
  match rs with
  | [] => []
  | r :: rest =>
      if (Reaction.user r =? userId)%string
      then Reaction.mk (Reaction.user r) type :: rest
      else r :: retype_first userId type rest
  end.

(** [exports.addReaction]; [type] defaults to ['like']. *)
Definition addReaction (db : Db) (u : Requester.t) (id : ObjectId)
  (type : option string) (now : Date)
  : Db * Http.Response (list Reaction.t) :=
  let type := or_default type "like" in
  match findById Comment._id id (comments db) with
  | None => (db, Http.fail 404 "Comment not found")
  | Some comment =>
      let reactions :=
        match find (fun r => (Reaction.user r =? Requester.id u)%string)
                   (Comment.reactions comment) with
        | Some _ => retype_first (Requester.id u) type
                                 (Comment.reactions comment)
        | None => (Comment.reactions comment
                   ++ [Reaction.mk (Requester.id u) type])%list
        end in
      let '(saved, db') :=
        saveComment false now (Comment.set_reactions comment reactions) db in
      (db', Http.ok 200 (Some "Reaction added")
                    (Some (Comment.reactions saved)))
  end.

(** [exports.removeReaction] *)
Definition removeReaction (db : Db) (u : Requester.t) (id : ObjectId)
  (now : Date) : Db * Http.Response (list Reaction.t) :=
  match findById Comment._id id (comments db) with
  | None => (db, Http.fail 404 "Comment not found")
  | Some comment =>
      let reactions :=
        filter (fun r => negb (Reaction.user r =? Requester.id u)%string)
               (Comment.reactions comment) in
      let '(saved, db') :=
        saveComment false now (Comment.set_reactions comment reactions) db in
      (db', Http.ok 200 (Some "Reaction removed")
                    (Some (Comment.reactions saved)))
  end.

End CommentController.

(** ** Regular expressions of the schemas

    [RegExp.prototype.test] for a pattern anchored at both ends ([^...$]),
    computed with derivatives: [deriv c r] matches what is left of a word
    of [r] after its first character [c]. *)

Module Regex.

Inductive t :=
| Void
| Eps
| Class (f : ascii -> bool)
| Cat (a b : t)
| Alt (a b : t)
| Star (a : t).

Fixpoint nullable (r : t) : bool :=
  match r with
  | Void => false
  | Eps => true
  | Class _ => false
  | Cat a b => nullable a && nullable b
  | Alt a b => nullable a || nullable b
  | Star _ => true
  end.

(** Concatenation and choice that drop the empty language. *)
Definition cat (a b : t) : t :=
  match a, b with
  | Void, _ => Void
  | _, Void => Void
  | Eps, _ => b
  | _, _ => Cat a b
  end.

Definition alt (a b : t) : t :=
  match a, b with
  | Void, _ => b
  | _, Void => a
  | _, _ => Alt a b
  end.

Fixpoint deriv (c : ascii) (r : t) : t :=
  match r with
  | Void => Void
  | Eps => Void
  | Class f => if f c then Eps else Void
  | Cat a b =>
      if nullable a then alt (cat (deriv c a) b) (deriv c b)
      else cat (deriv c a) b
  | Alt a b => alt (deriv c a) (deriv c b)
  | Star a => cat (deriv c a) (Star a)
  end.

Fixpoint test (r : t) (s : string) : bool :=
  match s with
  | EmptyString => nullable r
  | String c rest => test (deriv c r) rest
  end.

(** [\w]: a letter, a digit or the underscore. *)
Definition word (c : ascii) : bool :=
  let n := nat_of_ascii c in
  (((48 <=? n) && (n <=? 57)) || ((65 <=? n) && (n <=? 90))
   || ((97 <=? n) && (n <=? 122)) || (n =? 95))%nat.

Definition chr (c : ascii) : t := Class (Ascii.eqb c).
Definition plus (r : t) : t := Cat r (Star r).
Definition opt (r : t) : t := Alt Eps r.

End Regex.

(** ** Authentication controller *)

Module AuthController.

(** [email.toLowerCase()] *)
Definition toLowerCase (s : string) : string := Text.toLowerCase s.

(** [req.body] of the registration; [role] is whatever JSON value the
    caller sent, [Js.Undefined] when the key is absent. *)
Record RegisterBody := mkRegisterBody {
  rb_name : string;
  rb_email : string;
  rb_password : string;
  rb_department : option string;
  rb_phone : option string;
  rb_role : Js.value
}.

(** [role === 'admin' ? 'user' : (role || 'user')]: the value handed to
    [User.create] for the [role] path. *)
Definition roleArgument (role : Js.value) : Js.value :=
  if Js.strict_eq_str role "admin" then Js.Str "user"
  else Js.or role (Js.Str "user").

(** The [match] pattern of the [email] path:
    [/^\w+([.-]?\w+)*@\w+([.-]?\w+)*(\.\w{2,3})+$/]. *)
Definition emailPattern : Regex.t :=
  let w := Regex.Class Regex.word in
  let dotOrDash :=
    Regex.Class (fun c => Ascii.eqb c "."%char || Ascii.eqb c "-"%char) in
  let tail := Regex.Star (Regex.Cat (Regex.opt dotOrDash) (Regex.plus w)) in
  let domainEnd :=
    Regex.Cat (Regex.chr "."%char)
      (Regex.Cat w (Regex.Cat w (Regex.opt w))) in
  Regex.Cat (Regex.plus w)
    (Regex.Cat tail
       (Regex.Cat (Regex.chr "@"%char)
          (Regex.Cat (Regex.plus w)
             (Regex.Cat tail (Regex.plus domainEnd))))).

(** The validators of the user schema that [User.create] runs: a name is
    required and holds at most 50 characters once trimmed, the email
    (lower-cased by the controller; the route has trimmed it) matches the
    pattern, and the password holds at least 6 characters. *)
Definition createValid (body : RegisterBody) : bool :=
  negb (Text.trim (rb_name body) =? "")%string
  && (String.length (Text.trim (rb_name body)) <=? 50)%nat
  && Regex.test emailPattern (toLowerCase (rb_email body))
  && (6 <=? String.length (rb_password body))%nat.

Section Register.
(** What the controller leaves to the model layer: the string cast the
    schema applies to a value that is not a string
    ([Mongoose.castString]), and the password hashing of the pre-save
    middleware. *)
Variable castString : Js.value -> option string.
Variable hash : string -> string.

(** The [role] path of [UserSchema]: a String with an enum and the default
    ['user']. *)
Definition schemaRole (v : Js.value) : option UserRole.t :=
  match v with
  | Js.Undefined => Some UserRole.user
  | Js.Str s => UserRole.of_string s
  | other =>
      match castString other with
      | Some s => UserRole.of_string s
      | None => None
      end
  end.

(** [exports.register]; a document that the schema refuses makes
    [User.create] throw, which the handler answers with 500. *)
Definition register (db : Db) (body : RegisterBody) (newId : ObjectId)
  (now : Date) : Db * Http.Response User.t :=
  let email := toLowerCase (rb_email body) in
  match find (fun x => (User.email x =? email)%string) (users db) with
  | Some _ => (db, Http.fail 400 "An account with this email already exists")
  | None =>
      match schemaRole (roleArgument (rb_role body)) with
      | None => (db, Http.fail 500 "Error creating user account")
      | Some role =>
          if createValid body then
            let user :=
              User.mk newId (Text.trim (rb_name body)) email
                (hash (rb_password body)) role
                (Text.trim (or_default (given (rb_department body)) "General"))
                (option_map Text.trim (rb_phone body)) true now in
            (set_users db (create user (users db)),
             Http.ok 201 (Some "Registration successful") (Some user))
          else (db, Http.fail 500 "Error creating user account")
      end
  end.

End Register.

End AuthController.

(** ** Authentication middleware *)

Module AuthMiddleware.

(** [str.split(' ')] *)
Fixpoint split_space_from (cur : string) (s : string) : list string :=
  match s with
  | EmptyString => [cur]
  | String c rest =>
      if Ascii.eqb c " "%char then cur :: split_space_from "" rest
      else split_space_from (cur ++ String c "") rest
  end.

(** The token of an [Authorization] header: the second word when the
    header starts with [Bearer]; an empty word counts as no token. *)
Definition bearerToken (authorization : option string) : option string :=
  match given authorization with
  | Some h =>
      if String.prefix "Bearer" h
      then given (nth_error (split_space_from "" h) 1)
      else None
  | None => None
  end.

Section Protect.
(** [jwt.verify(token, secret)]: the [id] of the payload, or nothing when
    the verification throws. *)
Variable verify : string -> option ObjectId.

(** [exports.protect]: either a 401 response, or the user attached to the
    request. *)
Definition protect (db : Db) (authorization : option string)
  : Http.Response unit + User.t :=
  match bearerToken authorization with
  | None =>
      inl (Http.fail 401 "Not authorized to access this route. Please login.")
  | Some token =>
      match verify token with
      | None =>
          inl (Http.fail 401
                 "Token is invalid or has expired. Please login again.")
      | Some id =>
          match findById User._id id (users db) with
          | None => inl (Http.fail 401 "User not found. Token may be invalid.")
          | Some user =>
              if negb (User.isActive user)
              then inl (Http.fail 401
                     "User account is deactivated. Please contact support.")
              else inr user
          end
      end
  end.

End Protect.

(** [req.user] as the controllers read it. *)
Definition requester (user : User.t) : Requester.t :=
  Requester.mk (User._id user) (User.role user).

Definition role_name (r : UserRole.t) : string :=
  match r with
  | UserRole.user => "user"
  | UserRole.manager => "manager"
  | UserRole.admin => "admin"
  end.

(** [exports.authorize(...roles)]: the 403 response, or nothing when the
    request goes on to the next handler. *)
Definition authorize (roles : list UserRole.t) (u : Requester.t)
  : option (Http.Response unit) :=
  if negb (existsb (UserRole.eqb (Requester.role u)) roles)
  then Some (Http.fail 403
               ("User role '" ++ role_name (Requester.role u)
                ++ "' is not authorized to access this route"))
  else None.

End AuthMiddleware.

(** ** User controller *)

Module UserController.

Definition set_isActive (x : User.t) (b : bool) : User.t :=
  User.mk (User._id x) (User.name x) (User.email x) (User.password x)
          (User.role x) (User.department x) (User.phone x) b
          (User.createdAt x).

(** [exports.getUser] *)
Definition getUser (db : Db) (id : ObjectId) : Http.Response User.t :=
  match findById User._id id (users db) with
  | None => Http.fail 404 "User not found"
  | Some user => Http.ok 200 None (Some user)
  end.

(** [exports.deleteUser]: a soft delete that deactivates the account and
    saves it; the password is not modified, so the hashing middleware
    leaves it alone (the user record carries no update time). *)
Definition deleteUser (db : Db) (u : Requester.t) (id : ObjectId)
  : Db * Http.Response unit :=
  if (id =? Requester.id u)%string
  then (db, Http.fail 400 "You cannot delete your own account")
  else
    match findById User._id id (users db) with
    | None => (db, Http.fail 404 "User not found")
    | Some user =>
        (set_users db (save User._id (set_isActive user false) (users db)),
         Http.ok 200 (Some "User deleted successfully") None)
    end.

(** [DELETE /api/users/:id]: [authorize('admin')], then
    [param('id').isMongoId()] with [validate], in front of [deleteUser].
    A string that the validator admits and that is no ObjectId (one with
    a [0x] prefix) makes the [findById] of the handler throw, which is
    answered 500. *)
Definition deleteUserRoute (db : Db) (u : Requester.t) (id : string)
  : Db * Http.Response unit :=
  match AuthMiddleware.authorize [UserRole.admin] u with
  | Some refused => (db, refused)
  | None =>
      if Validator.isMongoId id then
        if Mongoose.validObjectId id || (id =? Requester.id u)%string
        then deleteUser db u id
        else (db, Http.fail 500 "Error deleting user")
      else (db, Http.fail 400 "Validation failed")
  end.

Definition name_asc (a b : User.t) : bool :=
  String.leb (User.name a) (User.name b).

Section Queries.
(** The case-insensitive regular-expression test of the store. *)
Variable regexTest : string -> string -> bool.

(** [exports.getTeamMembers]: the active users, by name. *)
Definition getTeamMembers (db : Db) (search : option string)
  (limit : option Z) : Http.Response (list User.t) :=
  let matching :=
    filter (fun x =>
              User.isActive x
              && match given search with
                 | Some pat =>
                     regexTest pat (User.name x) || regexTest pat (User.email x)
                 | None => true
                 end) (users db) in
  Http.ok 200 None
    (Some (firstn (Z.to_nat (or_default limit 20))
                  (sort_by name_asc matching))).

End Queries.

End UserController.

(** ** Virtual fields of the task schema *)

Module TaskVirtual.

(** [TaskSchema.virtual('subtaskProgress')] *)
Definition subtaskProgress (x : Task.t) : Z :=
  if (length (Task.subtasks x) =? 0)%nat then 100
  else
    let completed :=
      length (filter Subtask.isCompleted (Task.subtasks x)) in
    Math_round (inject_Z (Z.of_nat completed)
                / inject_Z (Z.of_nat (length (Task.subtasks x)))
                * inject_Z 100).

(** [TaskSchema.virtual('isOverdue')] *)
Definition isOverdue (now : Date) (x : Task.t) : bool :=
  match Task.dueDate x with
  | None => false
  | Some d =>
      if TaskStatus.eqb (Task.status x) TaskStatus.completed then false
      else d <? now
  end.

End TaskVirtual.

(** ** Concrete scenarios used by the examples below *)

Module Sample.

Definition alice : Requester.t := Requester.mk "u1" UserRole.user.
Definition bob : Requester.t := Requester.mk "u2" UserRole.user.
Definition carol : Requester.t := Requester.mk "u3" UserRole.user.

(** Project "p1": owned by alice; bob is a member with the per-project
    role admin. *)
Definition alpha : Project.t :=
  Project.mk "p1" "Alpha" None ProjectStatus.planning Priority.medium "u1"
    [Member.mk "u2" MemberRole.admin 1] 1 None None [] "#3B82F6" false false
    1 1.

Definition task1 : Task.t :=
  Task.mk "t1" "T1" None TaskStatus.todo Priority.medium "p1" "u1" None []
    None None None 0%Q 0%Q [] 0 ["u1"] false 2 2.

Definition task2 : Task.t :=
  Task.mk "t2" "T2" None TaskStatus.todo Priority.medium "p1" "u2" None []
    None None None 0%Q 0%Q [] 4 ["u2"] false 3 3.

Definition parentC : Comment.t :=
  Comment.mk "c1" "first" "t1" "u1" [] false None None [] false 4 4.

Definition replyC : Comment.t :=
  Comment.mk "c2" "a reply" "t1" "u2" [] false None (Some "c1") [] false 5 5.

Definition db0 : Db := mkDb [alpha] [task1; task2] [parentC; replyC] [].

Definition empty : Db := mkDb [] [] [] [].

Definition noUpdate : ProjectController.UpdateBody :=
  ProjectController.mkUpdateBody None None None None None None None None None
    None.

(** A creation request whose [members] list names bob twice. *)
Definition twiceBob : ProjectController.CreateBody :=
  ProjectController.mkCreateBody "Beta" None None None None None None None
    (Some [ProjectController.mkMemberInput "u2" None None;
           ProjectController.mkMemberInput "u2" (Some MemberRole.viewer) None])
    None.

(** [POST /api/auth/register] asking for the admin role. *)
Definition wantsAdmin : AuthController.RegisterBody :=
  AuthController.mkRegisterBody "Mallory" "Mallory@Example.com" "secret1"
    None None (Js.Str "admin").

(** [POST /api/tasks] for project p1 with only a title. *)
Definition newTodo : TaskController.CreateBody :=
  TaskController.mkCreateBody "T3" None "p1" None None None None None None
    None None.

(** [PUT /api/tasks/:id] with the body [{ status: 'completed' }]. *)
Definition completeIt : TaskController.UpdateBody :=
  TaskController.mkUpdateBody None None (Some TaskStatus.completed) None None
    None None None None None None None.

(** [PUT /api/tasks/:id] with the body [{ status: 'todo' }]. *)
Definition reopenIt : TaskController.UpdateBody :=
  TaskController.mkUpdateBody None None (Some TaskStatus.todo) None None
    None None None None None None None.

(** A private project of alice without members, and a public one. *)
Definition solo : Project.t :=
  Project.mk "p3" "Solo" None ProjectStatus.planning Priority.medium "u1"
    [] 1 None None [] "#3B82F6" false false 1 1.

Definition openP : Project.t :=
  Project.mk "p4" "Open" None ProjectStatus.planning Priority.medium "u1"
    [] 1 None None [] "#3B82F6" true false 1 1.

Definition db1 : Db := mkDb [alpha; solo; openP] [task1; task2] [] [].

Definition admin9 : Requester.t := Requester.mk "u9" UserRole.admin.

(** Two accounts: an administrator and an ordinary user. *)
Definition adminAccount : User.t :=
  User.mk "u9" "Root" "root@example.com" "h1" UserRole.admin "General" None
          true 1.

Definition bobAccount : User.t :=
  User.mk "u2" "Bob" "bob@example.com" "h2" UserRole.user "General" None
          true 2.

Definition db3 : Db := mkDb [] [] [] [adminAccount; bobAccount].

(** A token service that reads the user identifier out of the token. *)
Definition tokenIsId (token : string) : option ObjectId := Some token.

(** A comment on which bob has reacted with 'like'. *)
Definition liked : Comment.t :=
  Comment.mk "c5" "nice" "t1" "u1" [] false None None
    [Reaction.mk "u2" "like"] false 6 6.

Definition db2 : Db := mkDb [alpha] [task1; task2] [parentC; replyC; liked] [].

(** Identifiers written out in full: dana owns project gamma, of which
    erin is a member; both have an account, and so has the administrator
    root. *)
Definition danaId : ObjectId := "64b7f0c2a1d3e4f5a6b7c8d9".
Definition erinId : ObjectId := "64b7f0c2a1d3e4f5a6b7c8da".
Definition rootId : ObjectId := "64b7f0c2a1d3e4f5a6b7c8db".
Definition gammaId : ObjectId := "64b7f0c2a1d3e4f5a6b7c8e0".

Definition root : Requester.t := Requester.mk rootId UserRole.admin.

Definition gamma : Project.t :=
  Project.mk gammaId "Gamma" None ProjectStatus.planning Priority.medium
    danaId [Member.mk erinId MemberRole.member 1] 1 None None [] "#3B82F6"
    false false 1 1.

Definition danaAccount : User.t :=
  User.mk danaId "Dana" "dana@example.com" "h3" UserRole.user "General" None
          true 1.

Definition erinAccount : User.t :=
  User.mk erinId "Erin" "erin@example.com" "h4" UserRole.user "General" None
          true 2.

Definition rootAccount : User.t :=
  User.mk rootId "Root" "root@example.org" "h5" UserRole.admin "General" None
          true 3.

Definition db5 : Db :=
  mkDb [gamma] [] [] [danaAccount; erinAccount; rootAccount].


(** A registration whose [role] is the object [{ _id: 'admin' }]. *)
Definition objectAdmin : AuthController.RegisterBody :=
  AuthController.mkRegisterBody "Mallory" "mallory@example.com" "secret1"
    None None (Js.Obj [("_id", Js.Str "admin")]).

End Sample.

(** ** The pagination contract, as the specification words it *)

Module PaginationSpec.

(** [pages = ceil(total / limit)]: the least number of pages of [limit]
    items that hold [total] items. *)
Definition is_ceiling (pages total limit : Z) : Prop :=
  (pages - 1) * limit < total <= pages * limit.

Definition counters (pg : list (string * Js.value)) (current limit total : Z)
  : Prop :=
  Js.get "current" pg = Some (Js.Num current)
  /\ Js.get "limit" pg = Some (Js.Num limit)
  /\ Js.get "total" pg = Some (Js.Num total)
  /\ exists pages,
       Js.get "pages" pg = Some (Js.Num pages)
       /\ (0 < limit -> is_ceiling pages total limit).

Definition navigation (pg : list (string * Js.value))
  (current limit total : Z) : Prop :=
  (exists b, Js.get "hasNext" pg = Some (Js.Bool b)
             /\ (b = true <-> current * limit < total))
  /\ (exists b, Js.get "hasPrev" pg = Some (Js.Bool b)
                /\ (b = true <-> 1 < current)).

Definition no_navigation (pg : list (string * Js.value)) : Prop :=
  Js.get "hasNext" pg = None /\ Js.get "hasPrev" pg = None.

End PaginationSpec.

(** ** Reading a list response, one page after another *)

Module Paging.

(** The same query with another [page] parameter. *)
Definition atPage (q : TaskController.TasksQuery) (page : Z)
  : TaskController.TasksQuery :=
  TaskController.mkTasksQuery (Some page)
    (TaskController.q_limit q) (TaskController.q_project q)
    (TaskController.q_status q) (TaskController.q_priority q)
    (TaskController.q_assignee q) (TaskController.q_search q)
    (TaskController.q_sortBy q) (TaskController.q_sortOrder q)
    (TaskController.q_dueDate q) (TaskController.q_overdue q).

(** The documents of a list response (none for an error response). *)
Definition docsOf {A : Type} (r : Http.Response (Http.Listing A)) : list A :=
  match Http.data r with
  | Some l => Http.docs l
  | None => []
  end.

(** A key of the pagination object of a list response. *)
Definition pageInfo {A : Type} (key : string)
  (r : Http.Response (Http.Listing A)) : option Js.value :=
  match Http.data r with
  | Some l => Js.get key (Http.pagination l)
  | None => None
  end.

End Paging.

(** * Properties *)

(** ** Equality tests and collections *)

Lemma UserRole_eqb_eq (a b : UserRole.t) : UserRole.eqb a b = true <-> a = b.
Proof. destruct a, b; simpl; split; intro H; congruence. Qed.

Lemma TaskStatus_eqb_eq (a b : TaskStatus.t) :
  TaskStatus.eqb a b = true <-> a = b.
Proof. destruct a, b; simpl; split; intro H; congruence. Qed.

Section CollectionFacts.
Context {A : Type} (key : A -> ObjectId).

Lemma findById_key (id : ObjectId) (c : list A) (d : A) :
  findById key id c = Some d -> key d = id /\ In d c.
Proof.
  unfold findById. intro H. apply find_some in H. destruct H as [Hin Heq].
  split; [now apply String.eqb_eq | exact Hin].
Qed.

Lemma findById_save_same (d x : A) (c : list A) :
  findById key (key d) c = Some x ->
  findById key (key d) (save key d c) = Some d.
Proof.
  unfold findById, save. induction c as [|y c IH]; simpl; [discriminate|].
  destruct (key y =? key d)%string eqn:E.
  - intros _. now rewrite String.eqb_refl.
  - rewrite E. exact IH.
Qed.


Lemma save_In (d x : A) (c : list A) :
  In x (save key d c) -> x = d \/ (In x c /\ key x <> key d).
Proof.
  unfold save. rewrite in_map_iff. intros [y [Hy Hin]].
  destruct (key y =? key d)%string eqn:E.
  - left. congruence.
  - right. subst x. split; [exact Hin | now apply String.eqb_neq].
Qed.

End CollectionFacts.

Lemma insert_sorted_In {A : Type} (leb : A -> A -> bool) (x y : A) (l : list A) :
  In y (insert_sorted leb x l) <-> y = x \/ In y l.
Proof.
  induction l as [|z l IH]; simpl.
  - intuition congruence.
  - destruct (leb x z); simpl; [intuition congruence|].
    rewrite IH. intuition congruence.
Qed.

Lemma sort_by_In {A : Type} (leb : A -> A -> bool) (y : A) (l : list A) :
  In y (sort_by leb l) <-> In y l.
Proof.
  induction l as [|x l IH]; simpl; [tauto|].
  rewrite insert_sorted_In, IH. intuition congruence.
Qed.

Lemma skip_limit_In {A : Type} (skip limit : Z) (y : A) (l : list A) :
  In y (skip_limit skip limit l) -> In y l.
Proof.
  unfold skip_limit. intro H.
  rewrite <- (firstn_skipn (Z.to_nat skip) l). apply in_or_app. right.
  rewrite <- (firstn_skipn (Z.to_nat limit) (skipn (Z.to_nat skip) l)).
  apply in_or_app. now left.
Qed.

(** ** Project membership *)

Lemma ownerOrAdminForbidden_false (project : Project.t) (u : Requester.t) :
  ProjectController.ownerOrAdminForbidden project u = false <->
  (Project.owner project = Requester.id u \/ Requester.role u = UserRole.admin).
Proof.
  unfold ProjectController.ownerOrAdminForbidden.
  rewrite andb_false_iff, !negb_false_iff, String.eqb_eq, UserRole_eqb_eq.
  tauto.
Qed.

Lemma ownerOrAdminForbidden_true (project : Project.t) (u : Requester.t) :
  ProjectController.ownerOrAdminForbidden project u = true <->
  ~ (Project.owner project = Requester.id u \/ Requester.role u = UserRole.admin).
Proof.
  rewrite <- ownerOrAdminForbidden_false.
  destruct (ProjectController.ownerOrAdminForbidden project u);
    split; intro H; congruence.
Qed.

(** The rule of [updateProject], for comparison: the owner, a member whose
    entry carries the per-project role admin, or a global admin. *)
Lemma updateForbidden_false (project : Project.t) (u : Requester.t) :
  ProjectController.updateForbidden project u = false <->
  (Project.owner project = Requester.id u
   \/ ProjectController.isAdmin project u = true
   \/ Requester.role u = UserRole.admin).
Proof.
  unfold ProjectController.updateForbidden, ProjectController.isOwner.
  rewrite !andb_false_iff, !negb_false_iff, String.eqb_eq, UserRole_eqb_eq.
  tauto.
Qed.

(** Whoever passes the guard of the member operations passes the guard of
    [updateProject]; the converse fails for a per-project admin. *)
Lemma ownerOrAdmin_implies_update (project : Project.t) (u : Requester.t) :
  ProjectController.ownerOrAdminForbidden project u = false ->
  ProjectController.updateForbidden project u = false.
Proof.
  rewrite ownerOrAdminForbidden_false, updateForbidden_false. tauto.
Qed.

(** C1, as stated, fails: bob is a member of project p1 with the
    per-project role admin, so [updateProject] lets him through, yet
    [addMember] and [removeMember] both answer 403. *)
Lemma project_admin_member_cannot_manage_members :
  ProjectController.isAdmin Sample.alpha Sample.bob = true
  /\ Http.status (snd (ProjectController.updateProject
                         Sample.db0 Sample.bob "p1" Sample.noUpdate 10)) = 200%nat
  /\ Http.status (snd (ProjectController.addMember
                         Sample.db0 Sample.bob "p1" "u3" None 10)) = 403%nat
  /\ Http.status (snd (ProjectController.removeMember
                         Sample.db0 Sample.bob "p1" "u3" 10)) = 403%nat.
Proof. repeat split; reflexivity. Qed.

(** C1 (amended): for an existing project, [addMember] and [removeMember]
    proceed past authorization if and only if the requester is the owner
    of the project or has the global role admin; every other requester,
    a per-project admin member included, gets 403 and the database is left
    as it was. *)
Theorem member_management_authorization :
  forall (db : Db) (u : Requester.t) (id userId : ObjectId)
         (role : option MemberRole.t) (now : Date) (project : Project.t),
    findById Project._id id (projects db) = Some project ->
    let allowed :=
      Project.owner project = Requester.id u
      \/ Requester.role u = UserRole.admin in
    let added := ProjectController.addMember db u id userId role now in
    let removed := ProjectController.removeMember db u id userId now in
    (Http.status (snd added) <> 403%nat <-> allowed)
    /\ (Http.status (snd removed) <> 403%nat <-> allowed)
    /\ (~ allowed ->
        Http.status (snd added) = 403%nat /\ fst added = db
        /\ Http.status (snd removed) = 403%nat /\ fst removed = db).
Proof.
  intros db u id userId role now project Hfind. cbv zeta.
  unfold ProjectController.addMember, ProjectController.removeMember.
  rewrite Hfind.
  destruct (ProjectController.ownerOrAdminForbidden project u) eqn:E.
  - apply ownerOrAdminForbidden_true in E. simpl.
    repeat split; try tauto; intros; tauto.
  - apply ownerOrAdminForbidden_false in E.
    repeat split; try tauto; intros _; try exact E.
    + destruct (find _ (Project.members project)); simpl; discriminate.
    + destruct (userId =? Project.owner project)%string; simpl; discriminate.
Qed.

Lemma member_management_authorization_witness :
  findById Project._id "p1" (projects Sample.db0) = Some Sample.alpha
  /\ (Http.status (snd (ProjectController.addMember
                          Sample.db0 Sample.alice "p1" "u3" None 10)) <> 403%nat
      <-> (Project.owner Sample.alpha = Requester.id Sample.alice
           \/ Requester.role Sample.alice = UserRole.admin)).
Proof.
  split; [reflexivity|].
  exact (proj1 (member_management_authorization
                  Sample.db0 Sample.alice "p1" "u3" None 10 Sample.alpha
                  eq_refl)).
Defined.

(** *** Membership list: what [addMember] and [removeMember] keep *)

Lemma NoDup_snoc {A : Type} (l : list A) (x : A) :
  NoDup l -> ~ In x l -> NoDup (l ++ [x]).
Proof.
  induction l as [|y l IH]; simpl; intros Hnd Hnot.
  - constructor; [tauto | constructor].
  - inversion Hnd as [|? ? Hy Hl]; subst. constructor.
    + rewrite in_app_iff. simpl. intros [H|[H|[]]]; [tauto|].
      apply Hnot. now left.
    + apply IH; [exact Hl | tauto].
Qed.

Lemma NoDup_map_filter {A B : Type} (f : A -> B) (g : A -> bool) (l : list A) :
  NoDup (map f l) -> NoDup (map f (filter g l)).
Proof.
  induction l as [|y l IH]; simpl; intro Hnd; [constructor|].
  inversion Hnd as [|? ? Hy Hl]; subst.
  destruct (g y); simpl; [|now apply IH].
  constructor; [|now apply IH].
  rewrite in_map_iff. intros [z [Hz Hin]]. apply Hy.
  rewrite in_map_iff. exists z. split; [exact Hz|].
  now apply filter_In in Hin.
Qed.

Lemma find_user_none (userId : ObjectId) (ms : list Member.t) :
  find (fun m => (Member.user m =? userId)%string) ms = None ->
  ~ In userId (map Member.user ms).
Proof.
  intros Hnone Hin. apply in_map_iff in Hin. destruct Hin as [m [Hm Hin]].
  apply (find_none _ _ Hnone) in Hin. simpl in Hin.
  apply String.eqb_neq in Hin. congruence.
Qed.

Lemma saveProject_lookup (now : Date) (project x : Project.t) (db : Db)
  (id : ObjectId) :
  Project._id project = id ->
  findById Project._id id (projects db) = Some x ->
  findById Project._id id
           (projects (ProjectController.saveProject now project db))
  = Some (Project.set_updatedAt project now).
Proof.
  intros Hid H. subst id. unfold ProjectController.saveProject. simpl.
  apply (findById_save_same Project._id (Project.set_updatedAt project now) x).
  exact H.
Qed.


(** X28: [addMember] with a request string spelled as the store prints
    identifiers (lower-case digits) never introduces a duplicate user into
    a duplicate-free member list, whatever its answer. *)
Lemma addMember_preserves_NoDup :
  forall db u id userId role now project p',
    findById Project._id id (projects db) = Some project ->
    NoDup (map Member.user (Project.members project)) ->
    Mongoose.castObjectId userId = userId ->
    findById Project._id id
      (projects (fst (ProjectController.addMember db u id userId role now)))
    = Some p' ->
    NoDup (map Member.user (Project.members p')).
Proof.
  intros db u id userId role now project p' Hfind Hnd Hcanon.
  destruct (findById_key _ _ _ _ Hfind) as [Hid _].
  unfold ProjectController.addMember. rewrite Hfind.
  destruct (ProjectController.ownerOrAdminForbidden project u); cbn [fst].
  { rewrite Hfind. intro H; inversion H; now subst. }
  destruct (find _ (Project.members project)) eqn:E; cbn [fst].
  { rewrite Hfind. intro H; inversion H; now subst. }
  set (project' := Project.set_members project _).
  rewrite (saveProject_lookup now project' project db id Hid Hfind).
  intro H; inversion H; subst p'. simpl. rewrite map_app. simpl.
  rewrite Hcanon.
  apply NoDup_snoc; [exact Hnd | now apply find_user_none].
Qed.



(** X29: [removeMember] keeps a duplicate-free member list
    duplicate-free, whatever its answer. *)
Lemma removeMember_preserves_NoDup :
  forall db u id userId now project p',
    findById Project._id id (projects db) = Some project ->
    NoDup (map Member.user (Project.members project)) ->
    findById Project._id id
      (projects (fst (ProjectController.removeMember db u id userId now)))
    = Some p' ->
    NoDup (map Member.user (Project.members p')).
Proof.
  intros db u id userId now project p' Hfind Hnd.
  destruct (findById_key _ _ _ _ Hfind) as [Hid _].
  unfold ProjectController.removeMember. rewrite Hfind.
  destruct (ProjectController.ownerOrAdminForbidden project u); cbn [fst].
  { rewrite Hfind. intro H; inversion H; now subst. }
  destruct (userId =? Project.owner project)%string; cbn [fst].
  { rewrite Hfind. intro H; inversion H; now subst. }
  set (project' := Project.set_members project _).
  rewrite (saveProject_lookup now project' project db id Hid Hfind).
  intro H; inversion H; subst p'. simpl. now apply NoDup_map_filter.
Qed.

(** C5: [createProject] stores the [members] list of the body unchecked.
    On the empty database, alice creates a project whose body lists bob
    twice; the stored project has two entries for bob. *)
Theorem createProject_stores_duplicate_members :
  let r := ProjectController.createProject
             Sample.empty Sample.alice Sample.twiceBob "p2" 7 in
  exists p,
    Http.status (snd r) = 201%nat
    /\ findById Project._id "p2" (projects (fst r)) = Some p
    /\ map Member.user (Project.members p) = ["u2"; "u2"]
    /\ ~ NoDup (map Member.user (Project.members p)).
Proof.
  cbv zeta. eexists. split; [reflexivity|]. split; [reflexivity|].
  split; [reflexivity|]. simpl. intro H.
  inversion H as [|? ? Hnot _]; subst. apply Hnot. now left.
Qed.




(** ** Task state *)

Lemma Task_pre_save_fields (m : bool) (now : Date) (x : Task.t) :
  let y := Task.pre_save m now x in
  Task._id y = Task._id x /\ Task.status y = Task.status x
  /\ Task.order y = Task.order x /\ Task.project y = Task.project x
  /\ Task.subtasks y = Task.subtasks x.
Proof.
  cbv zeta. unfold Task.pre_save.
  destruct m; [|repeat split].
  destruct (TaskStatus.eqb (Task.status x) TaskStatus.completed
            && negb match Task.completedAt x with
                    | Some _ => true
                    | None => false
                    end); [repeat split|].
  destruct (negb (TaskStatus.eqb (Task.status x) TaskStatus.completed));
    repeat split.
Qed.

Lemma saveTask_lookup (now : Date) (stored task x : Task.t) (db : Db)
  (id : ObjectId) :
  Task._id task = id ->
  findById Task._id id (tasks db) = Some x ->
  findById Task._id id (tasks (snd (TaskController.saveTask now stored task db)))
  = Some (fst (TaskController.saveTask now stored task db)).
Proof.
  intros Hid H. subst id. unfold TaskController.saveTask. cbn [fst snd tasks set_tasks].
  set (m := negb _).
  assert (Hk : Task._id (Task.set_updatedAt (Task.pre_save m now task) now)
               = Task._id task).
  { simpl. apply (Task_pre_save_fields m now task). }
  rewrite <- Hk. apply (findById_save_same Task._id _ x). rewrite Hk. exact H.
Qed.

Lemma Task_pre_save_completedAt (m : bool) (now : Date) (x : Task.t) :
  Task.completedAt (Task.pre_save m now x) =
  if m then
    if TaskStatus.eqb (Task.status x) TaskStatus.completed
    then match Task.completedAt x with Some d => Some d | None => Some now end
    else None
  else Task.completedAt x.
Proof.
  unfold Task.pre_save. destruct m; [|reflexivity].
  destruct (TaskStatus.eqb (Task.status x) TaskStatus.completed);
    destruct (Task.completedAt x) eqn:E; simpl; try rewrite E; reflexivity.
Qed.

Lemma TaskStatus_eqb_neq (a b : TaskStatus.t) :
  a <> b -> TaskStatus.eqb a b = false.
Proof.
  intro H. destruct (TaskStatus.eqb a b) eqn:E; [|reflexivity].
  apply TaskStatus_eqb_eq in E. contradiction.
Qed.

(** X30: what the status endpoint does to [completedAt]: entering
    completed from another status leaves a timestamp (the current time
    when there was none), and a change to any other status clears it. *)
Lemma updateTaskStatus_completedAt :
  forall db id status order now task,
    findById Task._id id (tasks db) = Some task ->
    let r := TaskController.updateTaskStatus db id status order now in
    exists saved,
      Http.status (snd r) = 200%nat
      /\ Http.data (snd r) = Some saved
      /\ findById Task._id id (tasks (fst r)) = Some saved
      /\ Task.status saved = status
      /\ (status = TaskStatus.completed ->
          Task.status task <> TaskStatus.completed ->
          Task.completedAt saved <> None
          /\ (Task.completedAt task = None -> Task.completedAt saved = Some now))
      /\ (status <> TaskStatus.completed ->
          Task.status task <> status ->
          Task.completedAt saved = None).
Proof.
  intros db id status order now task Hfind. cbv zeta.
  destruct (findById_key _ _ _ _ Hfind) as [Hid _].
  unfold TaskController.updateTaskStatus. rewrite Hfind.
  set (t2 := match order with
             | Some o => Task.set_order (Task.set_status task status) o
             | None => Task.set_status task status
             end).
  assert (Hid2 : Task._id t2 = id) by (unfold t2; destruct order; exact Hid).
  assert (Hst2 : Task.status t2 = status) by (unfold t2; now destruct order).
  assert (Hc2 : Task.completedAt t2 = Task.completedAt task)
    by (unfold t2; now destruct order).
  pose proof (saveTask_lookup now task t2 task db id Hid2 Hfind) as Hlook.
  destruct (TaskController.saveTask now task t2 db) as [saved db'] eqn:Hsave.
  cbn [fst snd] in *. exists saved.
  split; [reflexivity|]. split; [reflexivity|]. split; [exact Hlook|].
  unfold TaskController.saveTask in Hsave. inversion Hsave as [[Hs Hd]].
  clear Hsave Hd Hlook.
  set (m := negb (TaskStatus.eqb (Task.status t2) (Task.status task))).
  assert (Hstatus : Task.status
            (Task.set_updatedAt (Task.pre_save m now t2) now) = status).
  { simpl. rewrite <- Hst2. apply (Task_pre_save_fields m now t2). }
  assert (Hdone : Task.completedAt
            (Task.set_updatedAt (Task.pre_save m now t2) now)
            = Task.completedAt (Task.pre_save m now t2)) by reflexivity.
  rewrite Hstatus, Hdone, Task_pre_save_completedAt, Hst2, Hc2.
  unfold m. rewrite Hst2.
  split; [reflexivity|]. split.
  - intros -> Hold.
    rewrite (TaskStatus_eqb_neq TaskStatus.completed (Task.status task))
      by congruence.
    cbn [negb TaskStatus.eqb].
    destruct (Task.completedAt task); split; congruence.
  - intros Hnc Hold.
    rewrite (TaskStatus_eqb_neq status (Task.status task)) by congruence.
    rewrite (TaskStatus_eqb_neq status TaskStatus.completed) by exact Hnc.
    reflexivity.
Qed.

(** [updateTask] never writes [completedAt], whatever the body. *)
Lemma updateTask_keeps_completedAt :
  forall db id body now task,
    findById Task._id id (tasks db) = Some task ->
    TaskController.updateValid body = true ->
    let r := TaskController.updateTask db id body now in
    exists stored,
      Http.status (snd r) = 200%nat
      /\ findById Task._id id (tasks (fst r)) = Some stored
      /\ Task.status stored
         = or_default (TaskController.ub_status body) (Task.status task)
      /\ Task.completedAt stored = Task.completedAt task.
Proof.
  intros db id body now task Hfind Hvalid. cbv zeta.
  destruct (findById_key _ _ _ _ Hfind) as [Hid _].
  unfold TaskController.updateTask. rewrite Hfind, Hvalid.
  cbn [fst snd tasks set_tasks].
  exists (TaskController.applyUpdate now body task).
  split; [reflexivity|]. split; [|split; reflexivity].
  assert (Hk : Task._id (TaskController.applyUpdate now body task) = id)
    by exact Hid.
  rewrite <- Hk at 1.
  apply (findById_save_same Task._id _ task). rewrite Hk. exact Hfind.
Qed.

(** C2: [updateTask] changes the status through a direct update, so the
    pre-save middleware never sees the change.  [PUT /api/tasks/t1] with
    [{ status: 'completed' }] on the todo task t1 leaves [completedAt]
    null, where the status endpoint on the same input stamps it; and a
    completed task reopened through [updateTask] keeps its timestamp. *)
Theorem updateTask_bypasses_completedAt :
  let r := TaskController.updateTask Sample.db0 "t1" Sample.completeIt 10 in
  let viaStatus :=
    TaskController.updateTaskStatus Sample.db0 "t1" TaskStatus.completed None 10 in
  let reopened :=
    TaskController.updateTask (fst viaStatus) "t1" Sample.reopenIt 20 in
  Task.status Sample.task1 = TaskStatus.todo
  /\ Http.status (snd r) = 200%nat
  /\ option_map Task.status (findById Task._id "t1" (tasks (fst r)))
     = Some TaskStatus.completed
  /\ option_map Task.completedAt (findById Task._id "t1" (tasks (fst r)))
     = Some None
  /\ option_map Task.completedAt
       (findById Task._id "t1" (tasks (fst viaStatus))) = Some (Some 10)
  /\ Http.status (snd reopened) = 200%nat
  /\ option_map Task.status (findById Task._id "t1" (tasks (fst reopened)))
     = Some TaskStatus.todo
  /\ option_map Task.completedAt
       (findById Task._id "t1" (tasks (fst reopened))) = Some (Some 10).
Proof. repeat split; reflexivity. Qed.

(** *** Ordering of a new task inside its column *)

Lemma sort_by_nil {A : Type} (leb : A -> A -> bool) (l : list A) :
  sort_by leb l = [] -> l = [].
Proof.
  destruct l as [|x l]; [reflexivity|]. intro H.
  assert (Hin : In x (sort_by leb (x :: l)))
    by (apply sort_by_In; now left).
  rewrite H in Hin. destruct Hin.
Qed.

(** The head of a column sorted by decreasing [order] belongs to the column
    and carries its greatest [order]. *)
Lemma sort_desc_head_max (l : list Task.t) (h : Task.t) :
  hd_error (sort_by TaskController.order_desc l) = Some h ->
  In h l /\ forall x, In x l -> Task.order x <= Task.order h.
Proof.
  revert h. induction l as [|x l IH]; intros h; simpl; [discriminate|].
  destruct (sort_by TaskController.order_desc l) as [|y s'] eqn:Hs.
  - apply sort_by_nil in Hs. subst l. simpl. intro H; inversion H; subst h.
    split; [now left|]. intros z [->|[]]. lia.
  - destruct (IH y eq_refl) as [Hy Hmax]. simpl.
    unfold TaskController.order_desc at 1.
    destruct (Task.order y <=? Task.order x) eqn:E; simpl;
      intro H; inversion H; subst h.
    + apply Z.leb_le in E. split; [now left|].
      intros z [->|Hz]; [lia|]. specialize (Hmax z Hz). lia.
    + apply Z.leb_gt in E. split; [now right|].
      intros z [->|Hz]; [lia|]. now apply Hmax.
Qed.

Lemma column_In (P : ObjectId) (S : TaskStatus.t) (ts : list Task.t)
  (x : Task.t) :
  In x (TaskController.column P S ts)
  <-> In x ts /\ Task.project x = P /\ Task.status x = S.
Proof.
  unfold TaskController.column. rewrite filter_In, andb_true_iff.
  rewrite String.eqb_eq, TaskStatus_eqb_eq. tauto.
Qed.

(** Adding 1 to an integer from [-2^53] to [2^53 - 1] is exact. *)
Lemma Number_add_exact (m : Z) :
  - 2 ^ 53 <= m < 2 ^ 53 -> Number.add m 1 = m + 1.
Proof.
  unfold Number.add, Number.round.
  change (2 ^ 53) with 9007199254740992. intros [Hlo Hhi].
  destruct (Z.abs (m + 1) <? 9007199254740992) eqn:E; [reflexivity|].
  apply Z.ltb_ge in E.
  assert (Hm : m + 1 = 9007199254740992) by lia.
  rewrite Hm. reflexivity.
Qed.

(** C3, as stated, fails where sums of Numbers are rounded.  The status
    route has stored the order 2^53 for task t2, the greatest of its
    column; the task that bob then creates in that column gets the order
    2^53 again, not 1 + 2^53. *)
Lemma createTask_order_is_rounded_from_2_53 :
  let top := 9007199254740992 in
  let db := fst (TaskController.updateTaskStatus Sample.db0 "t2"
                   TaskStatus.todo (Some top) 8) in
  let r := TaskController.createTask db Sample.bob Sample.newTodo "t3" 9 in
  top = 2 ^ 53
  /\ (exists x, In x (tasks db) /\ Task.project x = "p1"
                /\ Task.status x = TaskStatus.todo /\ Task.order x = top)
  /\ (forall x, In x (tasks db) -> Task.project x = "p1" ->
                Task.status x = TaskStatus.todo -> Task.order x <= top)
  /\ Http.status (snd r) = 201%nat
  /\ option_map Task.order (Http.data (snd r)) = Some top
  /\ top <> 1 + top.
Proof.
  cbv zeta. split; [reflexivity|]. split; [|split].
  - eexists. split; [right; left; reflexivity|]. repeat split.
  - intros x [<-|[<-|[]]] _ _; cbn; discriminate.
  - split; [reflexivity|]. split; [reflexivity|]. discriminate.
Qed.

(** C3 (amended): whenever [createTask] creates a task (answer 201), the
    task is stored in the requested project and status column (todo by
    default), and its [order] is 0 when no stored task has that project
    and status, and otherwise the Number sum of 1 and the greatest [order]
    m among the stored tasks with that project and status; the sum is
    1 + m when -2^53 <= m < 2^53. *)
Theorem createTask_order_is_next_in_column :
  forall (db : Db) (u : Requester.t) (body : TaskController.CreateBody)
         (newId : ObjectId) (now : Date) (T : Task.t),
    let P := Mongoose.castObjectId (TaskController.cb_project body) in
    let S := or_default (TaskController.cb_status body) TaskStatus.todo in
    let inColumn := fun x : Task.t =>
      In x (tasks db) /\ Task.project x = P /\ Task.status x = S in
    let r := TaskController.createTask db u body newId now in
    Http.data (snd r) = Some T ->
    Http.status (snd r) = 201%nat
    /\ tasks (fst r) = (tasks db ++ [T])%list
    /\ Task.project T = P
    /\ Task.status T = S
    /\ ((forall x, ~ inColumn x) -> Task.order T = 0)
    /\ (forall m,
          (exists x, inColumn x /\ Task.order x = m) ->
          (forall x, inColumn x -> Task.order x <= m) ->
          Task.order T = Number.add m 1
          /\ (- 2 ^ 53 <= m < 2 ^ 53 -> Task.order T = 1 + m)).
Proof.
  intros db u body newId now T. cbv zeta.
  unfold TaskController.createTask.
  set (P := Mongoose.castObjectId (TaskController.cb_project body)).
  destruct (findById Project._id P (projects db)) as [projectDoc|];
    [|discriminate].
  destruct (Project.isMember projectDoc (Requester.id u)); cbn [negb];
    [|discriminate].
  destruct (TaskController.createValid body); [|discriminate].
  cbn [fst snd Http.data Http.status Http.ok tasks set_tasks].
  set (S := or_default (TaskController.cb_status body) TaskStatus.todo).
  set (doc := Task.mk _ _ _ _ _ _ _ _ _ _ _ _ _ _ _ _ _ _ _ _).
  destruct (Task_pre_save_fields true now doc) as (_ & Hst & Hord & Hproj & _).
  intro HT.
  assert (HT' : Task.pre_save true now doc = T) by congruence.
  clear HT. subst T.
  split; [reflexivity|]. split; [reflexivity|].
  split; [exact Hproj|]. split; [exact Hst|].
  rewrite Hord. unfold doc. cbn [Task.order].
  unfold TaskController.highestOrder.
  destruct (hd_error (sort_by TaskController.order_desc
                        (TaskController.column P S (tasks db))))
    as [h|] eqn:Hh.
  - destruct (sort_desc_head_max _ h Hh) as [Hin Hmax].
    apply column_In in Hin. split.
    + intro Hnone. exfalso. exact (Hnone h Hin).
    + intros m [x [Hx Hxm]] Hm.
      assert (Hhm : Task.order h = m).
      { specialize (Hm h Hin). apply column_In in Hx.
        specialize (Hmax x Hx). lia. }
      rewrite Hhm. split; [reflexivity|].
      intro Hsafe. rewrite (Number_add_exact m Hsafe). lia.
  - assert (Hnil : TaskController.column P S (tasks db) = []).
    { apply (sort_by_nil TaskController.order_desc).
      now destruct (sort_by TaskController.order_desc
                      (TaskController.column P S (tasks db))). }
    split; [reflexivity|].
    intros m [x [Hx _]] _. exfalso. apply column_In in Hx.
    rewrite Hnil in Hx. destruct Hx.
Qed.

Lemma createTask_order_is_next_in_column_witness :
  exists T,
    Http.data (snd (TaskController.createTask
                      Sample.db0 Sample.bob Sample.newTodo "t3" 9)) = Some T
    /\ Task.order T = 1 + 4.
Proof.
  eexists. split; [reflexivity|].
  refine (proj2 (proj2 (proj2 (proj2 (proj2 (proj2
    (createTask_order_is_next_in_column
       Sample.db0 Sample.bob Sample.newTodo "t3" 9 _ eq_refl))))) 4 _ _) _).
  - exists Sample.task2. repeat split. right. now left.
  - intros x [[<-|[<-|[]]] _]; cbn; lia.
  - change (2 ^ 53) with 9007199254740992. lia.
Defined.

(** *** Subtasks *)

Lemma update_subtask_lookup (f : Subtask.t -> Subtask.t) (sid : ObjectId)
  (sts : list Subtask.t) (s : Subtask.t) :
  (forall x, Subtask._id (f x) = Subtask._id x) ->
  Task.subtask_by_id sid sts = Some s ->
  Task.subtask_by_id sid (Task.update_subtask f sid sts) = Some (f s).
Proof.
  intro Hf. unfold Task.subtask_by_id.
  induction sts as [|y sts IH]; simpl; [discriminate|].
  destruct (Subtask._id y =? sid)%string eqn:E.
  - intro H; inversion H; subst y. simpl. now rewrite Hf, E.
  - simpl. rewrite E. exact IH.
Qed.

Lemma toggleSubtask_once :
  forall db id sid now task s,
    findById Task._id id (tasks db) = Some task ->
    Task.subtask_by_id sid (Task.subtasks task) = Some s ->
    let r := TaskController.toggleSubtask db id sid now in
    Http.status (snd r) = 200%nat
    /\ exists task',
         findById Task._id id (tasks (fst r)) = Some task'
         /\ Task.subtask_by_id sid (Task.subtasks task')
            = Some (Task.toggled now s).
Proof.
  intros db id sid now task s Hfind Hsub. cbv zeta.
  destruct (findById_key _ _ _ _ Hfind) as [Hid _].
  unfold TaskController.toggleSubtask. rewrite Hfind, Hsub.
  set (t1 := Task.set_subtasks task _).
  pose proof (saveTask_lookup now task t1 task db id Hid Hfind) as Hlook.
  destruct (TaskController.saveTask now task t1 db) as [saved db'] eqn:Hsave.
  cbn [fst snd] in *. split; [reflexivity|]. exists saved.
  split; [exact Hlook|].
  unfold TaskController.saveTask in Hsave. inversion Hsave as [[Hs Hd]].
  clear Hsave Hd Hlook. cbn [Task.subtasks Task.set_updatedAt].
  match goal with
  | |- context [Task.pre_save ?m now t1] =>
      destruct (Task_pre_save_fields m now t1) as (_ & _ & _ & _ & Hsubs)
  end.
  rewrite Hsubs. unfold t1. cbn [Task.subtasks Task.set_subtasks].
  apply update_subtask_lookup; [reflexivity | exact Hsub].
Qed.

(** C9, as stated, fails.  A subtask added to t1 and toggled once is
    complete; toggling it twice more brings [isCompleted] back to true, and
    the second of these toggles sets [completedAt] to its own time instead
    of clearing it. *)
Lemma second_toggle_of_completed_subtask_sets_completedAt :
  let db1 := fst (TaskController.addSubtask Sample.db0 "t1" "step" "s1" 5) in
  let db2 := fst (TaskController.toggleSubtask db1 "t1" "s1" 6) in
  let db3 := fst (TaskController.toggleSubtask db2 "t1" "s1" 10) in
  let db4 := fst (TaskController.toggleSubtask db3 "t1" "s1" 20) in
  let subtaskIn db :=
    match findById Task._id "t1" (tasks db) with
    | Some x => Task.subtask_by_id "s1" (Task.subtasks x)
    | None => None
    end in
  subtaskIn db2 = Some (Subtask.mk "s1" "step" true (Some 6))
  /\ subtaskIn db4 = Some (Subtask.mk "s1" "step" true (Some 20))
  /\ option_map Subtask.completedAt (subtaskIn db4) <> Some None.
Proof. repeat split; try reflexivity. simpl. discriminate. Qed.

(** C9 (amended): toggling a subtask twice in succession returns it to its
    original [isCompleted] value; the second toggle clears [completedAt]
    when the subtask was incomplete at the start, and sets it to the time
    of the second toggle when the subtask was complete at the start. *)
Theorem toggleSubtask_twice :
  forall (db : Db) (id sid : ObjectId) (now1 now2 : Date)
         (task : Task.t) (s : Subtask.t),
    findById Task._id id (tasks db) = Some task ->
    Task.subtask_by_id sid (Task.subtasks task) = Some s ->
    let r1 := TaskController.toggleSubtask db id sid now1 in
    let r2 := TaskController.toggleSubtask (fst r1) id sid now2 in
    Http.status (snd r1) = 200%nat
    /\ Http.status (snd r2) = 200%nat
    /\ exists task2 s2,
         findById Task._id id (tasks (fst r2)) = Some task2
         /\ Task.subtask_by_id sid (Task.subtasks task2) = Some s2
         /\ Subtask.isCompleted s2 = Subtask.isCompleted s
         /\ Subtask.completedAt s2
            = (if Subtask.isCompleted s then Some now2 else None).
Proof.
  intros db id sid now1 now2 task s Hfind Hsub. cbv zeta.
  destruct (toggleSubtask_once db id sid now1 task s Hfind Hsub)
    as [H1 [task1 [Hfind1 Hsub1]]].
  destruct (toggleSubtask_once _ id sid now2 task1 _ Hfind1 Hsub1)
    as [H2 [task2 [Hfind2 Hsub2]]].
  split; [exact H1|]. split; [exact H2|].
  exists task2, (Task.toggled now2 (Task.toggled now1 s)).
  split; [exact Hfind2|]. split; [exact Hsub2|].
  unfold Task.toggled. cbn [Subtask.isCompleted Subtask.completedAt].
  rewrite negb_involutive. split; [reflexivity|].
  now destruct (Subtask.isCompleted s).
Qed.

Lemma toggleSubtask_twice_witness :
  let db1 := fst (TaskController.addSubtask Sample.db0 "t1" "step" "s1" 5) in
  exists task s,
    findById Task._id "t1" (tasks db1) = Some task
    /\ Task.subtask_by_id "s1" (Task.subtasks task) = Some s
    /\ Http.status (snd (TaskController.toggleSubtask db1 "t1" "s1" 6)) = 200%nat.
Proof.
  cbv zeta. eexists. eexists.
  split; [reflexivity|]. split; [reflexivity|].
  exact (proj1 (toggleSubtask_twice
    (fst (TaskController.addSubtask Sample.db0 "t1" "step" "s1" 5))
    "t1" "s1" 6 7 _ _ eq_refl eq_refl)).
Defined.

(** ** Cascade on project deletion *)

Lemma findById_deleteOne {A : Type} (key : A -> ObjectId) (id : ObjectId)
  (c : list A) :
  findById key id (deleteOne key id c) = None.
Proof.
  unfold findById, deleteOne. induction c as [|x c IH]; simpl; [reflexivity|].
  destruct (key x =? id)%string eqn:E; simpl; [exact IH|].
  rewrite E. exact IH.
Qed.

Lemma filter_none {A : Type} (f : A -> bool) (l : list A) :
  (forall x, In x l -> f x = false) -> filter f l = [].
Proof.
  induction l as [|x l IH]; simpl; intro H; [reflexivity|].
  rewrite (H x (or_introl eq_refl)). apply IH. intros y Hy. apply H. now right.
Qed.

Lemma skip_limit_nil {A : Type} (skip limit : Z) :
  skip_limit skip limit (@nil A) = [].
Proof. unfold skip_limit. now rewrite skipn_nil, firstn_nil. Qed.

Lemma matches_other_project (regexTest : string -> string -> bool)
  (f : TaskController.TaskFilter) (x : Task.t) (id : ObjectId) :
  TaskController.f_project f = Some id ->
  Task.project x <> id ->
  TaskController.matches regexTest f x = false.
Proof.
  intros Hf Hne. unfold TaskController.matches. rewrite Hf.
  apply String.eqb_neq in Hne. rewrite Hne.
  now rewrite andb_false_r.
Qed.

(** C4: when the project exists and the requester is its owner or a global
    admin, [deleteProject] answers 200, removes the project and every task
    whose [project] is its id, and keeps the other tasks.  Afterwards the
    task list asked for that project alone answers with no task and a
    total of 0, and so does every answer with data of a task list whose
    query names that project, whatever its other parameters. *)
Theorem deleteProject_cascades_to_tasks :
  forall (regexTest : string -> string -> bool)
         (startOfDay endOfDay : Date -> Date)
         (db : Db) (u : Requester.t) (id : ObjectId) (project : Project.t),
    findById Project._id id (projects db) = Some project ->
    Project.owner project = Requester.id u
    \/ Requester.role u = UserRole.admin ->
    let r := ProjectController.deleteProject db u id in
    Http.status (snd r) = 200%nat
    /\ findById Project._id id (projects (fst r)) = None
    /\ (forall x, In x (tasks (fst r)) -> Task.project x <> id)
    /\ (forall x, In x (tasks db) -> Task.project x <> id ->
                  In x (tasks (fst r)))
    /\ (id <> "" ->
        forall u' now,
          exists l,
            Http.data (TaskController.getTasks regexTest startOfDay endOfDay
                         (fst r) u' now
                         (TaskController.mkTasksQuery None None (Some id) None
                            None None None None None None None)) = Some l
            /\ Http.docs l = []
            /\ Js.get "total" (Http.pagination l) = Some (Js.Num 0))
    /\ (forall u' now q l,
          given (TaskController.q_project q) = Some id ->
          Http.data (TaskController.getTasks regexTest startOfDay endOfDay
                       (fst r) u' now q) = Some l ->
          Http.docs l = []
          /\ Js.get "total" (Http.pagination l) = Some (Js.Num 0)).
Proof.
  intros regexTest startOfDay endOfDay db u id project Hfind Hauth. cbv zeta.
  destruct (findById_key _ _ _ _ Hfind) as [Hid _].
  apply ownerOrAdminForbidden_false in Hauth.
  unfold ProjectController.deleteProject. rewrite Hfind, Hauth, Hid.
  cbn [fst snd projects tasks].
  assert (Hgone : forall x,
            In x (filter (fun x => negb (Task.project x =? id)%string)
                         (tasks db)) -> Task.project x <> id).
  { intros x Hx. apply filter_In in Hx. destruct Hx as [_ Hx].
    apply negb_true_iff in Hx. now apply String.eqb_neq. }
  split; [reflexivity|]. split; [apply findById_deleteOne|].
  assert (Hempty : forall u' now q,
            given (TaskController.q_project q) = Some id ->
            exists l,
              Http.data (TaskController.getTasks regexTest startOfDay endOfDay
                           (mkDb (deleteOne Project._id id (projects db))
                              (filter (fun x => negb (Task.project x =? id)%string)
                                      (tasks db))
                              (comments db) (users db)) u' now q) = Some l
              /\ Http.docs l = []
              /\ Js.get "total" (Http.pagination l) = Some (Js.Num 0)).
  { intros u' now q Hq. unfold TaskController.getTasks.
    cbn [Http.data Http.ok Http.docs Http.pagination tasks].
    set (query := TaskController.buildQuery startOfDay endOfDay u' now q).
    assert (Hnone : filter (TaskController.matches regexTest query)
                      (filter (fun x => negb (Task.project x =? id)%string)
                              (tasks db)) = []).
    { apply filter_none. intros x Hx.
      apply (matches_other_project regexTest query x id); [exact Hq|].
      now apply Hgone. }
    rewrite Hnone. eexists. split; [reflexivity|].
    cbn [Http.docs Http.pagination sort_by length Z.of_nat].
    split; [apply skip_limit_nil | reflexivity]. }
  split; [exact Hgone|]. split; [|split].
  - intros x Hx Hne. apply filter_In. split; [exact Hx|].
    apply negb_true_iff. now apply String.eqb_neq.
  - intros Hne u' now. apply Hempty.
    cbn [TaskController.q_project given].
    apply String.eqb_neq in Hne. now rewrite Hne.
  - intros u' now q l Hq Hdata.
    destruct (Hempty u' now q Hq) as [l' [Hl' Hres]].
    rewrite Hdata in Hl'. inversion Hl'; subst l'. exact Hres.
Qed.

Lemma deleteProject_cascades_to_tasks_witness :
  findById Project._id "p1" (projects Sample.db0) = Some Sample.alpha
  /\ Project.owner Sample.alpha = Requester.id Sample.alice
  /\ tasks (fst (ProjectController.deleteProject Sample.db0 Sample.alice "p1"))
     = []
  /\ Http.status (snd (ProjectController.deleteProject
                         Sample.db0 Sample.alice "p1")) = 200%nat.
Proof.
  split; [reflexivity|]. split; [reflexivity|]. split; [reflexivity|].
  exact (proj1 (deleteProject_cascades_to_tasks
    (fun _ _ => false) (fun d => d) (fun d => d)
    Sample.db0 Sample.alice "p1" Sample.alpha eq_refl (or_introl eq_refl))).
Defined.

(** ** Comment threads *)

(** The listing before any deletion: the reply c2 is attached to c1. *)
Example getComments_before_delete :
  option_map (fun l => map (fun th => map Comment._id (CommentController.replies th))
                           (Http.docs l))
             (Http.data (CommentController.getComments Sample.db0 "t1" None None))
  = Some [["c2"]].
Proof. reflexivity. Qed.

(** C7, as stated, fails: bob deletes his reply c2; the stored comment
    carries the tombstone and [isDeleted = true], and the listing of task
    t1 then attaches no reply to the parent c1. *)
Lemma deleted_reply_leaves_the_reply_list :
  let r := CommentController.deleteComment Sample.db0 Sample.bob "c2" 9 in
  Http.status (snd r) = 200%nat
  /\ option_map (fun c => (Comment.content c, Comment.isDeleted c))
                (findById Comment._id "c2" (comments (fst r)))
     = Some (CommentController.tombstone, true)
  /\ option_map
       (fun l => map (fun th => (Comment._id (CommentController.comment th),
                                 map Comment._id (CommentController.replies th)))
                     (Http.docs l))
       (Http.data (CommentController.getComments (fst r) "t1" None None))
     = Some [("c1", [])].
Proof. repeat split; reflexivity. Qed.

(** C7 (amended): after [deleteComment] by the author or a global admin the
    comment is still stored, under the same parent, with the tombstone as
    content and [isDeleted = true]; the listing query, which attaches only
    the replies that are not deleted, no longer returns it, neither as a
    reply nor as a top-level comment. *)
Theorem deleteComment_soft_deletes_and_hides :
  forall (db : Db) (u : Requester.t) (id : ObjectId) (now : Date)
         (c : Comment.t),
    findById Comment._id id (comments db) = Some c ->
    Comment.author c = Requester.id u \/ Requester.role u = UserRole.admin ->
    let r := CommentController.deleteComment db u id now in
    Http.status (snd r) = 200%nat
    /\ (exists c',
          findById Comment._id id (comments (fst r)) = Some c'
          /\ Comment.content c' = CommentController.tombstone
          /\ Comment.isDeleted c' = true
          /\ Comment.parentComment c' = Comment.parentComment c
          /\ Comment.task c' = Comment.task c)
    /\ (forall taskId page limit l th,
          Http.data (CommentController.getComments (fst r) taskId page limit)
          = Some l ->
          In th (Http.docs l) ->
          Comment._id (CommentController.comment th) <> id
          /\ forall reply, In reply (CommentController.replies th) ->
                           Comment._id reply <> id).
Proof.
  intros db u id now c Hfind Hauth. cbv zeta.
  destruct (findById_key _ _ _ _ Hfind) as [Hid _].
  unfold CommentController.deleteComment. rewrite Hfind.
  assert (Hguard : negb (Comment.author c =? Requester.id u)%string
                   && negb (UserRole.eqb (Requester.role u) UserRole.admin)
                   = false).
  { apply andb_false_iff. rewrite !negb_false_iff, String.eqb_eq, UserRole_eqb_eq.
    exact Hauth. }
  rewrite Hguard. cbn [fst snd comments set_comments].
  set (c2 := Comment.set_updatedAt _ now).
  assert (Hk : Comment._id c2 = id).
  { unfold c2, Comment.pre_save.
    destruct (negb (Comment.content c =? CommentController.tombstone)%string
              && negb false); exact Hid. }
  assert (Hdel : Comment.isDeleted c2 = true).
  { unfold c2, Comment.pre_save.
    destruct (negb (Comment.content c =? CommentController.tombstone)%string
              && negb false); reflexivity. }
  assert (Hhidden : forall x, In x (save Comment._id c2 (comments db)) ->
                              Comment.isDeleted x = false ->
                              Comment._id x <> id).
  { intros x Hx Hlive. apply save_In in Hx. destruct Hx as [->|[_ Hne]].
    - rewrite Hdel in Hlive. discriminate.
    - now rewrite Hk in Hne. }
  split; [reflexivity|]. split.
  - exists c2. split.
    + rewrite <- Hk. apply (findById_save_same Comment._id c2 c).
      rewrite Hk. exact Hfind.
    + unfold c2, Comment.pre_save.
      destruct (negb (Comment.content c =? CommentController.tombstone)%string
                && negb false); repeat split.
  - intros taskId page limit l th Hdata Hth.
    unfold CommentController.getComments in Hdata.
    cbn [tasks comments set_comments] in Hdata.
    destruct (findById Task._id taskId (tasks db));
      [|cbn [Http.data Http.fail] in Hdata; discriminate].
    cbn [Http.data Http.ok comments] in Hdata. inversion Hdata; subst l.
    clear Hdata. cbn [Http.docs] in Hth.
    apply in_map_iff in Hth. destruct Hth as [top [<- Htop]].
    apply skip_limit_In, sort_by_In, filter_In in Htop.
    destruct Htop as [Hin Hlive]. unfold CommentController.topLevel in Hlive.
    apply andb_true_iff in Hlive. destruct Hlive as [Hlive _].
    apply andb_true_iff in Hlive. destruct Hlive as [_ Hlive].
    apply negb_true_iff in Hlive.
    split; [now apply Hhidden|].
    intros reply Hreply. cbn [CommentController.replies
                              CommentController.populateReplies] in Hreply.
    apply sort_by_In, filter_In in Hreply. destruct Hreply as [Hrin Hr].
    apply andb_true_iff in Hr. destruct Hr as [_ Hr].
    apply negb_true_iff in Hr. now apply Hhidden.
Qed.

Lemma deleteComment_soft_deletes_and_hides_witness :
  findById Comment._id "c2" (comments Sample.db0) = Some Sample.replyC
  /\ Comment.author Sample.replyC = Requester.id Sample.bob
  /\ Http.status (snd (CommentController.deleteComment
                         Sample.db0 Sample.bob "c2" 9)) = 200%nat.
Proof.
  split; [reflexivity|]. split; [reflexivity|].
  exact (proj1 (deleteComment_soft_deletes_and_hides
    Sample.db0 Sample.bob "c2" 9 Sample.replyC eq_refl (or_introl eq_refl))).
Defined.

(** ** Pagination objects *)

Lemma Math_ceil_is_ceiling (total limit : Z) :
  0 < limit ->
  PaginationSpec.is_ceiling (Math_ceil (inject_Z total / inject_Z limit))
                            total limit.
Proof.
  intros Hpos. unfold PaginationSpec.is_ceiling, Math_ceil.
  set (x := (inject_Z total / inject_Z limit)%Q).
  assert (Hl : (0 < inject_Z limit)%Q)
    by (change 0%Q with (inject_Z 0); rewrite <- Zlt_Qlt; exact Hpos).
  assert (Hx : (x * inject_Z limit == inject_Z total)%Q).
  { unfold x. rewrite Qmult_comm. apply Qmult_div_r.
    intro H. rewrite H in Hl. now apply Qlt_irrefl in Hl. }
  split.
  - pose proof (Qceiling_lt x) as H.
    apply (Qmult_lt_compat_r _ _ _ Hl) in H.
    rewrite Hx, <- inject_Z_mult, <- Zlt_Qlt in H. exact H.
  - pose proof (Qle_ceiling x) as H.
    apply (Qmult_le_compat_r _ _ (inject_Z limit)) in H;
      [|now apply Qlt_le_weak].
    rewrite Hx, <- inject_Z_mult, <- Zle_Qle in H. exact H.
Qed.

Lemma six_key_pagination (current limit total : Z) :
  let pg :=
    [ ("current", Js.Num current);
      ("pages", Js.Num (Math_ceil (inject_Z total / inject_Z limit)));
      ("total", Js.Num total);
      ("limit", Js.Num limit);
      ("hasNext", Js.Bool (current * limit <? total));
      ("hasPrev", Js.Bool (1 <? current)) ] in
  PaginationSpec.counters pg current limit total
  /\ PaginationSpec.navigation pg current limit total.
Proof.
  cbv zeta. split.
  - split; [reflexivity|]. split; [reflexivity|]. split; [reflexivity|].
    eexists. split; [reflexivity|]. apply Math_ceil_is_ceiling.
  - split; eexists; (split; [reflexivity|]); apply Z.ltb_lt.
Qed.

(** C8, as stated, fails on the comment list: the pagination object of
    [getComments] has no [hasNext] and no [hasPrev]. *)
Lemma getComments_pagination_has_no_hasNext :
  exists l,
    Http.data (CommentController.getComments Sample.db0 "t1" None None) = Some l
    /\ map fst (Http.pagination l) = ["current"; "pages"; "total"; "limit"]
    /\ Js.get "hasNext" (Http.pagination l) = None
    /\ Js.get "hasPrev" (Http.pagination l) = None.
Proof. eexists. repeat split; reflexivity. Qed.

(** C8 (amended): every answer with data of the project list and of the
    task list, for a positive limit, carries a pagination object with
    current, pages, total, limit, hasNext and hasPrev, where total counts
    the documents that match the query, pages is ceil(total / limit),
    hasNext is current * limit < total and hasPrev is current > 1.  Every
    answer with data of the comment list, for a positive limit, carries
    current, pages, total and limit under the same rules, and neither
    hasNext nor hasPrev. *)
Theorem list_endpoints_pagination :
  forall (regexTest : string -> string -> bool)
         (startOfDay endOfDay : Date -> Date)
         (db : Db) (u : Requester.t) (now : Date)
         (pq : ProjectController.ProjectsQuery)
         (tq : TaskController.TasksQuery)
         (taskId : ObjectId) (page limit : option Z),
    (forall l,
        Http.data (ProjectController.getProjects regexTest db u pq) = Some l ->
        0 < or_default (ProjectController.q_limit pq) 10 ->
        let current := or_default (ProjectController.q_page pq) 1 in
        let lim := or_default (ProjectController.q_limit pq) 10 in
        let total :=
          Z.of_nat (length (filter
            (ProjectController.projectMatches regexTest u pq)
            (projects db))) in
        PaginationSpec.counters (Http.pagination l) current lim total
        /\ PaginationSpec.navigation (Http.pagination l) current lim total)
    /\ (forall l,
          Http.data (TaskController.getTasks regexTest startOfDay endOfDay
                       db u now tq) = Some l ->
          0 < or_default (TaskController.q_limit tq) 20 ->
          let current := or_default (TaskController.q_page tq) 1 in
          let lim := or_default (TaskController.q_limit tq) 20 in
          let total :=
            Z.of_nat (length (filter
              (TaskController.matches regexTest
                 (TaskController.buildQuery startOfDay endOfDay u now tq))
              (tasks db))) in
          PaginationSpec.counters (Http.pagination l) current lim total
          /\ PaginationSpec.navigation (Http.pagination l) current lim total)
    /\ (forall l,
          Http.data (CommentController.getComments db taskId page limit)
          = Some l ->
          0 < or_default limit 20 ->
          let current := or_default page 1 in
          let lim := or_default limit 20 in
          let total :=
            Z.of_nat (length (filter (CommentController.topLevel taskId)
                                     (comments db))) in
          PaginationSpec.counters (Http.pagination l) current lim total
          /\ PaginationSpec.no_navigation (Http.pagination l)).
Proof.
  intros regexTest startOfDay endOfDay db u now pq tq taskId page limit.
  split; [|split].
  - intros l Hdata _. cbv zeta.
    unfold ProjectController.getProjects in Hdata.
    cbn [Http.data Http.ok] in Hdata. inversion Hdata; subst l.
    cbn [Http.pagination]. apply six_key_pagination.
  - intros l Hdata _. cbv zeta.
    unfold TaskController.getTasks in Hdata.
    cbn [Http.data Http.ok] in Hdata. inversion Hdata; subst l.
    cbn [Http.pagination]. apply six_key_pagination.
  - intros l Hdata _. cbv zeta.
    unfold CommentController.getComments in Hdata.
    destruct (findById Task._id taskId (tasks db));
      [|cbn [Http.data Http.fail] in Hdata; discriminate].
    cbn [Http.data Http.ok] in Hdata. inversion Hdata; subst l.
    cbn [Http.pagination]. split.
    + split; [reflexivity|]. split; [reflexivity|]. split; [reflexivity|].
      eexists. split; [reflexivity|]. apply Math_ceil_is_ceiling.
    + split; reflexivity.
Qed.

Lemma list_endpoints_pagination_witness :
  exists l,
    Http.data (CommentController.getComments Sample.db0 "t1" (Some 1) (Some 5))
    = Some l
    /\ 0 < or_default (Some 5) 20
    /\ PaginationSpec.counters (Http.pagination l) 1 5 1.
Proof.
  eexists. split; [reflexivity|]. split; [reflexivity|].
  refine (proj1 (proj2 (proj2 (list_endpoints_pagination
    (fun _ _ => false) (fun d => d) (fun d => d) Sample.db0 Sample.alice 0
    (ProjectController.mkProjectsQuery None None None None None None None None)
    (TaskController.mkTasksQuery None None None None None None None None None
                                 None None)
    "t1" (Some 1) (Some 5))) _ eq_refl eq_refl)).
Defined.

(** ** Registration *)

Lemma UserRole_of_string_admin (s : string) :
  UserRole.of_string s = Some UserRole.admin -> s = "admin".
Proof.
  unfold UserRole.of_string.
  destruct (s =? "user")%string; [discriminate|].
  destruct (s =? "manager")%string; [discriminate|].
  destruct (s =? "admin")%string eqn:E; [|discriminate].
  intros _. now apply String.eqb_eq.
Qed.

Lemma roleArgument_not_admin (role : Js.value) :
  AuthController.roleArgument role <> Js.Str "admin".
Proof.
  unfold AuthController.roleArgument, Js.or.
  destruct (Js.strict_eq_str role "admin") eqn:E; [discriminate|].
  destruct (Js.truthy role); [|discriminate].
  intros ->. simpl in E. discriminate.
Qed.

(** What the guard of [register] does achieve: the value handed to
    [User.create] for the role is never the string admin; a request for
    admin is turned into user, a falsy role into the default user, and any
    other value is passed on.  Hence a registration whose role is absent,
    falsy or a string never creates an admin account, whatever the cast of
    the other values does. *)
Lemma register_string_role_is_never_admin :
  forall (castString : Js.value -> option string) (hash : string -> string)
         (db : Db) (body : AuthController.RegisterBody)
         (newId : ObjectId) (now : Date),
    let role := AuthController.rb_role body in
    let arg := AuthController.roleArgument role in
    let r := AuthController.register castString hash db body newId now in
    arg <> Js.Str "admin"
    /\ (role = Js.Str "admin" -> arg = Js.Str "user")
    /\ (role <> Js.Str "admin" ->
        (Js.truthy role = true /\ arg = role)
        \/ (Js.truthy role = false /\ arg = Js.Str "user"))
    /\ (forall account,
          Http.data (snd r) = Some account ->
          Js.truthy role = false \/ (exists s, role = Js.Str s) ->
          User.role account <> UserRole.admin
          /\ (role = Js.Str "admin" \/ Js.truthy role = false ->
              User.role account = UserRole.user)
          /\ (forall s, role = Js.Str s -> s <> "admin" -> s <> "" ->
                        UserRole.of_string s = Some (User.role account))).
Proof.
  intros castString hash db body newId now. cbv zeta.
  set (role := AuthController.rb_role body).
  split; [apply roleArgument_not_admin|]. split; [|split].
  - intros ->. reflexivity.
  - intro Hne. unfold AuthController.roleArgument, Js.or.
    destruct (Js.strict_eq_str role "admin") eqn:E.
    + exfalso. apply Hne. destruct role; simpl in E; try discriminate.
      apply String.eqb_eq in E. now subst.
    + destruct (Js.truthy role); [left | right]; now split.
  - intros account Hdata Hshape.
    unfold AuthController.register in Hdata.
    destruct (find _ (users db)); [discriminate|].
    fold role in Hdata.
    destruct (AuthController.schemaRole castString
                (AuthController.roleArgument role)) as [stored|] eqn:Hs;
      [|discriminate].
    destruct (AuthController.createValid body); [|discriminate].
    cbn [snd Http.data Http.ok] in Hdata. inversion Hdata; subst account.
    clear Hdata. cbn [User.role].
    assert (Hstr : exists s, AuthController.roleArgument role = Js.Str s
                             /\ s <> "admin"
                             /\ (role = Js.Str "admin" \/ Js.truthy role = false
                                 -> s = "user")
                             /\ (forall s', role = Js.Str s' -> s' <> "admin" ->
                                            s' <> "" -> s = s')).
    { unfold AuthController.roleArgument, Js.or.
      destruct Hshape as [Hfalsy | [s0 Hs0]].
      - rewrite Hfalsy.
        destruct (Js.strict_eq_str role "admin"); exists "user";
          (split; [reflexivity|]); (split; [discriminate|]);
          (split; [reflexivity|]); intros s' Hs' _ Hne;
          rewrite Hs' in Hfalsy; simpl in Hfalsy;
          apply negb_false_iff, String.eqb_eq in Hfalsy; contradiction.
      - rewrite Hs0. simpl.
        destruct (s0 =? "admin")%string eqn:Ea.
        + apply String.eqb_eq in Ea. subst s0. exists "user".
          split; [reflexivity|]. split; [discriminate|].
          split; [reflexivity|]. intros s' Hs' Hne _. congruence.
        + apply String.eqb_neq in Ea.
          destruct (s0 =? "")%string eqn:Ee; simpl.
          * apply String.eqb_eq in Ee. subst s0. exists "user".
            split; [reflexivity|]. split; [discriminate|].
            split; [reflexivity|]. intros s' Hs' _ Hne. congruence.
          * apply String.eqb_neq in Ee. exists s0.
            split; [reflexivity|]. split; [exact Ea|]. split.
            -- intros [H|H]; [congruence|]. simpl in H. discriminate H.
            -- intros s' Hs' _ _. congruence. }
    destruct Hstr as [s [Harg [Hna [Huser Hsame]]]].
    rewrite Harg in Hs. cbn [AuthController.schemaRole] in Hs.
    split; [|split].
    + intros ->. apply UserRole_of_string_admin in Hs. contradiction.
    + intro H. rewrite (Huser H) in Hs. cbv in Hs. congruence.
    + intros s' Hs' Hne Hnempty. rewrite <- (Hsame s' Hs' Hne Hnempty).
      exact Hs.
Qed.

(** C10: the guard compares [role] with the string admin, so a [role] that
    is an object holding the string admin under [_id] passes it untouched,
    and the String cast of the schema reads that object as admin.  Such a
    registration, from anybody, with a fresh email and fields the schema
    accepts, is answered 201 and stores an account whose role is admin. *)
Theorem register_object_role_creates_admin :
  forall (hash : string -> string) (db : Db)
         (body : AuthController.RegisterBody)
         (fields : list (string * Js.value)) (newId : ObjectId) (now : Date),
    AuthController.rb_role body = Js.Obj fields ->
    Js.get "_id" fields = Some (Js.Str "admin") ->
    AuthController.createValid body = true ->
    find (fun x => (User.email x
                    =? AuthController.toLowerCase
                         (AuthController.rb_email body))%string) (users db)
    = None ->
    let r := AuthController.register Mongoose.castString hash db body newId
                                     now in
    AuthController.roleArgument (AuthController.rb_role body)
    = AuthController.rb_role body
    /\ exists account,
         Http.status (snd r) = 201%nat
         /\ Http.data (snd r) = Some account
         /\ User.role account = UserRole.admin
         /\ User._id account = newId
         /\ users (fst r) = (users db ++ [account])%list.
Proof.
  intros hash db body fields newId now Hrole Hid Hvalid Hfresh. cbv zeta.
  unfold AuthController.register. rewrite Hfresh, Hrole.
  cbn [AuthController.roleArgument Js.strict_eq_str Js.or Js.truthy
       AuthController.schemaRole Mongoose.castString].
  rewrite Hid. cbn [String.eqb Ascii.eqb Bool.eqb UserRole.of_string].
  split; [reflexivity|].
  change (UserRole.of_string "admin") with (Some UserRole.admin).
  cbv iota. rewrite Hvalid. cbn [fst snd Http.status Http.data Http.ok users
                                 set_users].
  eexists. repeat split.
Qed.

Lemma register_object_role_creates_admin_witness :
  AuthController.createValid Sample.objectAdmin = true
  /\ exists account,
       Http.data (snd (AuthController.register Mongoose.castString
                         (fun p => p) Sample.empty Sample.objectAdmin "u7" 3))
       = Some account
       /\ User.role account = UserRole.admin
       /\ users (fst (AuthController.register Mongoose.castString
                        (fun p => p) Sample.empty Sample.objectAdmin "u7" 3))
          = [account].
Proof.
  split; [reflexivity|].
  destruct (proj2 (register_object_role_creates_admin (fun p => p)
                     Sample.empty Sample.objectAdmin
                     [("_id", Js.Str "admin")] "u7" 3
                     eq_refl eq_refl eq_refl eq_refl))
    as [account (_ & Hdata & Hadmin & _ & Husers)].
  exists account. split; [exact Hdata|]. split; [exact Hadmin | exact Husers].
Defined.

(** * Further properties of the controllers and models *)

(** ** Access to a project *)

Lemma someMember_populated (db : Db) (userId : ObjectId)
  (ms : list Member.t) :
  Forall (fun ref => ProjectController.populated db ref = true)
         (map Member.user ms) ->
  ProjectController.someMember db userId ms
  = Some (existsb (fun m => (Member.user m =? userId)%string) ms).
Proof.
  induction ms as [|m ms IH]; simpl; intro Hall; [reflexivity|].
  inversion Hall as [|? ? Hm Hrest]; subst. rewrite Hm.
  destruct (Member.user m =? userId)%string; [reflexivity|].
  now apply IH.
Qed.

Lemma isMemberPopulated_resolved (db : Db) (project : Project.t)
  (userId : ObjectId) :
  Forall (fun ref => ProjectController.populated db ref = true)
         (Project.owner project :: map Member.user (Project.members project)) ->
  ProjectController.isMemberPopulated db project userId
  = Some (Project.isMember project userId).
Proof.
  intro Hall. inversion Hall as [|? ? Ho Hms]; subst.
  unfold ProjectController.isMemberPopulated, Project.isMember. rewrite Ho.
  destruct (Project.owner project =? userId)%string; [reflexivity|].
  now apply someMember_populated.
Qed.

(** X1: [getProject] on an existing project whose owner and members all
    have an account answers 200 exactly when the requester is a member
    (the owner included) or the project is public, and 403 without data
    otherwise.  When the owner has no account the membership test throws
    and the answer is 500.  The global role of the requester plays no
    part, so an admin outside a private project is refused. *)
Theorem getProject_access :
  forall (db : Db) (u : Requester.t) (id : ObjectId) (project : Project.t),
    findById Project._id id (projects db) = Some project ->
    let r := ProjectController.getProject db u id in
    (Forall (fun ref => ProjectController.populated db ref = true)
            (Project.owner project
             :: map Member.user (Project.members project)) ->
     (Http.status r = 200%nat <->
      Project.isMember project (Requester.id u) = true
      \/ Project.isPublic project = true)
     /\ (Http.status r = 200%nat ->
         exists v, Http.data r = Some v
                   /\ ProjectController.project v = project)
     /\ (Http.status r <> 200%nat ->
         Http.status r = 403%nat /\ Http.data r = None))
    /\ (ProjectController.populated db (Project.owner project) = false ->
        Http.status r = 500%nat /\ Http.data r = None)
    /\ (forall role,
          ProjectController.getProject db (Requester.mk (Requester.id u) role) id
          = r).
Proof.
  intros db u id project Hfind. cbv zeta.
  unfold ProjectController.getProject. rewrite Hfind. cbn [Requester.id].
  split; [|split; [|reflexivity]].
  - intro Hall. rewrite (isMemberPopulated_resolved db project _ Hall).
    destruct (Project.isMember project (Requester.id u)) eqn:Hm;
      destruct (Project.isPublic project) eqn:Hp; cbn [negb andb];
      cbn [Http.status Http.data Http.ok Http.fail].
    all: repeat split; intros; try tauto; try discriminate; try congruence.
    all: try (eexists; split; reflexivity).
    all: try (left; reflexivity); try (right; reflexivity).
    all: destruct H as [H|H]; discriminate.
  - intro Hnone. unfold ProjectController.isMemberPopulated.
    rewrite Hnone. split; reflexivity.
Qed.

Lemma getProject_access_witness :
  findById Project._id Sample.gammaId (projects Sample.db5) = Some Sample.gamma
  /\ Forall (fun ref => ProjectController.populated Sample.db5 ref = true)
            (Project.owner Sample.gamma
             :: map Member.user (Project.members Sample.gamma))
  /\ Http.status (ProjectController.getProject Sample.db5 Sample.root
                                               Sample.gammaId)
     = 403%nat.
Proof.
  assert (Hall : Forall
            (fun ref => ProjectController.populated Sample.db5 ref = true)
            (Project.owner Sample.gamma
             :: map Member.user (Project.members Sample.gamma))).
  { repeat constructor. }
  split; [reflexivity|]. split; [exact Hall|].
  refine (proj1 (proj2 (proj2 (proj1 (getProject_access
    Sample.db5 Sample.root Sample.gammaId Sample.gamma eq_refl) Hall)) _)).
  cbv. discriminate.
Defined.

(** ** Membership and task creation *)

Lemma existsb_filter_negb {A : Type} (f : A -> bool) (l : list A) :
  existsb f (filter (fun x => negb (f x)) l) = false.
Proof.
  induction l as [|x l IH]; simpl; [reflexivity|].
  destruct (f x) eqn:E; simpl; [exact IH|]. now rewrite E.
Qed.





(** X4: a user whom [removeMember] has just removed (answer 200), named by
    the identifier as the store prints it, is no longer a member of the
    stored project, and [createTask] in that project refuses them with
    403, whatever their global role. *)
Theorem removed_member_cannot_create_tasks :
  forall (db : Db) (u : Requester.t) (id userId : ObjectId) (now : Date)
         (globalRole : UserRole.t) (body : TaskController.CreateBody)
         (newId : ObjectId) (later : Date),
    Mongoose.castObjectId userId = userId ->
    Http.status (snd (ProjectController.removeMember db u id userId now))
    = 200%nat ->
    Mongoose.castObjectId (TaskController.cb_project body) = id ->
    let db' := fst (ProjectController.removeMember db u id userId now) in
    (exists stored,
        findById Project._id id (projects db') = Some stored
        /\ Project.isMember stored userId = false)
    /\ Http.status (snd (TaskController.createTask db'
                           (Requester.mk userId globalRole) body newId later))
       = 403%nat.
Proof.
  intros db u id userId now globalRole body newId later _ Hok Hbody.
  cbv zeta. unfold ProjectController.removeMember in *.
  destruct (findById Project._id id (projects db)) as [project|] eqn:Hfind;
    [|discriminate Hok].
  destruct (findById_key _ _ _ _ Hfind) as [Hid _].
  destruct (ProjectController.ownerOrAdminForbidden project u);
    [discriminate Hok|].
  destruct (userId =? Project.owner project)%string eqn:Howner;
    [discriminate Hok|].
  cbn [fst]. set (project' := Project.set_members project _).
  pose proof (saveProject_lookup now project' project db id Hid Hfind) as Hl.
  assert (Hm : Project.isMember (Project.set_updatedAt project' now) userId
               = false).
  { unfold Project.isMember. cbn [Project.members Project.owner
      Project.set_updatedAt Project.set_members project'].
    rewrite String.eqb_sym, Howner.
    apply (existsb_filter_negb
             (fun m => (Member.user m =? userId)%string)). }
  split.
  - eexists. split; [exact Hl | exact Hm].
  - unfold TaskController.createTask. cbv zeta. rewrite Hbody, Hl.
    cbn [Requester.id]. rewrite Hm. reflexivity.
Qed.

Lemma removed_member_cannot_create_tasks_witness :
  Mongoose.castObjectId "u2" = "u2"
  /\ Http.status (snd (ProjectController.removeMember
                         Sample.db0 Sample.alice "p1" "u2" 10)) = 200%nat
  /\ Http.status (snd (TaskController.createTask
       (fst (ProjectController.removeMember Sample.db0 Sample.alice "p1" "u2"
                                            10))
       Sample.bob Sample.newTodo "t3" 11)) = 403%nat.
Proof.
  split; [reflexivity|]. split; [reflexivity|].
  exact (proj2 (removed_member_cannot_create_tasks
    Sample.db0 Sample.alice "p1" "u2" 10 UserRole.user Sample.newTodo
    "t3" 11 eq_refl eq_refl eq_refl)).
Defined.





(** ** Statistics and percentages *)

Lemma percentage_bounds (c t : Z) :
  0 <= c <= t -> 0 < t ->
  0 <= Math_round (inject_Z c / inject_Z t * inject_Z 100) <= 100.
Proof.
  intros [Hc Hct] Ht. unfold Math_round.
  set (q := (inject_Z c / inject_Z t * inject_Z 100)%Q).
  assert (Htq : (0 < inject_Z t)%Q)
    by (change 0%Q with (inject_Z 0); rewrite <- Zlt_Qlt; exact Ht).
  assert (Hlo : (0 <= inject_Z c / inject_Z t)%Q).
  { apply Qle_shift_div_l; [exact Htq|]. rewrite Qmult_0_l.
    change 0%Q with (inject_Z 0). now rewrite <- Zle_Qle. }
  assert (Hhi : (inject_Z c / inject_Z t <= 1)%Q).
  { apply Qle_shift_div_r; [exact Htq|]. rewrite Qmult_1_l.
    now rewrite <- Zle_Qle. }
  assert (Hq0 : (0 <= q)%Q).
  { unfold q. apply Qmult_le_0_compat; [exact Hlo|]. discriminate. }
  assert (Hq1 : (q <= 100)%Q).
  { unfold q. apply Qle_trans with (1 * inject_Z 100)%Q.
    - apply Qmult_le_compat_r; [exact Hhi | discriminate].
    - discriminate. }
  split.
  - change 0 with (Qfloor 0). apply Qfloor_resp_le.
    apply Qle_trans with q; [exact Hq0|].
    rewrite <- (Qplus_0_r q) at 1. apply Qplus_le_r. discriminate.
  - change 100 with (Qfloor (100 + (1 # 2))). apply Qfloor_resp_le.
    now apply Qplus_le_l.
Qed.

Lemma filter_length_le {A : Type} (f : A -> bool) (l : list A) :
  (length (filter f l) <= length l)%nat.
Proof.
  induction l as [|x l IH]; simpl; [lia|]. destruct (f x); simpl; lia.
Qed.

Lemma count_by_status (g : Task.t -> bool) (ts : list Task.t) :
  length (filter g ts) =
  (length (filter (fun x => g x && TaskStatus.eqb (Task.status x) TaskStatus.todo) ts)
   + length (filter (fun x => g x && TaskStatus.eqb (Task.status x) TaskStatus.in_progress) ts)
   + length (filter (fun x => g x && TaskStatus.eqb (Task.status x) TaskStatus.in_review) ts)
   + length (filter (fun x => g x && TaskStatus.eqb (Task.status x) TaskStatus.completed) ts))%nat.
Proof.
  induction ts as [|x ts IH]; simpl; [reflexivity|].
  destruct (g x); simpl; [|exact IH].
  destruct (Task.status x); simpl; rewrite IH; lia.
Qed.

(** X7: the statistics attached to a project count every unarchived task
    of the project exactly once: [total] is the number of those tasks,
    [completed] never exceeds it, and [progress] lies between 0 and 100
    (0 for a project without tasks). *)
Theorem project_stats_total_and_progress :
  forall (ts : list Task.t) (p : Project.t),
    let v := ProjectController.withStats ts p in
    let stats := ProjectController.taskStats v in
    ProjectController.total stats
    = Z.of_nat (length (filter
        (fun x => (Task.project x =? Project._id p)%string
                  && negb (Task.isArchived x)) ts))
    /\ 0 <= ProjectController.completed stats <= ProjectController.total stats
    /\ 0 <= ProjectController.progress v <= 100
    /\ (ProjectController.total stats = 0 -> ProjectController.progress v = 0).
Proof.
  intros ts p. cbv zeta.
  unfold ProjectController.withStats, ProjectController.statsOf,
    ProjectController.count_status.
  cbn [ProjectController.taskStats ProjectController.total
       ProjectController.completed ProjectController.progress].
  rewrite (count_by_status
             (fun x => (Task.project x =? Project._id p)%string
                       && negb (Task.isArchived x)) ts).
  set (a := length (filter (fun x => _ && TaskStatus.eqb _ TaskStatus.todo) ts)).
  set (b := length (filter (fun x => _ && TaskStatus.eqb _ TaskStatus.in_progress) ts)).
  set (c := length (filter (fun x => _ && TaskStatus.eqb _ TaskStatus.in_review) ts)).
  set (d := length (filter (fun x => _ && TaskStatus.eqb _ TaskStatus.completed) ts)).
  split; [lia|]. split; [lia|]. split.
  - destruct (0 <? Z.of_nat a + Z.of_nat b + Z.of_nat c + Z.of_nat d) eqn:E;
      [|lia].
    apply Z.ltb_lt in E. apply percentage_bounds; lia.
  - intro H. destruct (0 <? _) eqn:E; [|reflexivity].
    apply Z.ltb_lt in E. lia.
Qed.

Lemma project_stats_total_and_progress_witness :
  ProjectController.total
    (ProjectController.taskStats
       (ProjectController.withStats (tasks Sample.db0) Sample.solo)) = 0
  /\ ProjectController.progress
       (ProjectController.withStats (tasks Sample.db0) Sample.solo) = 0.
Proof.
  split; [reflexivity|].
  exact (proj2 (proj2 (proj2 (project_stats_total_and_progress
    (tasks Sample.db0) Sample.solo))) eq_refl).
Defined.

Lemma filter_all {A : Type} (f : A -> bool) (l : list A) :
  forallb f l = true -> filter f l = l.
Proof.
  induction l as [|x l IH]; simpl; [reflexivity|].
  destruct (f x); simpl; [|discriminate]. intro H. now rewrite IH.
Qed.

(** X8: the [subtaskProgress] of a task lies between 0 and 100; it is 100
    for a task without subtasks and for a task whose subtasks are all
    complete, and 0 when there are subtasks and none is complete. *)
Theorem subtaskProgress_bounds :
  forall (x : Task.t),
    0 <= TaskVirtual.subtaskProgress x <= 100
    /\ (Task.subtasks x = [] -> TaskVirtual.subtaskProgress x = 100)
    /\ (forallb Subtask.isCompleted (Task.subtasks x) = true ->
        TaskVirtual.subtaskProgress x = 100)
    /\ (Task.subtasks x <> [] ->
        existsb Subtask.isCompleted (Task.subtasks x) = false ->
        TaskVirtual.subtaskProgress x = 0).
Proof.
  intro x. unfold TaskVirtual.subtaskProgress.
  destruct (Task.subtasks x) as [|s sts] eqn:Hs.
  - simpl. repeat split; try lia. intro H. now elim H.
  - rewrite <- Hs. assert (Hlen : (0 < length (Task.subtasks x))%nat)
      by (rewrite Hs; simpl; lia).
    destruct (length (Task.subtasks x) =? 0)%nat eqn:E;
      [apply Nat.eqb_eq in E; lia|].
    pose proof (filter_length_le Subtask.isCompleted (Task.subtasks x)) as Hle.
    split; [apply percentage_bounds; lia|].
    split; [intro H; rewrite H in Hlen; simpl in Hlen; lia|]. split.
    + intro Hall. rewrite (filter_all _ _ Hall). unfold Math_round.
      set (n := inject_Z (Z.of_nat (length (Task.subtasks x)))).
      assert (Hn : ~ (n == 0)%Q).
      { unfold n. intro H. unfold Qeq in H. simpl in H. lia. }
      assert (Hq : (n / n * inject_Z 100 + (1 # 2) == 100 + (1 # 2))%Q).
      { unfold Qdiv. rewrite Qmult_inv_r by exact Hn. reflexivity. }
      rewrite Hq. reflexivity.
    + intros _ Hnone.
      rewrite (filter_none Subtask.isCompleted (Task.subtasks x)).
      * unfold Math_round. simpl length.
        assert (Hq : (inject_Z (Z.of_nat 0)
                      / inject_Z (Z.of_nat (length (Task.subtasks x)))
                      * inject_Z 100 + (1 # 2) == 1 # 2)%Q).
        { unfold Qdiv. simpl Z.of_nat. rewrite !Qmult_0_l. reflexivity. }
        rewrite Hq. reflexivity.
      * intros y Hy. destruct (Subtask.isCompleted y) eqn:Ey; [|reflexivity].
        assert (Hex : existsb Subtask.isCompleted (Task.subtasks x) = true)
          by (apply existsb_exists; now exists y).
        congruence.
Qed.

Lemma subtaskProgress_bounds_witness :
  TaskVirtual.subtaskProgress
    (Task.set_subtasks Sample.task1
       [Subtask.mk "s1" "a" true (Some 3); Subtask.mk "s2" "b" true (Some 4)])
  = 100.
Proof.
  exact (proj1 (proj2 (proj2 (subtaskProgress_bounds
    (Task.set_subtasks Sample.task1
       [Subtask.mk "s1" "a" true (Some 3); Subtask.mk "s2" "b" true (Some 4)]))))
    eq_refl).
Defined.

(** ** The Kanban view *)








(** ** Deleting tasks and subtasks *)

Lemma deleteOne_keeps {A : Type} (key : A -> ObjectId) (id : ObjectId)
  (c : list A) (x : A) :
  In x (deleteOne key id c) <-> In x c /\ key x <> id.
Proof.
  unfold deleteOne. rewrite filter_In, negb_true_iff, String.eqb_neq. tauto.
Qed.

(** X10: [deleteTask] removes the task and nothing else: the other tasks
    stay, and so does every comment, those written on the deleted task
    included; these can no longer be listed, because the comment listing
    of a deleted task answers 404. *)
Theorem deleteTask_orphans_comments :
  forall (db : Db) (id : ObjectId) (task : Task.t),
    findById Task._id id (tasks db) = Some task ->
    let r := TaskController.deleteTask db id in
    Http.status (snd r) = 200%nat
    /\ findById Task._id id (tasks (fst r)) = None
    /\ (forall x, In x (tasks (fst r)) <-> In x (tasks db) /\ Task._id x <> id)
    /\ comments (fst r) = comments db
    /\ projects (fst r) = projects db
    /\ (forall page limit,
          Http.status (CommentController.getComments (fst r) id page limit)
          = 404%nat).
Proof.
  intros db id task Hfind. cbv zeta.
  destruct (findById_key _ _ _ _ Hfind) as [Hid _].
  unfold TaskController.deleteTask. rewrite Hfind, Hid.
  cbn [fst snd tasks comments projects set_tasks].
  split; [reflexivity|]. split; [apply findById_deleteOne|].
  split; [intro x; apply deleteOne_keeps|].
  split; [reflexivity|]. split; [reflexivity|].
  intros page limit. unfold CommentController.getComments.
  cbn [tasks set_tasks]. now rewrite findById_deleteOne.
Qed.

Lemma deleteTask_orphans_comments_witness :
  findById Task._id "t1" (tasks Sample.db0) = Some Sample.task1
  /\ In Sample.replyC
        (comments (fst (TaskController.deleteTask Sample.db0 "t1")))
  /\ Http.status (CommentController.getComments
                    (fst (TaskController.deleteTask Sample.db0 "t1"))
                    "t1" None None) = 404%nat.
Proof.
  split; [reflexivity|]. split; [right; now left|].
  exact (proj2 (proj2 (proj2 (proj2 (proj2
    (deleteTask_orphans_comments Sample.db0 "t1" Sample.task1 eq_refl)))))
    None None).
Defined.

Lemma saveTask_subtasks (now : Date) (stored task : Task.t) (db : Db) :
  Task.subtasks (fst (TaskController.saveTask now stored task db))
  = Task.subtasks task.
Proof.
  unfold TaskController.saveTask. cbn [fst Task.subtasks Task.set_updatedAt].
  apply Task_pre_save_fields.
Qed.

Lemma subtask_by_id_filtered (sid : ObjectId) (sts : list Subtask.t) :
  Task.subtask_by_id sid
    (filter (fun st => negb (Subtask._id st =? sid)%string) sts) = None.
Proof.
  unfold Task.subtask_by_id. induction sts as [|y sts IH]; simpl;
    [reflexivity|].
  destruct (Subtask._id y =? sid)%string eqn:E; simpl; [exact IH|].
  now rewrite E.
Qed.

Lemma filter_absent_subtask (sid : ObjectId) (sts : list Subtask.t) :
  Task.subtask_by_id sid sts = None ->
  filter (fun st => negb (Subtask._id st =? sid)%string) sts = sts.
Proof.
  unfold Task.subtask_by_id. induction sts as [|y sts IH]; simpl;
    [reflexivity|].
  destruct (Subtask._id y =? sid)%string; simpl; [discriminate|].
  intro H. now rewrite IH.
Qed.

Lemma deleteSubtask_result :
  forall (db : Db) (id sid : ObjectId) (now : Date) (task : Task.t),
    findById Task._id id (tasks db) = Some task ->
    let r := TaskController.deleteSubtask db id sid now in
    exists stored,
      snd r = Http.ok 200 (Some "Subtask deleted") (Some (Task.subtasks stored))
      /\ findById Task._id id (tasks (fst r)) = Some stored
      /\ Task.subtasks stored
         = filter (fun st => negb (Subtask._id st =? sid)%string)
                  (Task.subtasks task).
Proof.
  intros db id sid now task Hfind. cbv zeta.
  destruct (findById_key _ _ _ _ Hfind) as [Hid _].
  unfold TaskController.deleteSubtask. rewrite Hfind.
  set (t1 := Task.set_subtasks task _).
  pose proof (saveTask_lookup now task t1 task db id Hid Hfind) as Hlook.
  pose proof (saveTask_subtasks now task t1 db) as Hsubs.
  destruct (TaskController.saveTask now task t1 db) as [saved db'].
  cbn [fst snd] in *. exists saved. now repeat split.
Qed.

(** X11: [deleteSubtask] on an existing task always answers 200: it drops
    every subtask whose printed identifier equals the request string and
    keeps the others in order.  For a request string spelled as the store
    prints identifiers: when no subtask carries it the list is left as it
    was (where [toggleSubtask] answers 404), and after the call a toggle
    of that identifier answers 404. *)
Theorem deleteSubtask_behaviour :
  forall (db : Db) (id sid : ObjectId) (now later : Date) (task : Task.t),
    findById Task._id id (tasks db) = Some task ->
    Mongoose.castObjectId sid = sid ->
    let r := TaskController.deleteSubtask db id sid now in
    Http.status (snd r) = 200%nat
    /\ (exists stored,
          findById Task._id id (tasks (fst r)) = Some stored
          /\ Http.data (snd r) = Some (Task.subtasks stored)
          /\ Task.subtasks stored
             = filter (fun st => negb (Subtask._id st =? sid)%string)
                      (Task.subtasks task)
          /\ Task.subtask_by_id sid (Task.subtasks stored) = None)
    /\ (Task.subtask_by_id sid (Task.subtasks task) = None ->
        Http.data (snd r) = Some (Task.subtasks task)
        /\ Http.status (snd (TaskController.toggleSubtask db id sid now))
           = 404%nat)
    /\ Http.status (snd (TaskController.toggleSubtask (fst r) id sid later))
       = 404%nat.
Proof.
  intros db id sid now later task Hfind _. cbv zeta.
  destruct (deleteSubtask_result db id sid now task Hfind)
    as [saved (Hr & Hlook & Hsubs)].
  rewrite Hr. cbn [Http.status Http.data Http.ok].
  split; [reflexivity|]. split; [|split].
  - exists saved. split; [exact Hlook|]. split; [reflexivity|].
    split; [exact Hsubs|]. rewrite Hsubs. apply subtask_by_id_filtered.
  - intro Habs. rewrite Hsubs.
    split; [now rewrite filter_absent_subtask|].
    unfold TaskController.toggleSubtask. now rewrite Hfind, Habs.
  - unfold TaskController.toggleSubtask. rewrite Hlook, Hsubs.
    now rewrite subtask_by_id_filtered.
Qed.

Lemma deleteSubtask_behaviour_witness :
  findById Task._id "t1" (tasks Sample.db0) = Some Sample.task1
  /\ Mongoose.castObjectId "nope" = "nope"
  /\ Http.status (snd (TaskController.deleteSubtask Sample.db0 "t1" "nope" 9))
     = 200%nat.
Proof.
  split; [reflexivity|]. split; [reflexivity|].
  exact (proj1 (deleteSubtask_behaviour Sample.db0 "t1" "nope" 9 10
                  Sample.task1 eq_refl eq_refl)).
Defined.

(** X12: a subtask added under an identifier that no subtask of the task
    carries and then deleted leaves the subtask list of the task exactly
    as it was before the two calls. *)
Theorem addSubtask_then_deleteSubtask :
  forall (db : Db) (id sid : ObjectId) (title : string) (now later : Date)
         (task : Task.t),
    findById Task._id id (tasks db) = Some task ->
    Task.subtask_by_id sid (Task.subtasks task) = None ->
    let r1 := TaskController.addSubtask db id title sid now in
    let r2 := TaskController.deleteSubtask (fst r1) id sid later in
    Http.status (snd r1) = 201%nat
    /\ Http.data (snd r1)
       = Some (Task.subtasks task ++ [Subtask.mk sid title false None])%list
    /\ Http.status (snd r2) = 200%nat
    /\ Http.data (snd r2) = Some (Task.subtasks task)
    /\ exists stored,
         findById Task._id id (tasks (fst r2)) = Some stored
         /\ Task.subtasks stored = Task.subtasks task.
Proof.
  intros db id sid title now later task Hfind Habs. cbv zeta.
  destruct (findById_key _ _ _ _ Hfind) as [Hid _].
  assert (H1 : exists task1,
             findById Task._id id
               (tasks (fst (TaskController.addSubtask db id title sid now)))
             = Some task1
             /\ Task.subtasks task1
                = (Task.subtasks task ++ [Subtask.mk sid title false None])%list
             /\ snd (TaskController.addSubtask db id title sid now)
                = Http.ok 201 (Some "Subtask added")
                          (Some (Task.subtasks task1))).
  { unfold TaskController.addSubtask. rewrite Hfind.
    set (t1 := Task.set_subtasks task _).
    pose proof (saveTask_lookup now task t1 task db id Hid Hfind) as Hlook.
    pose proof (saveTask_subtasks now task t1 db) as Hsubs.
    destruct (TaskController.saveTask now task t1 db) as [saved db'].
    cbn [fst snd] in *. exists saved. now repeat split. }
  destruct H1 as [task1 [Hfind1 [Hsubs1 Hr1]]].
  destruct (deleteSubtask_result _ id sid later task1 Hfind1)
    as [stored (Hr2 & Hst & Hsubs)].
  assert (Hback : filter (fun st => negb (Subtask._id st =? sid)%string)
                         (Task.subtasks task1) = Task.subtasks task).
  { rewrite Hsubs1, filter_app, (filter_absent_subtask sid _ Habs).
    simpl. rewrite String.eqb_refl. simpl. apply app_nil_r. }
  rewrite Hr1, Hr2. cbn [Http.status Http.data Http.ok].
  split; [reflexivity|]. split; [now rewrite Hsubs1|].
  split; [reflexivity|]. split; [now rewrite Hsubs, Hback|].
  exists stored. split; [exact Hst | now rewrite Hsubs, Hback].
Qed.

Lemma addSubtask_then_deleteSubtask_witness :
  findById Task._id "t1" (tasks Sample.db0) = Some Sample.task1
  /\ Task.subtask_by_id "s1" (Task.subtasks Sample.task1) = None
  /\ Http.data (snd (TaskController.deleteSubtask
       (fst (TaskController.addSubtask Sample.db0 "t1" "step" "s1" 5))
       "t1" "s1" 6)) = Some [].
Proof.
  split; [reflexivity|]. split; [reflexivity|].
  exact (proj1 (proj2 (proj2 (proj2 (addSubtask_then_deleteSubtask
    Sample.db0 "t1" "s1" "step" 5 6 Sample.task1 eq_refl eq_refl))))).
Defined.

(** X13: a status update that names the status the task already has does
    not count as a status change: [completedAt] stays as it was, so a task
    that is completed without a timestamp is not repaired by sending
    completed again. *)
Theorem updateTaskStatus_same_status :
  forall (db : Db) (id : ObjectId) (order : option Z) (now : Date)
         (task : Task.t),
    findById Task._id id (tasks db) = Some task ->
    let r := TaskController.updateTaskStatus db id (Task.status task) order
                                             now in
    Http.status (snd r) = 200%nat
    /\ exists saved,
         findById Task._id id (tasks (fst r)) = Some saved
         /\ Task.status saved = Task.status task
         /\ Task.completedAt saved = Task.completedAt task
         /\ Task.order saved = or_default order (Task.order task).
Proof.
  intros db id order now task Hfind. cbv zeta.
  destruct (findById_key _ _ _ _ Hfind) as [Hid _].
  unfold TaskController.updateTaskStatus. rewrite Hfind.
  set (t2 := match order with
             | Some o => Task.set_order (Task.set_status task (Task.status task)) o
             | None => Task.set_status task (Task.status task)
             end).
  assert (Hid2 : Task._id t2 = id) by (unfold t2; destruct order; exact Hid).
  assert (Hst2 : Task.status t2 = Task.status task)
    by (unfold t2; now destruct order).
  assert (Hc2 : Task.completedAt t2 = Task.completedAt task)
    by (unfold t2; now destruct order).
  assert (Ho2 : Task.order t2 = or_default order (Task.order task))
    by (unfold t2; now destruct order).
  pose proof (saveTask_lookup now task t2 task db id Hid2 Hfind) as Hlook.
  assert (Hsaved : fst (TaskController.saveTask now task t2 db)
                   = Task.set_updatedAt t2 now).
  { unfold TaskController.saveTask. cbn [fst]. rewrite Hst2.
    destruct (Task.status task); reflexivity. }
  destruct (TaskController.saveTask now task t2 db) as [saved db'].
  cbn [fst snd Http.status Http.ok] in *. split; [reflexivity|].
  exists saved. split; [exact Hlook|]. subst saved.
  cbn [Task.status Task.completedAt Task.order Task.set_updatedAt].
  now rewrite Hst2, Hc2, Ho2.
Qed.

Lemma updateTaskStatus_same_status_witness :
  let db' := fst (TaskController.updateTask Sample.db0 "t1" Sample.completeIt
                                            10) in
  exists task,
    findById Task._id "t1" (tasks db') = Some task
    /\ Task.status task = TaskStatus.completed
    /\ Task.completedAt task = None
    /\ Http.status (snd (TaskController.updateTaskStatus db' "t1"
                           TaskStatus.completed None 20)) = 200%nat.
Proof.
  cbv zeta. eexists. split; [reflexivity|]. split; [reflexivity|].
  split; [reflexivity|].
  exact (proj1 (updateTaskStatus_same_status
    (fst (TaskController.updateTask Sample.db0 "t1" Sample.completeIt 10))
    "t1" None 20 _ eq_refl)).
Defined.

(** ** Pages of the task list *)

Lemma insert_sorted_length {A : Type} (leb : A -> A -> bool) (x : A)
  (l : list A) : length (insert_sorted leb x l) = S (length l).
Proof.
  induction l as [|y l IH]; simpl; [reflexivity|].
  destruct (leb x y); simpl; [reflexivity | now rewrite IH].
Qed.

Lemma sort_by_length {A : Type} (leb : A -> A -> bool) (l : list A) :
  length (sort_by leb l) = length l.
Proof.
  induction l as [|x l IH]; simpl; [reflexivity|].
  now rewrite insert_sorted_length, IH.
Qed.

Lemma skip_limit_empty_iff {A : Type} (skip limit : Z) (l : list A) :
  0 < limit -> 0 <= skip ->
  (skip_limit skip limit l <> [] <-> skip < Z.of_nat (length l)).
Proof.
  intros Hl Hs. unfold skip_limit.
  assert (Hlen : length (firstn (Z.to_nat limit) (skipn (Z.to_nat skip) l))
                 = Nat.min (Z.to_nat limit) (length l - Z.to_nat skip))
    by (now rewrite length_firstn, length_skipn).
  split.
  - intro Hne.
    destruct (firstn (Z.to_nat limit) (skipn (Z.to_nat skip) l)) eqn:E;
      [now elim Hne|]. simpl in Hlen. lia.
  - intros Hlt Hnil. rewrite Hnil in Hlen. simpl in Hlen. lia.
Qed.

Lemma getTasks_docs :
  forall regexTest startOfDay endOfDay db u now q page,
    Paging.docsOf (TaskController.getTasks regexTest startOfDay endOfDay db u
                     now (Paging.atPage q page))
    = skip_limit ((page - 1) * or_default (TaskController.q_limit q) 20)
        (or_default (TaskController.q_limit q) 20)
        (sort_by
           (TaskController.task_order
              (or_default (TaskController.q_sortBy q) "createdAt")
              (or_default (TaskController.q_sortOrder q) "desc"))
           (filter (TaskController.matches regexTest
                      (TaskController.buildQuery startOfDay endOfDay u now q))
                   (tasks db))).
Proof. reflexivity. Qed.

(** X15: on a page numbered from 1, with a positive [limit], [hasNext] is
    true exactly when the next page of the task list holds at least one
    task. *)
Theorem getTasks_hasNext_iff_next_page :
  forall (regexTest : string -> string -> bool)
         (startOfDay endOfDay : Date -> Date)
         (db : Db) (u : Requester.t) (now : Date)
         (q : TaskController.TasksQuery) (page : Z),
    0 < or_default (TaskController.q_limit q) 20 ->
    1 <= page ->
    (Paging.pageInfo "hasNext"
       (TaskController.getTasks regexTest startOfDay endOfDay db u now
          (Paging.atPage q page)) = Some (Js.Bool true)
     <->
     Paging.docsOf
       (TaskController.getTasks regexTest startOfDay endOfDay db u now
          (Paging.atPage q (page + 1))) <> []).
Proof.
  intros regexTest startOfDay endOfDay db u now q page Hpos Hpage.
  rewrite getTasks_docs.
  set (limit := or_default (TaskController.q_limit q) 20) in *.
  rewrite skip_limit_empty_iff by nia.
  rewrite sort_by_length.
  change (Paging.pageInfo "hasNext" _)
    with (Some (Js.Bool (page * limit
                         <? Z.of_nat (length (filter
                              (TaskController.matches regexTest
                                 (TaskController.buildQuery startOfDay
                                    endOfDay u now q)) (tasks db)))))).
  replace (page + 1 - 1) with page by lia.
  split.
  - intro H. inversion H as [Hb]. now apply Z.ltb_lt.
  - intro H. apply Z.ltb_lt in H. now rewrite H.
Qed.

Lemma getTasks_hasNext_iff_next_page_witness :
  Paging.docsOf
    (TaskController.getTasks (fun _ _ => false) (fun d => d) (fun d => d)
       Sample.db0 Sample.alice 0
       (Paging.atPage
          (TaskController.mkTasksQuery None (Some 1) None None None None None
                                       None None None None) (1 + 1)))
  <> [].
Proof.
  apply (getTasks_hasNext_iff_next_page (fun _ _ => false) (fun d => d)
           (fun d => d) Sample.db0 Sample.alice 0
           (TaskController.mkTasksQuery None (Some 1) None None None None None
                                        None None None None) 1).
  - reflexivity.
  - cbv. discriminate.
  - reflexivity.
Defined.

(** ** What the task list returns *)

Lemma matches_true_inv (regexTest : string -> string -> bool)
  (f : TaskController.TaskFilter) (x : Task.t) :
  TaskController.matches regexTest f x = true ->
  Task.isArchived x = TaskController.f_isArchived f
  /\ (forall p, TaskController.f_project f = Some p -> Task.project x = p)
  /\ (forall n, TaskController.f_status f = Some (TaskController.StatusNe n) ->
                TaskStatus.name (Task.status x) <> n)
  /\ (forall a, TaskController.f_assignee f = Some a -> Task.assignee x = a)
  /\ (forall hi, TaskController.f_dueDate f
                 = Some (TaskController.DateBefore hi) ->
                 exists d, Task.dueDate x = Some d /\ d < hi).
Proof.
  unfold TaskController.matches. rewrite !andb_true_iff.
  intros [[[[[[Ha Hp] Hs] _] Has] _] Hd].
  split; [now apply Bool.eqb_prop|]. split; [|split; [|split]].
  - intros p Hf. rewrite Hf in Hp. now apply String.eqb_eq.
  - intros n Hf. rewrite Hf in Hs. apply negb_true_iff in Hs.
    now apply String.eqb_neq.
  - intros a Hf. rewrite Hf in Has.
    destruct a as [a|], (Task.assignee x) as [b|]; try discriminate;
      [|reflexivity]. apply String.eqb_eq in Has. now subst.
  - intros hi Hf. rewrite Hf in Hd.
    destruct (Task.dueDate x) as [d|]; [|discriminate].
    exists d. split; [reflexivity | now apply Z.ltb_lt].
Qed.

(** X16: every task that the task list returns is a stored, unarchived
    task that meets the filters of the request: it belongs to the
    requested project (named as the store prints it), is assigned to the
    requester for [assignee=me] and to nobody for [assignee=unassigned],
    and with [overdue=true] it is due before now and not completed,
    whatever the [status] and [dueDate] parameters ask for.  A page never
    holds more than [limit] tasks. *)
Theorem getTasks_returns_only_matching_tasks :
  forall (regexTest : string -> string -> bool)
         (startOfDay endOfDay : Date -> Date)
         (db : Db) (u : Requester.t) (now : Date)
         (q : TaskController.TasksQuery),
    let r := TaskController.getTasks regexTest startOfDay endOfDay db u now q in
    (0 <= or_default (TaskController.q_limit q) 20 ->
     Z.of_nat (length (Paging.docsOf r))
     <= or_default (TaskController.q_limit q) 20)
    /\ (forall x,
          In x (Paging.docsOf r) ->
          In x (tasks db)
          /\ Task.isArchived x = false
          /\ (forall p, given (TaskController.q_project q) = Some p ->
                        Mongoose.castObjectId p = p ->
                        Task.project x = p)
          /\ (given (TaskController.q_assignee q) = Some "me" ->
              Task.assignee x = Some (Requester.id u))
          /\ (given (TaskController.q_assignee q) = Some "unassigned" ->
              Task.assignee x = None)
          /\ (TaskController.q_overdue q = Some "true" ->
              Task.status x <> TaskStatus.completed
              /\ exists d, Task.dueDate x = Some d /\ d < now)).
Proof.
  intros regexTest startOfDay endOfDay db u now q. cbv zeta.
  split.
  - intro Hl. unfold Paging.docsOf, TaskController.getTasks.
    cbn [Http.data Http.ok Http.docs]. unfold skip_limit.
    rewrite length_firstn. lia.
  - intros x Hx. unfold Paging.docsOf, TaskController.getTasks in Hx.
    cbn [Http.data Http.ok Http.docs] in Hx.
    apply skip_limit_In, sort_by_In, filter_In in Hx.
    destruct Hx as [Hin Hm].
    destruct (matches_true_inv _ _ _ Hm) as (Ha & Hp & Hs & Has & Hd).
    split; [exact Hin|]. split; [exact Ha|]. split; [|split; [|split]].
    + intros p Hq _. apply Hp. exact Hq.
    + intro Hq. apply Has. cbn [TaskController.buildQuery
        TaskController.f_assignee]. now rewrite Hq.
    + intro Hq. apply Has. cbn [TaskController.buildQuery
        TaskController.f_assignee]. now rewrite Hq.
    + intro Hq. split.
      * intro Hc. apply (Hs "completed").
        -- cbn [TaskController.buildQuery TaskController.f_status].
           now rewrite Hq.
        -- now rewrite Hc.
      * apply Hd. cbn [TaskController.buildQuery TaskController.f_dueDate].
        now rewrite Hq.
Qed.

Lemma getTasks_returns_only_matching_tasks_witness :
  In Sample.task1
     (Paging.docsOf
        (TaskController.getTasks (fun _ _ => false) (fun d => d)
           (fun d => d) Sample.db0 Sample.alice 0
           (TaskController.mkTasksQuery None None (Some "p1") None None
              None None None None None None)))
  /\ Task.isArchived Sample.task1 = false.
Proof.
  assert (Hin : In Sample.task1
     (Paging.docsOf
        (TaskController.getTasks (fun _ _ => false) (fun d => d)
           (fun d => d) Sample.db0 Sample.alice 0
           (TaskController.mkTasksQuery None None (Some "p1") None None
              None None None None None None)))).
  { right. left. reflexivity. }
  split; [exact Hin|].
  exact (proj1 (proj2 (proj2
    (getTasks_returns_only_matching_tasks (fun _ _ => false) (fun d => d)
       (fun d => d) Sample.db0 Sample.alice 0
       (TaskController.mkTasksQuery None None (Some "p1") None None
          None None None None None None)) Sample.task1 Hin))).
Defined.

(** ** Reactions *)

Lemma saveComment_lookup (m : bool) (now : Date) (c x : Comment.t) (db : Db)
  (id : ObjectId) :
  Comment._id c = id ->
  findById Comment._id id (comments db) = Some x ->
  findById Comment._id id (comments (snd (CommentController.saveComment m now c db)))
  = Some (fst (CommentController.saveComment m now c db)).
Proof.
  intros Hid H. subst id. unfold CommentController.saveComment.
  cbn [fst snd comments set_comments].
  set (c' := Comment.set_updatedAt _ now).
  assert (Hk : Comment._id c' = Comment._id c).
  { unfold c', Comment.pre_save. now destruct (m && negb false). }
  rewrite <- Hk. apply (findById_save_same Comment._id c' x).
  rewrite Hk. exact H.
Qed.

Lemma saveComment_unmodified (now : Date) (c : Comment.t) (db : Db) :
  fst (CommentController.saveComment false now c db)
  = Comment.set_updatedAt c now.
Proof. reflexivity. Qed.

Lemma retype_first_users (userId : ObjectId) (type : string)
  (rs : list Reaction.t) :
  map Reaction.user (CommentController.retype_first userId type rs)
  = map Reaction.user rs.
Proof.
  induction rs as [|r rs IH]; simpl; [reflexivity|].
  destruct (Reaction.user r =? userId)%string; simpl; [reflexivity|].
  now rewrite IH.
Qed.

Lemma retype_first_others (userId : ObjectId) (type : string)
  (rs : list Reaction.t) :
  filter (fun r => negb (Reaction.user r =? userId)%string)
         (CommentController.retype_first userId type rs)
  = filter (fun r => negb (Reaction.user r =? userId)%string) rs.
Proof.
  induction rs as [|r rs IH]; simpl; [reflexivity|].
  destruct (Reaction.user r =? userId)%string eqn:E; simpl.
  - now rewrite E.
  - rewrite E. simpl. now rewrite IH.
Qed.

Lemma filter_absent_user (userId : ObjectId) (rs : list Reaction.t) :
  ~ In userId (map Reaction.user rs) ->
  filter (fun r => negb (Reaction.user r =? userId)%string) rs = rs.
Proof.
  induction rs as [|r rs IH]; simpl; [reflexivity|]. intro H.
  destruct (Reaction.user r =? userId)%string eqn:E; simpl.
  - apply String.eqb_eq in E. tauto.
  - rewrite IH; [reflexivity | tauto].
Qed.

Lemma find_reaction_none (userId : ObjectId) (rs : list Reaction.t) :
  find (fun r => (Reaction.user r =? userId)%string) rs = None <->
  ~ In userId (map Reaction.user rs).
Proof.
  induction rs as [|r rs IH]; simpl; [tauto|].
  destruct (Reaction.user r =? userId)%string eqn:E.
  - apply String.eqb_eq in E. split; [discriminate | tauto].
  - apply String.eqb_neq in E. rewrite IH. tauto.
Qed.

(** The reactions the controller stores for the requester's reaction. *)
Lemma upsert_typed (userId : ObjectId) (type : string) (rs : list Reaction.t) :
  NoDup (map Reaction.user rs) ->
  let rs' :=
    match find (fun r => (Reaction.user r =? userId)%string) rs with
    | Some _ => CommentController.retype_first userId type rs
    | None => (rs ++ [Reaction.mk userId type])%list
    end in
  In (Reaction.mk userId type) rs'
  /\ (forall r, In r rs' -> Reaction.user r = userId -> Reaction.type r = type)
  /\ Permutation rs'
       (filter (fun r => negb (Reaction.user r =? userId)%string) rs
        ++ [Reaction.mk userId type]).
Proof.
  cbv zeta. induction rs as [|r rs IH]; intro Hnd.
  - simpl. split; [now left|]. split; [|apply Permutation_refl].
    intros r [<-|[]] _. reflexivity.
  - simpl in Hnd. inversion Hnd as [|? ? Hnot Hnd']; subst.
    specialize (IH Hnd'). cbn [find CommentController.retype_first filter].
    destruct (Reaction.user r =? userId)%string eqn:E; cbn [negb].
    + apply String.eqb_eq in E. rewrite E in Hnot.
      rewrite (filter_absent_user userId rs Hnot). rewrite E.
      split; [now left|]. split.
      * intros x [<-|Hx] Hu; [reflexivity|]. exfalso. apply Hnot.
        rewrite <- Hu. now apply in_map.
      * apply Permutation_cons_append.
    + destruct (find (fun r0 => (Reaction.user r0 =? userId)%string) rs);
        destruct IH as (Hin & Hty & Hperm); cbn [app].
      * split; [now right|]. split.
        -- intros x [<-|Hx] Hu; [apply String.eqb_neq in E; contradiction|].
           now apply Hty.
        -- now constructor.
      * split; [now right|]. split.
        -- intros x [<-|Hx] Hu; [apply String.eqb_neq in E; contradiction|].
           now apply Hty.
        -- now constructor.
Qed.

(** X17: [addReaction] is an upsert by user.  On a comment with at most
    one reaction per user it stores exactly one reaction of the requester,
    of the requested type (like by default), keeps at most one reaction
    per user, and leaves the reactions of the other users, the content
    and the edit flag as they were. *)
Theorem addReaction_upsert :
  forall (db : Db) (u : Requester.t) (id : ObjectId) (type : option string)
         (now : Date) (comment : Comment.t),
    findById Comment._id id (comments db) = Some comment ->
    NoDup (map Reaction.user (Comment.reactions comment)) ->
    let r := CommentController.addReaction db u id type now in
    Http.status (snd r) = 200%nat
    /\ exists saved,
         findById Comment._id id (comments (fst r)) = Some saved
         /\ Http.data (snd r) = Some (Comment.reactions saved)
         /\ NoDup (map Reaction.user (Comment.reactions saved))
         /\ In (Reaction.mk (Requester.id u) (or_default type "like"))
               (Comment.reactions saved)
         /\ (forall x, In x (Comment.reactions saved) ->
                       Reaction.user x = Requester.id u ->
                       Reaction.type x = or_default type "like")
         /\ filter (fun x => negb (Reaction.user x =? Requester.id u)%string)
                   (Comment.reactions saved)
            = filter (fun x => negb (Reaction.user x =? Requester.id u)%string)
                     (Comment.reactions comment)
         /\ Comment.content saved = Comment.content comment
         /\ Comment.isEdited saved = Comment.isEdited comment.
Proof.
  intros db u id type now comment Hfind Hnd. cbv zeta.
  destruct (findById_key _ _ _ _ Hfind) as [Hid _].
  unfold CommentController.addReaction. rewrite Hfind.
  set (ty := or_default type "like").
  set (rs' := match find _ (Comment.reactions comment) with
              | Some _ => _ | None => _ end).
  pose proof (saveComment_lookup false now
                (Comment.set_reactions comment rs') comment db id Hid Hfind)
    as Hlook.
  rewrite saveComment_unmodified in Hlook.
  destruct (CommentController.saveComment false now
              (Comment.set_reactions comment rs') db) as [saved db'] eqn:Hs.
  pose proof (f_equal fst Hs) as Hsaved.
  rewrite saveComment_unmodified in Hsaved. cbn [fst snd] in *.
  subst saved. split; [reflexivity|]. eexists. split; [exact Hlook|].
  cbn [Http.data Http.ok Comment.reactions Comment.content Comment.isEdited
       Comment.set_updatedAt Comment.set_reactions].
  destruct (upsert_typed (Requester.id u) ty (Comment.reactions comment) Hnd)
    as (Hin & Hty & Hperm). fold rs' in Hin, Hty, Hperm.
  split; [reflexivity|]. split; [|split; [exact Hin|split; [exact Hty|]]].
  - unfold rs'.
    destruct (find _ (Comment.reactions comment)) eqn:E.
    + now rewrite retype_first_users.
    + rewrite map_app. simpl. apply NoDup_snoc; [exact Hnd|].
      now apply find_reaction_none.
  - split; [|now split]. unfold rs'.
    destruct (find _ (Comment.reactions comment)) eqn:E.
    + apply retype_first_others.
    + rewrite filter_app. simpl. rewrite String.eqb_refl. simpl.
      apply app_nil_r.
Qed.

Lemma addReaction_upsert_witness :
  findById Comment._id "c5" (comments Sample.db2) = Some Sample.liked
  /\ NoDup (map Reaction.user (Comment.reactions Sample.liked))
  /\ Http.data (snd (CommentController.addReaction Sample.db2 Sample.bob "c5"
                       (Some "heart") 9))
     = Some [Reaction.mk "u2" "heart"]
  /\ Http.status (snd (CommentController.addReaction Sample.db2 Sample.bob
                         "c5" (Some "heart") 9)) = 200%nat.
Proof.
  assert (Hnd : NoDup (map Reaction.user (Comment.reactions Sample.liked))).
  { simpl. constructor; [intros [] | constructor]. }
  split; [reflexivity|]. split; [exact Hnd|]. split; [reflexivity|].
  exact (proj1 (addReaction_upsert Sample.db2 Sample.bob "c5" (Some "heart") 9
                  Sample.liked eq_refl Hnd)).
Defined.

(** X18: on a comment with at most one reaction per user, the controller
    (which retypes the stored reaction in place) and the model method
    [addReaction] (which filters and pushes) store the same reactions up
    to their order. *)
Theorem addReaction_controller_agrees_with_method :
  forall (db : Db) (u : Requester.t) (id : ObjectId) (type : option string)
         (now : Date) (comment : Comment.t),
    findById Comment._id id (comments db) = Some comment ->
    NoDup (map Reaction.user (Comment.reactions comment)) ->
    exists stored,
      Http.data (snd (CommentController.addReaction db u id type now))
      = Some stored
      /\ Permutation stored
           (Comment.reactions
              (Comment.addReaction comment (Requester.id u) type)).
Proof.
  intros db u id type now comment Hfind Hnd.
  unfold CommentController.addReaction. rewrite Hfind.
  set (rs' := match find _ (Comment.reactions comment) with
              | Some _ => _ | None => _ end).
  destruct (CommentController.saveComment false now
              (Comment.set_reactions comment rs') db) as [saved db'] eqn:Hs.
  pose proof (f_equal fst Hs) as Hsaved.
  rewrite saveComment_unmodified in Hsaved. cbn [fst snd] in *. subst saved.
  eexists. split; [reflexivity|].
  cbn [Comment.reactions Comment.set_updatedAt Comment.set_reactions
       Comment.addReaction].
  destruct (upsert_typed (Requester.id u) (or_default type "like")
              (Comment.reactions comment) Hnd) as (_ & _ & Hperm).
  destruct type; exact Hperm.
Qed.

Lemma addReaction_controller_agrees_with_method_witness :
  findById Comment._id "c5" (comments Sample.db2) = Some Sample.liked
  /\ exists stored,
       Http.data (snd (CommentController.addReaction Sample.db2 Sample.carol
                         "c5" None 9)) = Some stored
       /\ Permutation stored
            (Comment.reactions (Comment.addReaction Sample.liked "u3" None)).
Proof.
  split; [reflexivity|].
  assert (Hnd : NoDup (map Reaction.user (Comment.reactions Sample.liked))).
  { simpl. constructor; [intros [] | constructor]. }
  exact (addReaction_controller_agrees_with_method Sample.db2 Sample.carol
           "c5" None 9 Sample.liked eq_refl Hnd).
Defined.

(** X19: [removeReaction] deletes every reaction of the requester and
    keeps the others in order; it answers 200 and changes no reaction when
    the requester had none, and it undoes an [addReaction] of a requester
    who had not reacted before. *)
Theorem removeReaction_behaviour :
  forall (db : Db) (u : Requester.t) (id : ObjectId) (type : option string)
         (now later : Date) (comment : Comment.t),
    findById Comment._id id (comments db) = Some comment ->
    let r := CommentController.removeReaction db u id now in
    let added := CommentController.addReaction db u id type now in
    Http.status (snd r) = 200%nat
    /\ Http.data (snd r)
       = Some (filter (fun x => negb (Reaction.user x =? Requester.id u)%string)
                      (Comment.reactions comment))
    /\ (exists saved,
          findById Comment._id id (comments (fst r)) = Some saved
          /\ ~ In (Requester.id u)
                  (map Reaction.user (Comment.reactions saved)))
    /\ (~ In (Requester.id u) (map Reaction.user (Comment.reactions comment)) ->
        Http.data (snd r) = Some (Comment.reactions comment)
        /\ Http.data (snd (CommentController.removeReaction (fst added) u id
                             later))
           = Some (Comment.reactions comment)).
Proof.
  intros db u id type now later comment Hfind. cbv zeta.
  destruct (findById_key _ _ _ _ Hfind) as [Hid _].
  assert (Hremove : forall db0 c0 t0,
            findById Comment._id id (comments db0) = Some c0 ->
            Http.status (snd (CommentController.removeReaction db0 u id t0))
            = 200%nat
            /\ Http.data (snd (CommentController.removeReaction db0 u id t0))
               = Some (filter
                   (fun x => negb (Reaction.user x =? Requester.id u)%string)
                   (Comment.reactions c0))
            /\ findById Comment._id id
                 (comments (fst (CommentController.removeReaction db0 u id t0)))
               = Some (Comment.set_updatedAt
                   (Comment.set_reactions c0
                      (filter
                         (fun x => negb (Reaction.user x =? Requester.id u)%string)
                         (Comment.reactions c0))) t0)).
  { intros db0 c0 t0 H0. destruct (findById_key _ _ _ _ H0) as [Hid0 _].
    unfold CommentController.removeReaction. rewrite H0.
    set (c1 := Comment.set_reactions c0 _).
    pose proof (saveComment_lookup false t0 c1 c0 db0 id Hid0 H0) as Hl.
    rewrite saveComment_unmodified in Hl.
    destruct (CommentController.saveComment false t0 c1 db0)
      as [saved db'] eqn:Hs.
    pose proof (f_equal fst Hs) as Hsaved.
    rewrite saveComment_unmodified in Hsaved. cbn [fst snd] in *.
    subst saved. now repeat split. }
  destruct (Hremove db comment now Hfind) as (H200 & Hdata & Hlook).
  split; [exact H200|]. split; [exact Hdata|]. split; [|].
  - eexists. split; [exact Hlook|].
    cbn [Comment.reactions Comment.set_updatedAt Comment.set_reactions].
    rewrite in_map_iff. intros [x [Hx Hin]]. apply filter_In in Hin.
    destruct Hin as [_ Hin]. apply negb_true_iff, String.eqb_neq in Hin.
    contradiction.
  - intro Habs. split; [now rewrite Hdata, filter_absent_user|].
    assert (Hadd : findById Comment._id id
                     (comments (fst (CommentController.addReaction db u id
                                       type now)))
                   = Some (Comment.set_updatedAt
                       (Comment.set_reactions comment
                          (Comment.reactions comment
                           ++ [Reaction.mk (Requester.id u)
                                           (or_default type "like")])) now)).
    { unfold CommentController.addReaction. rewrite Hfind.
      rewrite (proj2 (find_reaction_none _ _) Habs).
      set (c1 := Comment.set_reactions comment _).
      pose proof (saveComment_lookup false now c1 comment db id Hid Hfind)
        as Hl.
      rewrite saveComment_unmodified in Hl.
      destruct (CommentController.saveComment false now c1 db)
        as [saved db'] eqn:Hs.
      cbn [fst snd] in *. exact Hl. }
    destruct (Hremove _ _ later Hadd) as (_ & Hdata2 & _).
    rewrite Hdata2.
    cbn [Comment.reactions Comment.set_updatedAt Comment.set_reactions].
    rewrite filter_app, (filter_absent_user _ _ Habs). simpl.
    rewrite String.eqb_refl. simpl. now rewrite app_nil_r.
Qed.

Lemma removeReaction_behaviour_witness :
  findById Comment._id "c5" (comments Sample.db2) = Some Sample.liked
  /\ ~ In (Requester.id Sample.carol)
          (map Reaction.user (Comment.reactions Sample.liked))
  /\ Http.data (snd (CommentController.removeReaction
       (fst (CommentController.addReaction Sample.db2 Sample.carol "c5"
                                           (Some "heart") 9))
       Sample.carol "c5" 10))
     = Some (Comment.reactions Sample.liked).
Proof.
  assert (Habs : ~ In (Requester.id Sample.carol)
                      (map Reaction.user (Comment.reactions Sample.liked))).
  { simpl. intros [H|[]]. discriminate. }
  split; [reflexivity|]. split; [exact Habs|].
  exact (proj2 (proj2 (proj2 (proj2
    (removeReaction_behaviour Sample.db2 Sample.carol "c5" (Some "heart")
       9 10 Sample.liked eq_refl))) Habs)).
Defined.

(** ** Editing comments *)

(** X20: only the author edits a comment: every other requester, a global
    admin included, gets 403 and nothing changes.  An accepted edit stores
    the new content, marks the comment as edited at the time of the call,
    and keeps the author, task, parent, reactions and the deleted flag, so
    the author of a soft-deleted comment can replace the tombstone while
    the comment stays deleted. *)
Theorem updateComment_author_only :
  forall (db : Db) (u : Requester.t) (id : ObjectId) (content : string)
         (now : Date) (comment : Comment.t),
    findById Comment._id id (comments db) = Some comment ->
    let r := CommentController.updateComment db u id content now in
    (Comment.author comment <> Requester.id u ->
     Http.status (snd r) = 403%nat /\ fst r = db)
    /\ (Comment.author comment = Requester.id u ->
        Http.status (snd r) = 200%nat
        /\ exists saved,
             findById Comment._id id (comments (fst r)) = Some saved
             /\ Http.data (snd r) = Some saved
             /\ Comment.content saved = content
             /\ Comment.isEdited saved = true
             /\ Comment.editedAt saved = Some now
             /\ Comment.isDeleted saved = Comment.isDeleted comment
             /\ Comment.author saved = Comment.author comment
             /\ Comment.task saved = Comment.task comment
             /\ Comment.parentComment saved = Comment.parentComment comment
             /\ Comment.reactions saved = Comment.reactions comment).
Proof.
  intros db u id content now comment Hfind. cbv zeta.
  destruct (findById_key _ _ _ _ Hfind) as [Hid _].
  unfold CommentController.updateComment. rewrite Hfind.
  destruct (Comment.author comment =? Requester.id u)%string eqn:E;
    cbn [negb].
  - apply String.eqb_eq in E. split; [intro H; contradiction|]. intros _.
    set (c1 := Comment.mk _ _ _ _ _ _ _ _ _ _ _ _).
    set (m := negb (Comment.content comment =? content)%string).
    pose proof (saveComment_lookup m now c1 comment db id Hid Hfind) as Hl.
    assert (Hsaved : fst (CommentController.saveComment m now c1 db)
                     = Comment.set_updatedAt c1 now).
    { unfold CommentController.saveComment, Comment.pre_save. cbn [fst].
      now destruct (m && negb false). }
    destruct (CommentController.saveComment m now c1 db) as [saved db'].
    cbn [fst snd Http.status Http.data Http.ok] in *. subst saved.
    split; [reflexivity|]. eexists. split; [exact Hl|]. now repeat split.
  - apply String.eqb_neq in E. split; [intros _; now split|].
    intro H. contradiction.
Qed.

Lemma updateComment_author_only_witness :
  findById Comment._id "c2" (comments Sample.db0) = Some Sample.replyC
  /\ Comment.author Sample.replyC <> Requester.id Sample.admin9
  /\ Http.status (snd (CommentController.updateComment Sample.db0 Sample.admin9
                         "c2" "edited" 9)) = 403%nat.
Proof.
  assert (Hne : Comment.author Sample.replyC <> Requester.id Sample.admin9)
    by discriminate.
  split; [reflexivity|]. split; [exact Hne|].
  exact (proj1 (proj1 (updateComment_author_only Sample.db0 Sample.admin9
                         "c2" "edited" 9 Sample.replyC eq_refl) Hne)).
Defined.

(** ** Replies to replies *)




(** ** Registration and accounts *)

Lemma find_app_last {A : Type} (f : A -> bool) (l : list A) (x : A) :
  f x = true -> exists y, find f (l ++ [x]) = Some y.
Proof.
  intro Hx. induction l as [|z l IH]; simpl.
  - rewrite Hx. now exists x.
  - destruct (f z); [now exists z | exact IH].
Qed.

(** X22: an accepted registration stores the email in lower case, and any
    later registration whose email differs from it only by the case of
    its letters is refused with 400 and creates no account. *)
Theorem register_rejects_taken_email :
  forall (castString : Js.value -> option string) (hash : string -> string)
         (db : Db) (first second : AuthController.RegisterBody)
         (id1 id2 : ObjectId) (t1 t2 : Date),
    Http.status (snd (AuthController.register castString hash db first id1 t1))
    = 201%nat ->
    AuthController.toLowerCase (AuthController.rb_email second)
    = AuthController.toLowerCase (AuthController.rb_email first) ->
    let db1 := fst (AuthController.register castString hash db first id1 t1) in
    let r := AuthController.register castString hash db1 second id2 t2 in
    (exists account,
        Http.data (snd (AuthController.register castString hash db first id1 t1))
        = Some account
        /\ In account (users db1)
        /\ User.email account
           = AuthController.toLowerCase (AuthController.rb_email first))
    /\ Http.status (snd r) = 400%nat
    /\ Http.message (snd r) = Some "An account with this email already exists"
    /\ fst r = db1.
Proof.
  intros castString hash db first second id1 id2 t1 t2 Hok Hsame. cbv zeta.
  unfold AuthController.register in Hok |- *.
  destruct (find _ (users db)); [discriminate Hok|].
  destruct (AuthController.schemaRole castString _) as [role|];
    [|discriminate Hok].
  destruct (AuthController.createValid first); [|discriminate Hok].
  cbn [fst snd Http.data Http.ok users set_users].
  set (account := User.mk id1 _ _ _ role _ _ true t1).
  split.
  - exists account. split; [reflexivity|]. split; [|reflexivity].
    unfold create. apply in_or_app. right. now left.
  - rewrite Hsame. unfold create.
    destruct (find_app_last
                (fun x => (User.email x
                           =? AuthController.toLowerCase
                                (AuthController.rb_email first))%string)
                (users db) account) as [y Hy].
    + unfold account. cbn [User.email]. apply String.eqb_refl.
    + rewrite Hy. now repeat split.
Qed.

Lemma register_rejects_taken_email_witness :
  Http.status (snd (AuthController.register (fun _ => None) (fun p => p)
                      Sample.empty Sample.wantsAdmin "u7" 3)) = 201%nat
  /\ Http.status (snd (AuthController.register (fun _ => None) (fun p => p)
       (fst (AuthController.register (fun _ => None) (fun p => p)
               Sample.empty Sample.wantsAdmin "u7" 3))
       (AuthController.mkRegisterBody "Eve" "MALLORY@EXAMPLE.COM" "secret2"
                                      None None Js.Undefined)
       "u8" 4)) = 400%nat.
Proof.
  split; [reflexivity|].
  exact (proj1 (proj2 (register_rejects_taken_email (fun _ => None)
    (fun p => p) Sample.empty Sample.wantsAdmin
    (AuthController.mkRegisterBody "Eve" "MALLORY@EXAMPLE.COM" "secret2"
                                   None None Js.Undefined)
    "u7" "u8" 3 4 eq_refl eq_refl))).
Defined.

(** ** The bearer token and the [protect] middleware *)

Lemma string_append_cons (a : string) (c : ascii) (b : string) :
  ((a ++ String c "") ++ b = a ++ String c b)%string.
Proof.
  induction a as [|x a IH]; simpl; [reflexivity|]. now rewrite IH.
Qed.

Lemma split_space_no_space (cur t : string) :
  (forall c, In c (list_ascii_of_string t) -> c <> " "%char) ->
  AuthMiddleware.split_space_from cur t = [(cur ++ t)%string].
Proof.
  revert cur. induction t as [|c t IH]; intros cur Hns; simpl.
  - f_equal. induction cur as [|x cur IHc]; simpl; [reflexivity|].
    now f_equal.
  - destruct (Ascii.eqb c " "%char) eqn:E.
    + apply Ascii.eqb_eq in E. exfalso. apply (Hns c); [now left | exact E].
    + rewrite IH.
      * now rewrite string_append_cons.
      * intros d Hd. apply Hns. now right.
Qed.

(** X23: the header [Bearer <token>] yields exactly the token, for every
    non-empty token without a space; a missing header, an empty one and a
    header that does not start with [Bearer] yield none, and [protect]
    answers 401 to a request without a token, whatever the token service
    and the database hold. *)
Theorem bearerToken_reads_the_token :
  forall (token : string),
    token <> "" ->
    (forall c, In c (list_ascii_of_string token) -> c <> " "%char) ->
    AuthMiddleware.bearerToken (Some ("Bearer " ++ token)%string) = Some token
    /\ AuthMiddleware.bearerToken None = None
    /\ AuthMiddleware.bearerToken (Some "") = None
    /\ (forall h, String.prefix "Bearer" h = false ->
                  AuthMiddleware.bearerToken (Some h) = None)
    /\ (forall verify db authorization,
          AuthMiddleware.bearerToken authorization = None ->
          AuthMiddleware.protect verify db authorization
          = inl (Http.fail 401
                   "Not authorized to access this route. Please login.")).
Proof.
  intros token Hne Hns.
  split; [|split; [reflexivity|split; [reflexivity|split]]].
  - unfold AuthMiddleware.bearerToken, given.
    change (("Bearer " ++ token)%string =? "")%string with false.
    cbn iota.
    change (String.prefix "Bearer" ("Bearer " ++ token)%string) with true.
    cbn iota.
    change (AuthMiddleware.split_space_from "" ("Bearer " ++ token)%string)
      with ("Bearer" :: AuthMiddleware.split_space_from "" token).
    rewrite (split_space_no_space "" token Hns). cbn [nth_error].
    change ("" ++ token)%string with token.
    apply String.eqb_neq in Hne. now rewrite Hne.
  - intros h Hp. unfold AuthMiddleware.bearerToken, given.
    destruct (h =? "")%string; [reflexivity | now rewrite Hp].
  - intros verify db authorization Hnone. unfold AuthMiddleware.protect.
    now rewrite Hnone.
Qed.

Lemma bearerToken_reads_the_token_witness :
  AuthMiddleware.bearerToken (Some "Bearer u2") = Some "u2".
Proof.
  refine (proj1 (bearerToken_reads_the_token "u2" _ _)).
  - discriminate.
  - intros c [<-|[<-|[]]]; discriminate.
Defined.

(** X24: [protect] lets a request through only with a stored, active
    user: the user it attaches is the one the token service named for the
    bearer token of the header. *)
Theorem protect_attaches_only_active_users :
  forall (verify : string -> option ObjectId) (db : Db)
         (authorization : option string) (user : User.t),
    AuthMiddleware.protect verify db authorization = inr user ->
    User.isActive user = true
    /\ In user (users db)
    /\ exists token,
         AuthMiddleware.bearerToken authorization = Some token
         /\ verify token = Some (User._id user).
Proof.
  intros verify db authorization user. unfold AuthMiddleware.protect.
  destruct (AuthMiddleware.bearerToken authorization) as [token|];
    [|discriminate].
  destruct (verify token) as [id|] eqn:Hv; [|discriminate].
  destruct (findById User._id id (users db)) as [x|] eqn:Hf; [|discriminate].
  destruct (findById_key _ _ _ _ Hf) as [Hid Hin].
  destruct (User.isActive x) eqn:Ha; cbn [negb]; [|discriminate].
  intro H. inversion H; subst x. split; [exact Ha|]. split; [exact Hin|].
  exists token. split; [reflexivity|]. now rewrite Hid.
Qed.

Lemma protect_attaches_only_active_users_witness :
  AuthMiddleware.protect Sample.tokenIsId Sample.db3 (Some "Bearer u2")
  = inr Sample.bobAccount
  /\ User.isActive Sample.bobAccount = true.
Proof.
  split; [reflexivity|].
  exact (proj1 (protect_attaches_only_active_users Sample.tokenIsId Sample.db3
                  (Some "Bearer u2") Sample.bobAccount eq_refl)).
Defined.

(** ** Deleting a user *)

(** X25: [deleteUser] is a soft delete.  For a target other than the
    requester it answers 200, keeps the account with its email, role and
    password and only deactivates it; from then on [protect] answers 401
    to every token that names this account, and the team-member list no
    longer shows it. *)
Theorem deleteUser_deactivates_and_locks_out :
  forall (verify : string -> option ObjectId)
         (regexTest : string -> string -> bool)
         (db : Db) (u : Requester.t) (id : ObjectId) (target : User.t),
    id <> Requester.id u ->
    findById User._id id (users db) = Some target ->
    let r := UserController.deleteUser db u id in
    Http.status (snd r) = 200%nat
    /\ (exists stored,
          findById User._id id (users (fst r)) = Some stored
          /\ User.isActive stored = false
          /\ User.email stored = User.email target
          /\ User.role stored = User.role target
          /\ User.password stored = User.password target)
    /\ (forall authorization token,
          AuthMiddleware.bearerToken authorization = Some token ->
          verify token = Some id ->
          AuthMiddleware.protect verify (fst r) authorization
          = inl (Http.fail 401
                   "User account is deactivated. Please contact support."))
    /\ (forall search limit members x,
          Http.data (UserController.getTeamMembers regexTest (fst r) search
                       limit) = Some members ->
          In x members -> User._id x <> id).
Proof.
  intros verify regexTest db u id target Hne Hfind. cbv zeta.
  destruct (findById_key _ _ _ _ Hfind) as [Hid _].
  unfold UserController.deleteUser.
  apply String.eqb_neq in Hne. rewrite Hne, Hfind.
  cbn [fst snd users set_users Http.status Http.ok].
  remember (UserController.set_isActive target false) as stored eqn:Hst.
  assert (Hk : User._id stored = id) by (rewrite Hst; exact Hid).
  assert (Hlook : findById User._id id (save User._id stored (users db))
                  = Some stored).
  { rewrite <- Hk at 1. apply (findById_save_same User._id stored target).
    rewrite Hk. exact Hfind. }
  split; [reflexivity|]. split; [|split].
  - exists stored. split; [exact Hlook|]. rewrite Hst. now repeat split.
  - intros authorization token Hb Hv. unfold AuthMiddleware.protect.
    cbn [users set_users]. rewrite Hb, Hv, Hlook. now rewrite Hst.
  - intros search limit members x Hdata Hx.
    unfold UserController.getTeamMembers in Hdata.
    cbn [Http.data Http.ok users set_users] in Hdata.
    inversion Hdata; subst members.
    clear Hdata.
    assert (Hin : In x (sort_by UserController.name_asc
                   (filter (fun x0 =>
                      User.isActive x0
                      && match given search with
                         | Some pat => regexTest pat (User.name x0)
                                       || regexTest pat (User.email x0)
                         | None => true
                         end) (save User._id stored (users db))))).
    { rewrite <- (firstn_skipn (Z.to_nat (or_default limit 20))).
      apply in_or_app. now left. }
    apply sort_by_In, filter_In in Hin. destruct Hin as [Hsaved Hact].
    apply andb_true_iff in Hact. destruct Hact as [Hact _].
    apply save_In in Hsaved. destruct Hsaved as [->|[_ Hother]].
    + rewrite Hst in Hact. discriminate Hact.
    + now rewrite Hk in Hother.
Qed.

Lemma deleteUser_deactivates_and_locks_out_witness :
  "u2" <> Requester.id Sample.admin9
  /\ findById User._id "u2" (users Sample.db3) = Some Sample.bobAccount
  /\ AuthMiddleware.protect Sample.tokenIsId
       (fst (UserController.deleteUser Sample.db3 Sample.admin9 "u2"))
       (Some "Bearer u2")
     = inl (Http.fail 401
              "User account is deactivated. Please contact support.").
Proof.
  assert (Hne : "u2" <> Requester.id Sample.admin9) by discriminate.
  split; [exact Hne|]. split; [reflexivity|].
  exact (proj1 (proj2 (proj2 (deleteUser_deactivates_and_locks_out
    Sample.tokenIsId (fun _ _ => false) Sample.db3 Sample.admin9 "u2"
    Sample.bobAccount Hne eq_refl))) (Some "Bearer u2") "u2" eq_refl eq_refl).
Defined.

(** X26: the route [DELETE /api/users/:id] changes nothing unless it
    answers 200.  A requester who is not a global admin gets 403.  For an
    admin, a string that [isMongoId] refuses gets 400 from the validator,
    their own identifier as the store prints it gets 400 "You cannot
    delete your own account" even though the account exists, and an
    identifier of 24 lower-case hexadecimal digits that no account
    carries gets 404. *)
Theorem deleteUserRoute_refusals :
  forall (db : Db) (u : Requester.t) (id : string),
    let r := UserController.deleteUserRoute db u id in
    (Requester.role u <> UserRole.admin -> Http.status (snd r) = 403%nat)
    /\ (Requester.role u = UserRole.admin ->
        Validator.isMongoId id = false ->
        Http.status (snd r) = 400%nat
        /\ Http.message (snd r) = Some "Validation failed")
    /\ (Requester.role u = UserRole.admin ->
        Validator.isMongoId id = true ->
        id = Requester.id u ->
        Http.status (snd r) = 400%nat
        /\ Http.message (snd r) = Some "You cannot delete your own account")
    /\ (Requester.role u = UserRole.admin ->
        Validator.isMongoId id = true ->
        Mongoose.validObjectId id = true ->
        Mongoose.castObjectId id = id ->
        id <> Requester.id u ->
        findById User._id id (users db) = None ->
        Http.status (snd r) = 404%nat)
    /\ (Http.status (snd r) <> 200%nat -> fst r = db).
Proof.
  intros db u id. cbv zeta.
  unfold UserController.deleteUserRoute, AuthMiddleware.authorize.
  cbn [existsb]. rewrite orb_false_r.
  destruct (UserRole.eqb (Requester.role u) UserRole.admin) eqn:Ea;
    cbn [negb].
  - apply UserRole_eqb_eq in Ea.
    destruct (Validator.isMongoId id) eqn:Ev.
    + unfold UserController.deleteUser.
      destruct (id =? Requester.id u)%string eqn:Es.
      * apply String.eqb_eq in Es. rewrite orb_true_r.
        cbn [fst snd Http.status Http.message Http.fail].
        split; [congruence|]. split; [discriminate|].
        split; [now split|]. split; [congruence | reflexivity].
      * apply String.eqb_neq in Es. rewrite orb_false_r.
        destruct (Mongoose.validObjectId id) eqn:Eo.
        -- destruct (findById User._id id (users db)) as [target|] eqn:Hf;
             cbn [fst snd Http.status Http.message Http.fail Http.ok].
           ++ split; [congruence|]. split; [discriminate|].
              split; [congruence|]. split; [discriminate|].
              intro H. now elim H.
           ++ split; [congruence|]. split; [discriminate|].
              split; [congruence|]. split; reflexivity.
        -- cbn [fst snd Http.status Http.message Http.fail].
           split; [congruence|]. split; [discriminate|].
           split; [congruence|]. split; [discriminate | reflexivity].
    + cbn [fst snd Http.status Http.message Http.fail].
      split; [congruence|]. split; [now split|].
      split; [discriminate|]. split; [discriminate | reflexivity].
  - cbn [fst snd Http.status Http.fail].
    split; [reflexivity|].
    split; [|split; [|split; [|reflexivity]]];
      intro Hr; rewrite Hr in Ea; discriminate.
Qed.

Lemma deleteUserRoute_refusals_witness :
  Requester.role Sample.root = UserRole.admin
  /\ Validator.isMongoId Sample.rootId = true
  /\ findById User._id Sample.rootId (users Sample.db5)
     = Some Sample.rootAccount
  /\ Http.status (snd (UserController.deleteUserRoute Sample.db5 Sample.root
                         Sample.rootId)) = 400%nat.
Proof.
  split; [reflexivity|]. split; [reflexivity|]. split; [reflexivity|].
  exact (proj1 (proj1 (proj2 (proj2
    (deleteUserRoute_refusals Sample.db5 Sample.root Sample.rootId)))
    eq_refl eq_refl eq_refl)).
Defined.

(** ** Instances of the membership and status lemmas *)


Lemma addMember_preserves_NoDup_witness :
  findById Project._id "p1" (projects Sample.db0) = Some Sample.alpha
  /\ NoDup (map Member.user (Project.members Sample.alpha))
  /\ Mongoose.castObjectId "u3" = "u3"
  /\ exists p',
       findById Project._id "p1"
         (projects (fst (ProjectController.addMember Sample.db0 Sample.alice
                           "p1" "u3" None 10))) = Some p'
       /\ NoDup (map Member.user (Project.members p')).
Proof.
  assert (Hnd : NoDup (map Member.user (Project.members Sample.alpha))).
  { simpl. constructor; [intros [] | constructor]. }
  split; [reflexivity|]. split; [exact Hnd|]. split; [reflexivity|].
  eexists. split; [reflexivity|].
  exact (addMember_preserves_NoDup Sample.db0 Sample.alice "p1" "u3" None 10
           Sample.alpha _ eq_refl Hnd eq_refl eq_refl).
Defined.

Lemma removeMember_preserves_NoDup_witness :
  findById Project._id "p1" (projects Sample.db0) = Some Sample.alpha
  /\ NoDup (map Member.user (Project.members Sample.alpha))
  /\ exists p',
       findById Project._id "p1"
         (projects (fst (ProjectController.removeMember Sample.db0
                           Sample.alice "p1" "u2" 10))) = Some p'
       /\ NoDup (map Member.user (Project.members p')).
Proof.
  assert (Hnd : NoDup (map Member.user (Project.members Sample.alpha))).
  { simpl. constructor; [intros [] | constructor]. }
  split; [reflexivity|]. split; [exact Hnd|].
  eexists. split; [reflexivity|].
  exact (removeMember_preserves_NoDup Sample.db0 Sample.alice "p1" "u2" 10
           Sample.alpha _ eq_refl Hnd eq_refl).
Defined.

Lemma updateTaskStatus_completedAt_witness :
  findById Task._id "t1" (tasks Sample.db0) = Some Sample.task1
  /\ exists saved,
       Http.data (snd (TaskController.updateTaskStatus Sample.db0 "t1"
                         TaskStatus.completed None 10)) = Some saved
       /\ Task.completedAt saved = Some 10.
Proof.
  split; [reflexivity|].
  destruct (updateTaskStatus_completedAt Sample.db0 "t1" TaskStatus.completed
              None 10 Sample.task1 eq_refl)
    as [saved (_ & Hdata & _ & _ & Hdone & _)].
  exists saved. split; [exact Hdata|].
  apply Hdone; [reflexivity | discriminate | reflexivity].
Defined.
